(** * nanoreth block-cache scripts: a shallow embedding

    The three Python scripts of the repository

      - [scripts/check_block_completeness.py]
      - [scripts/download_boundary_blocks.py]
      - [scripts/fetch_blocks_rpc.py]

    are embedded below, one module per script, on top of a small module
    [Py] that fixes the meaning of the Python primitives they use
    ([str], [hex], [int], [//], [sorted], truthiness, [int.to_bytes]).

    Conventions of the embedding:
      - Python [int] is [Z]; [//] is [Z.div] (both round towards minus
        infinity); Python [str] is [string], restricted to ASCII text;
      - a Python [float] is a binary64 value; the delays are held as the
        rationals they denote, comparisons and doubling are exact on them,
        and the product with 0.8 is the machine's binary64 product;
      - an exception is a value of [Py.exn]; a call that may raise returns
        a [Py.result];
      - the file tree below [blocks_dir] is a finite map from relative
        paths to file contents where existence and writes matter, and a
        directory listing where [os.listdir] / [Path.iterdir] matter;
      - the network is an oracle: the outcome of the k-th POST of a run. *)

From Stdlib Require Import ZArith QArith Qminmax Lia Lqa.
From Stdlib Require Import String Ascii List.
From Stdlib Require Import DecimalString HexadecimalString DecimalZ DecimalPos.
From Stdlib Require Import HexadecimalN.
From Stdlib Require Import Strings.Byte.
From Stdlib Require Import Sorting.Permutation.
From Stdlib Require Floats.
From stdpp Require Import base option gmap strings list.

Local Open Scope string_scope.
Local Open Scope Z_scope.

(** ** Python primitives *)

Module Py.

(** Exception classes that occur in the scripts. [RequestException]
    stands for [requests.RequestException] and all its subclasses. *)
Inductive exn : Type :=
| RequestException
| JSONDecodeError
| KeyError
| TypeError
| ValueError
| OverflowError
| OSError
| OtherException.

Inductive result (A : Type) : Type :=
| Ok (a : A)
| Raise (e : exn).
Arguments Ok {A} a.
Arguments Raise {A} e.

Definition bind {A B} (r : result A) (k : A -> result B) : result B :=
  match r with
  | Ok a => k a
  | Raise e => Raise e
  end.

(** [str(n)] for an [int]. *)
Definition str (n : Z) : string :=
  DecimalString.NilZero.string_of_int (Z.to_int n).

(** [hex(n)] for an [int]: ["0x.."], lower case, ["-0x.."] when negative. *)
Definition hex (n : Z) : string :=
  let digits :=
    HexadecimalString.NilZero.string_of_uint (N.to_hex_uint (Z.abs_N n)) in
  if n <? 0 then "-0x" +:+ digits else "0x" +:+ digits.

(** [a // b] on [int]. *)
Definition floordiv (a b : Z) : Z := a / b.

(** *** Parsing: [str.isdigit], [int(s)], [int(s, 16)] (ASCII text) *)

Definition is_digit (c : ascii) : bool :=
  let n := nat_of_ascii c in ((48 <=? n) && (n <=? 57))%nat.

(** [s.isdigit()]: non-empty and only decimal digits. *)
Fixpoint all_digits (s : string) : bool :=
  match s with
  | EmptyString => true
  | String c r => is_digit c && all_digits r
  end.

Definition isdigit (s : string) : bool :=
  match s with
  | EmptyString => false
  | _ => all_digits s
  end.

(** White space skipped by [int()] around the literal. *)
Definition is_space (c : ascii) : bool :=
  let n := nat_of_ascii c in ((n =? 32) || ((9 <=? n) && (n <=? 13)))%nat.

Fixpoint lstrip (s : string) : string :=
  match s with
  | String c r => if is_space c then lstrip r else s
  | EmptyString => s
  end.

(** Value of a character as a digit (any base up to 16), if it is one. *)
Definition digit_value (c : ascii) : option Z :=
  let n := nat_of_ascii c in
  if ((48 <=? n) && (n <=? 57))%nat then Some (Z.of_nat n - 48)
  else if ((97 <=? n) && (n <=? 102))%nat then Some (Z.of_nat n - 87)
  else if ((65 <=? n) && (n <=? 70))%nat then Some (Z.of_nat n - 55)
  else None.

Definition is_underscore (c : ascii) : bool := (nat_of_ascii c =? 95)%nat.

(** The digit scanner of [int()]: digits of the base, single underscores
    allowed between digits. [prev_us] tells whether the previous character
    was an underscore. Returns the value read and the unread rest, or
    [None] for a doubled or trailing underscore. *)
Fixpoint scan_digits (base : Z) (s : string) (prev_us : bool) (acc : Z)
  : option (Z * string) :=
  match s with
  | EmptyString => if prev_us then None else Some (acc, s)
  | String c r =>
      if is_underscore c then
        if prev_us then None else scan_digits base r true acc
      else
        match digit_value c with
        | Some d =>
            if d <? base then scan_digits base r false (acc * base + d)
            else if prev_us then None else Some (acc, s)
        | None => if prev_us then None else Some (acc, s)
        end
  end.

Definition strip_sign (s : string) : bool * string :=
  match s with
  | String "+" r => (false, r)
  | String "-" r => (true, r)
  | _ => (false, s)
  end.

(** For base 16 an optional ["0x"] / ["0X"] prefix, and one underscore
    after it, are skipped. *)
Definition strip_prefix (base : Z) (s : string) : string :=
  if base =? 16 then
    match s with
    | String "0" (String x r) =>
        if (Ascii.eqb x "x" || Ascii.eqb x "X")%bool then
          match r with
          | String "_" r' => r'
          | _ => r
          end
        else s
    | _ => s
    end
  else s.

(** [int(s, base)] for base 10 or 16; [None] stands for [ValueError]. *)
Definition int_of_str (base : Z) (s : string) : option Z :=
  let '(neg, s1) := strip_sign (lstrip s) in
  let s2 := strip_prefix base s1 in
  match s2 with
  | String "_" _ => None
  | _ =>
      match scan_digits base s2 false 0 with
      | None => None
      | Some (v, rest) =>
          if (String.length rest =? String.length s2)%nat then None
          else
            match lstrip rest with
            | EmptyString => Some (if neg then - v else v)
            | _ => None
            end
      end
  end.

Definition int10 (s : string) : option Z := int_of_str 10 s.
Definition int16 (s : string) : option Z := int_of_str 16 s.

(** *** Bytes *)

Definition bytes : Type := list byte.

Definition byte_of_Z (z : Z) : byte :=
  match Byte.of_N (Z.to_N z) with
  | Some b => b
  | None => x00
  end.

Definition Z_of_byte (b : byte) : Z := Z.of_N (Byte.to_N b).

(** The [n] low-order base-256 digits of [v], least significant first. *)
Fixpoint le_digits (n : nat) (v : Z) : list byte :=
  match n with
  | O => []
  | S k => byte_of_Z (v mod 256) :: le_digits k (v / 256)
  end.

(** [v.to_bytes(length, "big")]. *)
Definition to_bytes_big (v : Z) (length : Z) : result bytes :=
  if length <? 0 then Raise ValueError
  else if v <? 0 then Raise OverflowError
  else if 256 ^ length <=? v then Raise OverflowError
  else Ok (rev (le_digits (Z.to_nat length) v)).

(** The unsigned big-endian value of a byte string. *)
Definition be_value (bs : bytes) : Z :=
  fold_left (fun acc b => acc * 256 + Z_of_byte b) bs 0.

(** [bytes.fromhex(s)]: pairs of hex digits, white space allowed before
    a pair and at the end; [None] stands for [ValueError]. *)
Fixpoint fromhex (s : string) : option bytes :=
  match s with
  | EmptyString => Some []
  | String c r =>
      if is_space c then fromhex r
      else
        match digit_value c, r with
        | Some hi, String c2 r2 =>
            match digit_value c2 with
            | Some lo =>
                option_map (cons (byte_of_Z (hi * 16 + lo))) (fromhex r2)
            | None => None
            end
        | _, _ => None
        end
  end.

(** *** Sorting *)

(** [sorted(l, key=...)] is a stable sort; [leb a b] decides
    [key a <= key b]. Insertion from the right keeps equal keys in their
    original order. *)
Fixpoint insert_sorted {A} (leb : A -> A -> bool) (x : A) (l : list A)
  : list A :=
  match l with
  | [] => [x]
  | y :: r => if leb x y then x :: l else y :: insert_sorted leb x r
  end.

Definition sorted {A} (leb : A -> A -> bool) (l : list A) : list A :=
  fold_right (insert_sorted leb) [] l.

(** [l[-1]] on a non-empty list. *)
Definition last_opt {A} (l : list A) : option A := List.last (map Some l) None.

(** [s.endswith(suffix)]. *)
Definition endswith (s suffix : string) : bool :=
  let n := String.length s in
  let k := String.length suffix in
  ((k <=? n)%nat && String.eqb (String.substring (n - k) k s) suffix)%bool.

(** [s.replace(pat, "")] for a non-empty [pat]: every occurrence, found
    left to right without overlap, is dropped. [skip] counts the
    characters of an occurrence still to drop. *)
Fixpoint remove_all_from (pat s : string) (skip : nat) : string :=
  match s with
  | EmptyString => EmptyString
  | String c r =>
      match skip with
      | S k => remove_all_from pat r k
      | O =>
          if String.prefix pat s
          then remove_all_from pat r (String.length pat - 1)
          else String c (remove_all_from pat r 0)
      end
  end.

Definition remove_all (pat s : string) : string := remove_all_from pat s 0.

(** [list(range(start, stop))]. *)
Definition range (start stop : Z) : list Z :=
  map (fun k => start + Z.of_nat k) (seq 0 (Z.to_nat (stop - start))).

(** [list(range(0, stop, step))] for [stop >= 0]; a zero step is a
    [ValueError], a negative one gives the empty range. *)
Definition range_step (stop step : Z) : result (list Z) :=
  if step =? 0 then Raise ValueError
  else if step <? 0 then Ok []
  else Ok (map (fun k => Z.of_nat k * step)
             (seq 0 (Z.to_nat ((stop + step - 1) / step)))).

(** [list(range(start, stop, step))] for a positive [step]. *)
Definition range3 (start stop step : Z) : list Z :=
  map (fun k => start + Z.of_nat k * step)
    (seq 0 (Z.to_nat ((stop - start + step - 1) / step))).

(** [l[i : j]] for [0 <= i <= j]. *)
Definition slice {A} (l : list A) (i j : Z) : list A :=
  firstn (Z.to_nat (j - i)) (skipn (Z.to_nat i) l).

(** [enumerate(l)]. *)
Definition enumerate {A} (l : list A) : list (nat * A) :=
  combine (seq 0 (List.length l)) l.

(** Two-argument [max] and [min] return their first argument unless the
    second is strictly better. *)
Definition Qlt_bool (a b : Q) : bool := negb (Qle_bool b a).
Definition max (a b : Q) : Q := if Qlt_bool a b then b else a.
Definition min (a b : Q) : Q := if Qlt_bool b a then b else a.

(** *** Floats

    A [float] is a binary64 value. The scripts' delays are finite floats
    and are held as the rationals they denote: comparisons, [max], [min]
    and doubling are exact on them (a doubling that overflows gives
    infinity, which [min] caps at 120 as it caps the exact double). A
    product with a float that is no power of two is rounded; it is
    computed by the binary64 multiplication itself, between two exact
    conversions. *)

Import PrimFloat.

(** [p = m * 2 ^ j] with [m] odd. *)
Fixpoint odd_part (p : positive) : positive * Z :=
  match p with
  | xO q => let '(m, j) := odd_part q in (m, j + 1)
  | _ => (p, 0)
  end.

(** The float of a positive integer, exact when its odd part is below
    [2 ^ 53]. *)
Definition float_of_pos (p : positive) : float :=
  let '(m, j) := odd_part p in
  FloatOps.Z.ldexp (of_uint63 (Uint63Axioms.of_Z (Z.pos m))) j.

Definition float_of_Z (z : Z) : float :=
  match z with
  | Z0 => zero
  | Zpos p => float_of_pos p
  | Zneg p => opp (float_of_pos p)
  end.

(** The float that denotes [q]. A rational that no float denotes is
    rounded, as [numerator / denominator] is. *)
Definition float_of_Q (q : Q) : float :=
  let q := Qred q in
  let '(m, k) := odd_part (Qden q) in
  match m with
  | xH => FloatOps.Z.ldexp (float_of_Z (Qnum q)) (- k)
  | _ => div (float_of_Z (Qnum q)) (float_of_pos (Qden q))
  end.

(** The rational a finite float denotes. *)
Definition Q_of_float (f : float) : Q :=
  match FloatOps.Prim2SF f with
  | SpecFloat.S754_finite s m e =>
      let v := if s then Z.neg m else Z.pos m in
      Qred (if 0 <=? e then inject_Z (v * 2 ^ e)
            else v # Pos.shiftl 1 (Z.to_N (- e)))
  | _ => 0%Q
  end.

(** The literal [0.8]: the float nearest to 8/10. *)
#[warnings="-inexact-float"]
Definition zero_point_eight : float := 0.8%float.

(** [x * y] on floats. *)
Definition float_mul (x : Q) (y : float) : Q :=
  Q_of_float (mul (float_of_Q x) y).

End Py.

(** ** The local archive as seen by the scripts *)

Module Archive.

(** A path below [blocks_dir]: the two directory names and the file
    name, as the scripts join them ([blocks_dir / str(m) / str(t) / name],
    [os.path.join(blocks_dir, str(m), str(t), name)]). *)
Definition rel_path : Type := string * string * string.

(** The entry files: a finite map from relative path to content.
    [os.path.exists] / [Path.exists] is definedness. *)
Definition exists_ (files : gmap rel_path Py.bytes) (p : rel_path) : bool :=
  bool_decide (is_Some (files !! p)).

(** The S3 object key / printed form of a relative path. *)
Definition key_of (p : rel_path) : string :=
  let '(m, t, f) := p in m +:+ "/" +:+ t +:+ "/" +:+ f.

(** What [os.listdir] and [Path.iterdir] see: a directory is a list of
    named entries, each a plain file or a directory. *)
#[warnings="-register-all"]
Inductive node : Type :=
| File
| Dir (entries : list (string * node)).

Definition names (entries : list (string * node)) : list string :=
  map fst entries.

Fixpoint find_entry (name : string) (entries : list (string * node))
  : option node :=
  match entries with
  | [] => None
  | (n, e) :: r => if String.eqb n name then Some e else find_entry name r
  end.

Definition is_dir (e : node) : bool :=
  match e with
  | Dir _ => true
  | File => false
  end.

End Archive.

(** ** scripts/check_block_completeness.py *)

Module CheckBlockCompleteness.
Import Archive.

Definition expected_dir (block_number : Z) : Z * Z :=
  if block_number =? 0 then (0, 0)
  else
    let millions := Py.floordiv (block_number - 1) 1000000 * 1000000 in
    let thousands := Py.floordiv (block_number - 1) 1000 * 1000 in
    (millions, thousands).

Definition cache_path (block_number : Z) : rel_path :=
  let '(m, t) := expected_dir block_number in
  (Py.str m, Py.str t, Py.str block_number +:+ ".rmp.lz4").

(** The object key built inline by [download_one]. *)
Definition download_one_key (bn : Z) : string :=
  let '(m, t) := expected_dir bn in
  Py.str m +:+ "/" +:+ Py.str t +:+ "/" +:+ Py.str bn +:+ ".rmp.lz4".

(** [f.suffix == ".lz4"]: the name ends in [".lz4"] after a non-empty
    stem. *)
Definition has_lz4_suffix (name : string) : bool :=
  (Py.endswith name ".lz4" && (4 <? String.length name)%nat)%bool.

(** [f.stem] for such a name. *)
Definition stem (name : string) : string :=
  String.substring 0 (String.length name - 4) name.

(** [s.split(".")[0]]. *)
Fixpoint before_dot (s : string) : string :=
  match s with
  | EmptyString => EmptyString
  | String c r => if Ascii.eqb c "." then EmptyString else String c (before_dot r)
  end.

(** The innermost loop: [best] updated over the entries of one
    thousands-directory; [ValueError] of [int] is swallowed. *)
Definition scan_files (best : Z) (entries : list (string * node)) : Z :=
  fold_left
    (fun best f =>
       if has_lz4_suffix f then
         match Py.int10 (before_dot (stem f)) with
         | Some bn => if best <? bn then bn else best
         | None => best
         end
       else best)
    (names entries) best.

Definition sorted_entries (entries : list (string * node))
  : list (string * node) :=
  Py.sorted (fun a b => String.leb (fst a) (fst b)) entries.

Definition scan_thousands (best : Z) (entries : list (string * node)) : Z :=
  fold_left
    (fun best d =>
       match d with
       | (name, Dir fs) => if Py.isdigit name then scan_files best fs else best
       | (_, File) => best
       end)
    (sorted_entries entries) best.

Definition find_latest_local_block (blocks_dir : list (string * node)) : Z :=
  fold_left
    (fun best d =>
       match d with
       | (name, Dir ts) =>
           if Py.isdigit name then scan_thousands best ts else best
       | (_, File) => best
       end)
    (sorted_entries blocks_dir) 0.

(** [check_chunk]; [thousands_base] is not used by the code. *)
Definition check_chunk (files : gmap rel_path Py.bytes) (thousands_base : Z)
  (expected_blocks : list Z) : list Z :=
  fold_left
    (fun missing bn =>
       if negb (exists_ files (cache_path bn))
       then (missing ++ [bn])%list
       else missing)
    expected_blocks [].

(** The loop of [blocks_in_chunk] over the heights still to visit; it
    ends at the first height above [latest]. *)
Fixpoint blocks_in_chunk_loop (bns : list Z)
  (thousands_base millions_base latest : Z) (blocks : list Z) : list Z :=
  match bns with
  | [] => blocks
  | bn :: rest =>
      if latest <? bn then blocks
      else
        let '(m, t) := expected_dir bn in
        if ((m =? millions_base) && (t =? thousands_base))%bool
        then blocks_in_chunk_loop rest thousands_base millions_base latest
               (blocks ++ [bn])%list
        else blocks_in_chunk_loop rest thousands_base millions_base latest
               blocks
  end.

Definition blocks_in_chunk (thousands_base millions_base latest : Z)
  : list Z :=
  blocks_in_chunk_loop (Py.range (thousands_base + 1) (thousands_base + 1001))
    thousands_base millions_base latest [].

(** *** The scan of [main]

    [args.start] and [latest] are taken as resolved ([latest] is
    [args.end] or the result of [find_latest_local_block]); printing is
    left out, and so is the [--fix] download. *)

Record scan_state : Type := {
  total_expected : Z;
  total_missing : Z;
  all_missing : list Z;
  incomplete_chunks : list (Z * Z * Z * Z)
}.

Definition scan_start : scan_state :=
  {| total_expected := 0; total_missing := 0;
     all_missing := []; incomplete_chunks := [] |}.

(** The body of [for thousands_base in range(t_start, t_end + 1, 1_000)]. *)
Definition scan_chunk (files : gmap rel_path Py.bytes) (latest : Z)
  (millions_base : Z) (st : scan_state) (thousands_base : Z) : scan_state :=
  let expected := blocks_in_chunk thousands_base millions_base latest in
  match expected with
  | [] => st
  | _ =>
      let missing := check_chunk files thousands_base expected in
      let expected_total :=
        total_expected st + Z.of_nat (List.length expected) in
      match missing with
      | [] =>
          {| total_expected := expected_total;
             total_missing := total_missing st;
             all_missing := all_missing st;
             incomplete_chunks := incomplete_chunks st |}
      | _ =>
          {| total_expected := expected_total;
             total_missing := total_missing st + Z.of_nat (List.length missing);
             all_missing := (all_missing st ++ missing)%list;
             incomplete_chunks :=
               (incomplete_chunks st
                  ++ [(millions_base, thousands_base,
                       Z.of_nat (List.length missing),
                       Z.of_nat (List.length expected))])%list |}
      end
  end.

(** The body of [for millions_base in range(millions_start, millions_end + 1,
    1_000_000)]. *)
Definition scan_million (files : gmap rel_path Py.bytes) (start latest : Z)
  (st : scan_state) (millions_base : Z) : scan_state :=
  let t_start :=
    if 0 <? start
    then Z.max (Py.floordiv (start - 1) 1000 * 1000) millions_base
    else millions_base in
  let t_end :=
    Z.min (millions_base + 999000) (Py.floordiv (latest - 1) 1000 * 1000) in
  fold_left (scan_chunk files latest millions_base)
    (Py.range3 t_start (t_end + 1) 1000) st.

Definition scan (files : gmap rel_path Py.bytes) (start latest : Z)
  : scan_state :=
  let millions_start :=
    if 0 <? start then Py.floordiv (start - 1) 1000000 * 1000000 else 0 in
  let millions_end :=
    if 0 <? latest then Py.floordiv (latest - 1) 1000000 * 1000000 else 0 in
  fold_left (scan_million files start latest)
    (Py.range3 millions_start (millions_end + 1) 1000000) scan_start.

(** [return 1 if total_missing > 0 else 0]. *)
Definition exit_status (st : scan_state) : Z :=
  if 0 <? total_missing st then 1 else 0.

End CheckBlockCompleteness.

(** ** scripts/download_boundary_blocks.py *)

Module DownloadBoundaryBlocks.
Import Archive.

Definition s3_key (block_number : Z) : string :=
  let millions := Py.floordiv (block_number - 1) 1000000 * 1000000 in
  let thousands := Py.floordiv (block_number - 1) 1000 * 1000 in
  Py.str millions +:+ "/" +:+ Py.str thousands +:+ "/"
    +:+ Py.str block_number +:+ ".rmp.lz4".

Definition cache_path (block_number : Z) : rel_path :=
  let millions := Py.floordiv (block_number - 1) 1000000 * 1000000 in
  let thousands := Py.floordiv (block_number - 1) 1000 * 1000 in
  (Py.str millions, Py.str thousands, Py.str block_number +:+ ".rmp.lz4").

Definition find_missing_blocks (files : gmap rel_path Py.bytes)
  (start end_ : Z) : list Z :=
  fold_left
    (fun missing h =>
       if negb (exists_ files (cache_path h))
       then (missing ++ [h])%list
       else missing)
    (Py.range3 start (end_ + 1) 1000) [].

End DownloadBoundaryBlocks.

(** ** JSON values, as [resp.json()] returns them *)

Module Json.

(** Numbers are the integers; a parsed object is the list of its fields. *)
#[warnings="-register-all"]
Inductive json : Type :=
| JNull
| JBool (b : bool)
| JNum (n : Z)
| JStr (s : string)
| JArr (items : list json)
| JObj (fields : list (string * json)).

(** [d.get(key)] on a dict: the value, or [None]. *)
Fixpoint get (fields : list (string * json)) (key : string) : json :=
  match fields with
  | [] => JNull
  | (k, v) :: r => if String.eqb k key then v else get r key
  end.

(** [key in d]. *)
Fixpoint has_key (fields : list (string * json)) (key : string) : bool :=
  match fields with
  | [] => false
  | (k, _) :: r => (String.eqb k key || has_key r key)%bool
  end.

(** Truth value of a Python object: [None], [False], [0], [""], [[]] and
    the empty dict are false. *)
Definition truthy (j : json) : bool :=
  match j with
  | JNull => false
  | JBool b => b
  | JNum n => negb (n =? 0)
  | JStr s => negb (String.eqb s "")
  | JArr items => match items with [] => false | _ => true end
  | JObj fields => match fields with [] => false | _ => true end
  end.

(** Keys of a Python dict built from JSON ids. [True] and [1] (and
    [False] and [0]) are the same key. *)
Inductive dict_key : Type :=
| KInt (n : Z)
| KStr (s : string)
| KNone.

#[global] Instance dict_key_eq_dec : EqDecision dict_key.
Proof. solve_decision. Defined.

#[global] Instance dict_key_countable : Countable dict_key.
Proof.
  refine (inj_countable'
    (fun k => match k with
              | KInt n => inl (inl n)
              | KStr s => inl (inr s)
              | KNone => inr tt
              end)
    (fun x => match x with
              | inl (inl n) => KInt n
              | inl (inr s) => KStr s
              | inr _ => KNone
              end) _).
  by intros [].
Defined.

End Json.

(** ** scripts/fetch_blocks_rpc.py *)

Module FetchBlocksRpc.
Import Archive Json.
Import Py (exn, result, Ok, Raise, bytes).

Definition BATCH_SIZE : Z := 5.
Definition BATCH_DELAY : Q := 5.
Definition RETRY_DELAY : Z := 2.
Definition MAX_RETRIES : nat := 5.

(** [bytes.fromhex] of a 40-digit literal ending in the given two bytes. *)
Definition address (hi lo : byte) : bytes := (repeat x00 18 ++ [hi; lo])%list.

Definition PRECOMPILE_TRANSITIONS : list (Z * bytes) :=
  [ (44868476, address x08 x13);
    (42675776, address x08 x12);
    (41121887, address x08 x11);
    (0, address x08 x10) ].

(** The [for] loop of [get_highest_precompile]: [None] when it runs off
    the end of the table. *)
Fixpoint first_reached (table : list (Z * bytes)) (block_num : Z)
  : option bytes :=
  match table with
  | [] => None
  | (threshold, addr) :: rest =>
      if threshold <=? block_num then Some addr
      else first_reached rest block_num
  end.

Definition get_highest_precompile (block_num : Z) : bytes :=
  match first_reached PRECOMPILE_TRANSITIONS block_num with
  | Some addr => addr
  | None => snd (List.last PRECOMPILE_TRANSITIONS (0, []))
  end.

(** [val = int(h, 16) if h and h != "0x" else 0]. *)
Definition hex_value (h : string) : result Z :=
  if (negb (String.eqb h "") && negb (String.eqb h "0x"))%bool then
    match Py.int16 h with
    | Some val => Ok val
    | None => Raise Py.ValueError
    end
  else Ok 0.

Definition hex_to_bytes (h : string) (length : Z) : result bytes :=
  Py.bind (hex_value h) (fun val => Py.to_bytes_big val length).

Definition hex_to_raw (h : string) : result bytes :=
  if (String.eqb h "" || String.eqb h "0x")%bool then Ok []
  else
    let h1 :=
      if String.prefix "0x" h
      then String.substring 2 (String.length h - 2) h
      else h in
    let h2 := if Nat.odd (String.length h1) then "0" +:+ h1 else h1 in
    match Py.fromhex h2 with
    | Some raw => Ok raw
    | None => Raise Py.ValueError
    end.

Definition block_path (block_num : Z) : rel_path :=
  let m := Py.floordiv (block_num - 1) 1000000 * 1000000 in
  let t := Py.floordiv (block_num - 1) 1000 * 1000 in
  (Py.str m, Py.str t, Py.str block_num +:+ ".rmp.lz4").

(** *** [rpc_to_nanoreth] *)

(** The Python value the conversion builds: what [msgpack.packb] is
    handed. A dict is the list of its items in insertion order. *)
#[warnings="-register-all"]
Inductive pyval : Type :=
| VBytes (b : bytes)
| VStr (s : string)
| VInt (n : Z)
| VBool (b : bool)
| VList (items : list pyval)
| VDict (items : list (string * pyval)).

Notation "'let?' x ':=' m 'in' k" := (Py.bind m (fun x => k))
  (at level 10, x name, m at level 100, k at level 200).

(** [[f(x) for x in l]], and the [for] loops that append one value per
    element: the first exception ends it. *)
Fixpoint map_result {A B} (f : A -> result B) (l : list A)
  : result (list B) :=
  match l with
  | [] => Ok []
  | x :: rest =>
      let? y := f x in
      let? ys := map_result f rest in
      Ok (y :: ys)
  end.

(** A dict display [{k1: e1, k2: e2, ..}]: the values are evaluated in
    order. *)
Definition dict_of (entries : list (string * result pyval)) : result pyval :=
  let? items :=
    map_result (fun e => let? v := snd e in Ok (fst e, v)) entries in
  Ok (VDict items).

(** [d[key]] on a dict. *)
Definition item (d : list (string * json)) (key : string) : result json :=
  if has_key d key then Ok (get d key) else Raise Py.KeyError.

(** [d.get(key, default)] on a dict. *)
Definition get_or (d : list (string * json)) (key : string) (default : json)
  : json :=
  if has_key d key then get d key else default.

(** The keys of a dict in order, each once. *)
Fixpoint dict_keys (d : list (string * json)) (seen : list string)
  : list string :=
  match d with
  | [] => []
  | (k, _) :: rest =>
      if existsb (String.eqb k) seen then dict_keys rest seen
      else k :: dict_keys rest (k :: seen)
  end.

(** [for x in j]: the items of a list, the characters of a string, the
    keys of a dict; other values are not iterable. *)
Definition iterate (j : json) : result (list json) :=
  match j with
  | JArr items => Ok items
  | JStr s => Ok (map (fun c => JStr (String c "")) (list_ascii_of_string s))
  | JObj d => Ok (map JStr (dict_keys d []))
  | JNull | JBool _ | JNum _ => Raise Py.TypeError
  end.

(** [int(j, 16)]: a value that is no string is a [TypeError]. *)
Definition int16_of (j : json) : result Z :=
  match j with
  | JStr s =>
      match Py.int16 s with
      | Some v => Ok v
      | None => Raise Py.ValueError
      end
  | _ => Raise Py.TypeError
  end.

(** [hex_to_bytes] on a JSON value: a false value counts as 0, any other
    value that is no string fails in [int(h, 16)]. *)
Definition hex_to_bytes_of (j : json) (length : Z) : result pyval :=
  let? raw :=
    match j with
    | JStr h => hex_to_bytes h length
    | _ => if truthy j then Raise Py.TypeError else Py.to_bytes_big 0 length
    end in
  Ok (VBytes raw).

(** [hex_to_raw] on a JSON value: a false value gives [b""], any other
    value that is no string has no [startswith] (an [AttributeError],
    rendered as [OtherException]). *)
Definition hex_to_raw_of (j : json) : result pyval :=
  let? raw :=
    match j with
    | JStr h => hex_to_raw h
    | _ => if truthy j then Raise Py.OtherException else Ok []
    end in
  Ok (VBytes raw).

(** [j == s] for a string literal [s]. *)
Definition is_str (j : json) (s : string) : bool :=
  match j with
  | JStr t => String.eqb t s
  | _ => false
  end.

Definition zero_hash : string :=
  "0x0000000000000000000000000000000000000000000000000000000000000000".

(** [hex_to_raw(d[key])], [hex_to_raw(d.get(key, default))] and the same
    for [hex_to_bytes]. *)
Definition raw_at (d : list (string * json)) (key : string) : result pyval :=
  let? h := item d key in hex_to_raw_of h.

Definition raw_or (d : list (string * json)) (key default : string)
  : result pyval :=
  hex_to_raw_of (get_or d key (JStr default)).

Definition bytes_at (d : list (string * json)) (key : string) (length : Z)
  : result pyval :=
  let? h := item d key in hex_to_bytes_of h length.

Definition bytes_or (d : list (string * json)) (key default : string)
  (length : Z) : result pyval :=
  hex_to_bytes_of (get_or d key (JStr default)) length.

Definition header_entries (b : list (string * json))
  : list (string * result pyval) :=
  [ ("parentHash", raw_at b "parentHash");
    ("sha3Uncles", raw_at b "sha3Uncles");
    ("miner", raw_at b "miner");
    ("stateRoot", raw_at b "stateRoot");
    ("transactionsRoot", raw_at b "transactionsRoot");
    ("receiptsRoot", raw_at b "receiptsRoot");
    ("logsBloom", raw_at b "logsBloom");
    ("difficulty", bytes_or b "difficulty" "0x0" 32);
    ("number", bytes_at b "number" 8);
    ("gasLimit", bytes_at b "gasLimit" 8);
    ("gasUsed", bytes_at b "gasUsed" 8);
    ("timestamp", bytes_at b "timestamp" 8);
    ("extraData", raw_or b "extraData" "0x");
    ("mixHash", raw_or b "mixHash" zero_hash);
    ("nonce", raw_or b "nonce" "0x0000000000000000");
    ("baseFeePerGas", bytes_or b "baseFeePerGas" "0x0" 8);
    ("withdrawalsRoot", raw_or b "withdrawalsRoot" zero_hash);
    ("blobGasUsed", bytes_or b "blobGasUsed" "0x0" 8);
    ("excessBlobGas", bytes_or b "excessBlobGas" "0x0" 8);
    ("parentBeaconBlockRoot", raw_or b "parentBeaconBlockRoot" zero_hash) ].

(** One element of an access list; [item_["address"]] on a value that is
    no dict is a [TypeError]. *)
Definition access_item (item_ : json) : result pyval :=
  match item_ with
  | JObj d =>
      dict_of
        [ ("address", raw_at d "address");
          ("storageKeys",
           let? keys := iterate (get_or d "storageKeys" (JArr [])) in
           let? raws := map_result hex_to_raw_of keys in
           Ok (VList raws)) ]
  | _ => Raise Py.TypeError
  end.

Definition access_list (tx : list (string * json)) : result pyval :=
  let? items := iterate (get_or tx "accessList" (JArr [])) in
  let? converted := map_result access_item items in
  Ok (VList converted).

(** [hex_to_raw(tx["to"]) if tx.get("to") else b""]. *)
Definition to_field (tx : list (string * json)) : result pyval :=
  if truthy (get tx "to") then raw_at tx "to" else Ok (VBytes []).

Definition eip1559_entries (tx : list (string * json))
  : list (string * result pyval) :=
  [ ("chainId", bytes_at tx "chainId" 8);
    ("nonce", bytes_at tx "nonce" 8);
    ("gas", bytes_at tx "gas" 8);
    ("maxFeePerGas", bytes_at tx "maxFeePerGas" 16);
    ("maxPriorityFeePerGas", bytes_at tx "maxPriorityFeePerGas" 16);
    ("to", to_field tx);
    ("value", bytes_or tx "value" "0x0" 32);
    ("accessList", access_list tx);
    ("input", raw_or tx "input" "0x") ].

Definition eip2930_entries (tx : list (string * json))
  : list (string * result pyval) :=
  [ ("chainId", bytes_at tx "chainId" 8);
    ("nonce", bytes_at tx "nonce" 8);
    ("gasPrice", bytes_at tx "gasPrice" 16);
    ("gas", bytes_at tx "gas" 8);
    ("to", to_field tx);
    ("value", bytes_or tx "value" "0x0" 32);
    ("accessList", access_list tx);
    ("input", raw_or tx "input" "0x") ].

Definition legacy_entries (tx : list (string * json))
  : list (string * result pyval) :=
  [ ("nonce", bytes_at tx "nonce" 8);
    ("gasPrice", bytes_at tx "gasPrice" 16);
    ("gas", bytes_at tx "gas" 8);
    ("to", to_field tx);
    ("value", bytes_or tx "value" "0x0" 32);
    ("input", raw_or tx "input" "0x") ].

(** The variant a transaction is filed under, and its fields. *)
Definition tx_variant (tx : list (string * json))
  : string * list (string * result pyval) :=
  let tx_type := get_or tx "type" (JStr "0x0") in
  if is_str tx_type "0x2" then ("Eip1559", eip1559_entries tx)
  else if is_str tx_type "0x1" then ("Eip2930", eip2930_entries tx)
  else ("Legacy", legacy_entries tx).

(** The body of [for tx in b.get("transactions", [])]; [tx.get] on a
    value that is no dict is an [AttributeError]. *)
Definition convert_tx (tx : json) : result pyval :=
  match tx with
  | JObj t =>
      let? sig :=
        map_result (fun r => r)
          [ bytes_at t "r" 32;
            bytes_at t "s" 32;
            hex_to_bytes_of
              (get_or t "yParity" (get_or t "v" (JStr "0x0"))) 8 ] in
      let '(variant, entries) := tx_variant t in
      let? tx_inner := dict_of entries in
      Ok (VDict [ ("signature", VList sig);
                  ("transaction", VDict [(variant, tx_inner)]) ])
  | _ => Raise Py.OtherException
  end.

(** [{"0x0": "Legacy", "0x1": "Eip2930", "0x2": "Eip1559"}.get(rtype,
    "Legacy")]: a list or a dict cannot be looked up. *)
Definition type_name (rtype : json) : result string :=
  match rtype with
  | JArr _ | JObj _ => Raise Py.TypeError
  | _ =>
      Ok (if is_str rtype "0x1" then "Eip2930"
          else if is_str rtype "0x2" then "Eip1559"
          else "Legacy")
  end.

Definition convert_log (l : json) : result pyval :=
  match l with
  | JObj d =>
      dict_of
        [ ("address", raw_at d "address");
          ("data",
           dict_of
             [ ("topics",
                let? topics := iterate (get_or d "topics" (JArr [])) in
                let? raws := map_result hex_to_raw_of topics in
                Ok (VList raws));
               ("data", raw_or d "data" "0x") ]) ]
  | _ => Raise Py.TypeError
  end.

(** The body of [for r in receipts_json or []]. *)
Definition convert_receipt (r : json) : result pyval :=
  match r with
  | JObj d =>
      let? name := type_name (get_or d "type" (JStr "0x0")) in
      let? logs :=
        (let? ls := iterate (get_or d "logs" (JArr [])) in
         map_result convert_log ls) in
      dict_of
        [ ("tx_type", Ok (VStr name));
          ("success", Ok (VBool (is_str (get d "status") "0x1")));
          ("cumulative_gas_used",
           let? gas := int16_of (get_or d "cumulativeGasUsed" (JStr "0x0")) in
           Ok (VInt gas));
          ("logs", Ok (VList logs)) ]
  | _ => Raise Py.OtherException
  end.

Definition rpc_to_nanoreth (block_json receipts_json : json)
  : result pyval :=
  match block_json with
  | JObj b =>
      let? number := item b "number" in
      let? bnum := int16_of number in
      let? header := dict_of (header_entries b) in
      let? transactions := iterate (get_or b "transactions" (JArr [])) in
      let? txs := map_result convert_tx transactions in
      let? receipts :=
        iterate (if truthy receipts_json then receipts_json else JArr []) in
      let? rcpts := map_result convert_receipt receipts in
      let? hash := raw_at b "hash" in
      Ok (VList
            [ VDict
                [ ("block",
                   VDict
                     [ ("Reth115",
                        VDict
                          [ ("header",
                             VDict [("hash", hash); ("header", header)]);
                            ("body",
                             VDict [ ("transactions", VList txs);
                                     ("ommers", VList []);
                                     ("withdrawals", VList []) ]) ]) ]);
                  ("receipts", VList rcpts);
                  ("system_txs", VList []);
                  ("read_precompile_calls", VList []);
                  ("highest_precompile_address",
                   VBytes (get_highest_precompile bnum)) ] ])
  | _ => Raise Py.TypeError
  end.

(** *** The world a run acts on *)

(** One element of a JSON-RPC batch. *)
Record request : Type := {
  jsonrpc : string;
  method : string;
  params : list json;
  id : Z
}.

(** What one [session.post] .. [resp.json()] attempt yields: an exception
    (connection failure, timeout, HTTP status, undecodable body) or the
    decoded body. *)
Inductive attempt_outcome : Type :=
| Fails (e : exn)
| Body (j : json).

(** The two [time.sleep] calls of the script. *)
Inductive sleep_site : Type :=
| RetryBackoff     (* in [rpc_call] *)
| BatchPacing.     (* at the end of an iteration of the batch loop *)

(** Observable steps, in the order they happen. [EvBatch] marks a call
    of [fetch_and_write_batch] from the batch loop. *)
Inductive event : Type :=
| EvBatch (block_nums : list Z)
| EvPost (batch : list request)
| EvSleep (site : sleep_site) (seconds : Q).

Record world : Type := {
  posts : nat;                      (* POSTs issued so far *)
  log : list event;
  files : gmap rel_path bytes       (* entries below [blocks_dir] *)
}.

(** Computations that act on the world and may raise. *)
Definition M (A : Type) : Type := world -> result A * world.

Definition ret {A} (a : A) : M A := fun w => (Ok a, w).
Definition raise {A} (e : exn) : M A := fun w => (Raise e, w).
Definition mbind {A B} (m : M A) (k : A -> M B) : M B :=
  fun w =>
    match m w with
    | (Ok a, w') => k a w'
    | (Raise e, w') => (Raise e, w')
    end.
Definition lift {A} (r : result A) : M A := fun w => (r, w).

Notation "'let*' x ':=' m 'in' k" := (mbind m (fun x => k))
  (at level 10, x name, m at level 100, k at level 200).

Definition emit (e : event) : M unit :=
  fun w => (Ok tt, {| posts := posts w; log := (log w ++ [e])%list; files := files w |}).

(** [time.sleep(seconds)]; a negative argument is a [ValueError]. *)
Definition sleep (site : sleep_site) (seconds : Q) : M unit :=
  if Qle_bool 0 seconds then emit (EvSleep site seconds)
  else raise Py.ValueError.

(** [for x in xs: acc = body(acc, x)], stopping at the first exception. *)
Fixpoint for_each {A S} (xs : list A) (body : S -> A -> M S) (acc : S)
  : M S :=
  match xs with
  | [] => ret acc
  | x :: rest => let* acc' := body acc x in for_each rest body acc'
  end.

Section Run.

(** The node: what the k-th POST of the run (counting from 0) yields
    for the given batch. *)
Variable server : nat -> list request -> attempt_outcome.

(** [rpc_to_nanoreth] followed by [msgpack.packb] and
    [lz4.frame.compress], on a block and its receipts: the stored
    bytes, or the exception one of the three raises. *)
Variable transcode : json -> json -> result bytes.

(** Whether [os.makedirs] / [open] / [write] fails for a path; a failed
    write leaves the entry as it was. *)
Variable write_fails : rel_path -> bool.

Definition post (batch : list request) : M attempt_outcome :=
  fun w =>
    (Ok (server (posts w) batch),
     {| posts := S (posts w);
        log := (log w ++ [EvPost batch])%list;
        files := files w |}).

(** The body of the [try] in [rpc_call], after the POST. *)
Definition attempt_result (out : attempt_outcome) : result (list json) :=
  match out with
  | Fails e => Raise e
  | Body (JArr results) => Ok results
  | Body (JObj fields) =>
      if has_key fields "error" then Raise Py.RequestException
      else Ok [JObj fields]
  | Body j => Ok [j]
  end.

(** [except (requests.RequestException, json.JSONDecodeError)]. *)
Definition caught_by_rpc_call (e : exn) : bool :=
  match e with
  | Py.RequestException | Py.JSONDecodeError => true
  | _ => false
  end.

(** [for attempt in range(MAX_RETRIES)]; [None] when the loop ends
    without [return] or [raise]. *)
Fixpoint rpc_attempts (attempts : list nat) (batch : list request)
  : M (option (list json)) :=
  match attempts with
  | [] => ret None
  | attempt :: rest =>
      let* out := post batch in
      match attempt_result out with
      | Ok results => ret (Some results)
      | Raise e =>
          if caught_by_rpc_call e then
            if (attempt <? MAX_RETRIES - 1)%nat then
              let delay := RETRY_DELAY * 2 ^ Z.of_nat attempt in
              let* _ := sleep RetryBackoff (inject_Z delay) in
              rpc_attempts rest batch
            else raise e
          else raise e
      end
  end.

Definition rpc_call (batch : list request) : M (option (list json)) :=
  rpc_attempts (seq 0 MAX_RETRIES) batch.

(** *** [fetch_and_write_batch] *)

Definition block_request (i : nat) (bnum : Z) : request :=
  {| jsonrpc := "2.0";
     method := "eth_getBlockByNumber";
     params := [JStr (Py.hex bnum); JBool true];
     id := Z.of_nat i * 2 |}.

Definition receipts_request (i : nat) (bnum : Z) : request :=
  {| jsonrpc := "2.0";
     method := "eth_getBlockReceipts";
     params := [JStr (Py.hex bnum)];
     id := Z.of_nat i * 2 + 1 |}.

Definition build_batch (block_nums : list Z) : list request :=
  flat_map (fun '(i, bnum) => [block_request i bnum; receipts_request i bnum])
    (Py.enumerate block_nums).

(** [r["id"]] as a dict key, with the dict [r]: [KeyError] without an
    ["id"], [TypeError] when [r] is no dict or the id is unhashable. *)
Definition id_key (r : json) : result (dict_key * list (string * json)) :=
  match r with
  | JObj fields =>
      if has_key fields "id" then
        match get fields "id" with
        | JNum n => Ok (KInt n, fields)
        | JBool b => Ok (KInt (if b then 1 else 0), fields)
        | JStr s => Ok (KStr s, fields)
        | JNull => Ok (KNone, fields)
        | JArr _ | JObj _ => Raise Py.TypeError
        end
      else Raise Py.KeyError
  | _ => Raise Py.TypeError
  end.

(** [{r["id"]: r for r in results}]: a later response replaces an
    earlier one with the same id. *)
Fixpoint index_from (results : list json)
  (by_id : gmap dict_key (list (string * json)))
  : result (gmap dict_key (list (string * json))) :=
  match results with
  | [] => Ok by_id
  | r :: rest =>
      match id_key r with
      | Ok (k, fields) => index_from rest (<[k := fields]> by_id)
      | Raise e => Raise e
      end
  end.

Definition index_by_id (results : list json)
  : result (gmap dict_key (list (string * json))) :=
  index_from results ∅.

Definition write_entry (p : rel_path) (data : bytes) : M unit :=
  fun w =>
    if write_fails p then (Raise Py.OSError, w)
    else (Ok tt, {| posts := posts w;
                    log := log w;
                    files := <[p := data]> (files w) |}).

(** The body of the [try] for one height. *)
Definition convert_and_write (bnum : Z) (block_data receipts_data : json)
  : M unit :=
  let* compressed := lift (transcode block_data receipts_data) in
  write_entry (block_path bnum) compressed.

(** One iteration of the second loop of [fetch_and_write_batch];
    [counts] is [(written, errors)]. *)
Definition handle_height (by_id : gmap dict_key (list (string * json)))
  (counts : Z * Z) (ib : nat * Z) : M (Z * Z) :=
  let '(written, errors) := counts in
  let '(i, bnum) := ib in
  let block_resp := default [] (by_id !! KInt (Z.of_nat i * 2)) in
  let receipt_resp := default [] (by_id !! KInt (Z.of_nat i * 2 + 1)) in
  let block_data := get block_resp "result" in
  let receipts_data := get receipt_resp "result" in
  if negb (truthy block_data) then ret (written, errors + 1)
  else
    let receipts_data :=
      match receipts_data with
      | JNull => JArr []
      | _ => receipts_data
      end in
    fun w =>
      match convert_and_write bnum block_data receipts_data w with
      | (Ok _, w') => (Ok (written + 1, errors), w')
      | (Raise _, w') => (Ok (written, errors + 1), w')
      end.

(** The part of [fetch_and_write_batch] after [rpc_call]. *)
Definition process_results (results : list json) (block_nums : list Z)
  : M (Z * Z) :=
  let* by_id := lift (index_by_id results) in
  for_each (Py.enumerate block_nums) (handle_height by_id) (0, 0).

Definition fetch_and_write_batch (block_nums : list Z) : M (Z * Z) :=
  let batch := build_batch block_nums in
  let* results := rpc_call batch in
  match results with
  | Some results => process_results results block_nums
  | None => raise Py.TypeError
  end.

(** *** [get_chain_tip] *)

Definition tip_request : request :=
  {| jsonrpc := "2.0"; method := "eth_blockNumber"; params := []; id := 0 |}.

(** [int(results[0]["result"], 16)]. The [IndexError] of an empty array
    is rendered as [OtherException]. *)
Definition get_chain_tip : M Z :=
  let* results := rpc_call [tip_request] in
  match results with
  | None => raise Py.TypeError
  | Some [] => raise Py.OtherException
  | Some (JObj fields :: _) =>
      if has_key fields "result" then
        match get fields "result" with
        | JStr s =>
            match Py.int16 s with
            | Some tip => ret tip
            | None => raise Py.ValueError
            end
        | _ => raise Py.TypeError
        end
      else raise Py.KeyError
  | Some (_ :: _) => raise Py.TypeError
  end.
(** *** [main], from the comment "Find missing blocks" on

    [args.rpc], [args.start] and [args.end] are taken as already
    resolved; progress logging and wall-clock readings are left out. *)

Definition find_missing_blocks (files : gmap rel_path bytes)
  (start end_ : Z) : list Z :=
  fold_left
    (fun missing bnum =>
       if negb (exists_ files (block_path bnum))
       then (missing ++ [bnum])%list
       else missing)
    (Py.range start (end_ + 1)) [].

Record args : Type := {
  start : Z;
  end_ : Z;
  batch_size : Z;
  delay : Q;
  dry_run : bool;
  scan_gaps : bool
}.

(** The [if args.scan_gaps: .. else: ..] that computes [missing]. The
    [else] branch is the loop written out in [main]. *)
Definition determine_missing (a : args) (files : gmap rel_path bytes)
  : list Z :=
  if scan_gaps a then find_missing_blocks files (start a) (end_ a)
  else
    fold_left
      (fun missing bnum =>
         if negb (exists_ files (block_path bnum))
         then (missing ++ [bnum])%list
         else missing)
      (Py.range (start a) (end_ a + 1)) [].

(** The variables the batch loop updates. *)
Record loop_state : Type := {
  total_written : Z;
  total_errors : Z;
  current_delay : Q;
  consecutive_ok : Z
}.

Definition initial_state (a : args) : loop_state :=
  {| total_written := 0;
     total_errors := 0;
     current_delay := delay a;
     consecutive_ok := 0 |}.

(** The [try] branch after a batch that returned [(written, errors)]. *)
Definition on_success (a : args) (st : loop_state) (written errors : Z)
  : loop_state :=
  let ok := consecutive_ok st + 1 in
  {| total_written := total_written st + written;
     total_errors := total_errors st + errors;
     current_delay :=
       if ((5 <=? ok) && Py.Qlt_bool (delay a) (current_delay st))%bool
       then Py.max (delay a)
              (Py.float_mul (current_delay st) Py.zero_point_eight)
       else current_delay st;
     consecutive_ok := ok |}.

(** The [except requests.RequestException] branch. *)
Definition on_failure (st : loop_state) (batch : list Z) : loop_state :=
  {| total_written := total_written st;
     total_errors := total_errors st + Z.of_nat (List.length batch);
     current_delay := Py.min (current_delay st * 2) 120;
     consecutive_ok := 0 |}.

(** One iteration of [for i in range(0, len(missing), args.batch_size)]. *)
Definition loop_body (a : args) (missing : list Z) (st : loop_state)
  (i : Z) : M loop_state :=
  let batch := Py.slice missing i (i + batch_size a) in
  let* st' :=
    (fun w =>
       match (let* _ := emit (EvBatch batch) in
              fetch_and_write_batch batch) w with
       | (Ok (written, errors), w') => (Ok (on_success a st written errors), w')
       | (Raise Py.RequestException, w') => (Ok (on_failure st batch), w')
       | (Raise e, w') => (Raise e, w')
       end) in
  if i + Z.of_nat (List.length batch) <? Z.of_nat (List.length missing) then
    let* _ := sleep BatchPacing (current_delay st') in
    ret st'
  else ret st'.

Definition batch_loop (a : args) (missing : list Z) : M loop_state :=
  let* starts :=
    lift (Py.range_step (Z.of_nat (List.length missing)) (batch_size a)) in
  for_each starts (loop_body a missing) (initial_state a).

Definition main (a : args) : M unit :=
  fun w =>
    let missing := determine_missing a (files w) in
    if dry_run a then (Ok tt, w)
    else
      match missing with
      | [] => (Ok tt, w)
      | _ => (let* _ := batch_loop a missing in ret tt) w
      end.

End Run.

(** *** [find_cache_latest], on the listing of [blocks_dir] *)

(** [sorted(names, key=int)]: [int] is applied to every name first. *)
Definition sorted_by_int (l : list string) : result (list string) :=
  if forallb (fun s => bool_decide (is_Some (Py.int10 s))) l then
    Ok (Py.sorted
          (fun a b => default 0 (Py.int10 a) <=? default 0 (Py.int10 b)) l)
  else Raise Py.ValueError.

(** [os.listdir] of an entry of a listed directory. *)
Definition listdir (e : option node) : result (list (string * node)) :=
  match e with
  | Some (Dir entries) => Ok entries
  | _ => Raise Py.OSError
  end.

Definition find_cache_latest (blocks_dir : list (string * node))
  : result Z :=
  Py.bind (sorted_by_int (List.filter Py.isdigit (names blocks_dir)))
    (fun millions =>
  match Py.last_opt millions with
  | None => Ok 0
  | Some m =>
  Py.bind (listdir (find_entry m blocks_dir)) (fun latest_m =>
  Py.bind (sorted_by_int (List.filter Py.isdigit (names latest_m)))
    (fun thousands =>
  match Py.last_opt thousands with
  | None => Ok 0
  | Some t =>
  Py.bind (listdir (find_entry t latest_m)) (fun latest_t =>
  let files :=
    Py.sorted String.leb
      (List.filter (fun f => Py.endswith f ".rmp.lz4") (names latest_t)) in
  match Py.last_opt files with
  | None => Ok 0
  | Some f =>
      match Py.int10 (Py.remove_all ".rmp.lz4" f) with
      | Some n => Ok n
      | None => Raise Py.ValueError
      end
  end)
  end))
  end).

End FetchBlocksRpc.

(** ** Vocabulary of the statements *)

Module Spec.
Import Archive Json FetchBlocksRpc.
Import Py (result, Ok, Raise).

(** [b] is [floor(x / d) * d]: the multiple of [d] with [b <= x < b + d]. *)
Definition floor_bucket (d x b : Z) : Prop :=
  (exists q, b = q * d) /\ b <= x < b + d.

(** [addr] belongs to the first entry of [table], read front to back,
    whose threshold is at most [h]. *)
Definition first_applicable (table : list (Z * Py.bytes)) (h : Z)
  (addr : Py.bytes) : Prop :=
  exists before threshold after,
    table = (before ++ (threshold, addr) :: after)%list
    /\ threshold <= h
    /\ Forall (fun e => h < fst e) before.

(** The address of the k-th oldest entry (k = 1 for the oldest) of a
    table that is ordered newest first. *)
Definition nth_oldest (table : list (Z * Py.bytes)) (k : nat) : option Py.bytes :=
  snd <$> (rev table !! (k - 1)%nat).

Definition newest (table : list (Z * Py.bytes)) : option Py.bytes :=
  snd <$> head table.

(** A decoded body that is a single error object (a dict with an
    ["error"] member) instead of an array of responses. *)
Definition error_object (out : attempt_outcome) : bool :=
  match out with
  | Body (JObj fields) => has_key fields "error"
  | _ => false
  end.

(** The same attempt with an error object replaced by a transport
    failure. *)
Definition as_transport_failure (out : attempt_outcome) : attempt_outcome :=
  if error_object out then Fails Py.RequestException else out.

(** "Not retried internally": the call ends, with an exception, after
    its first POST. *)
Definition propagates_immediately
  (server : nat -> list request -> attempt_outcome)
  (batch : list request) (w : world) : Prop :=
  exists e,
    rpc_call server batch w
    = (Raise e, {| posts := S (posts w);
                   log := (log w ++ [EvPost batch])%list;
                   files := files w |}).

(** A node that answers every POST with the same error object. *)
Definition always_error_object : nat -> list request -> attempt_outcome :=
  fun _ _ => Body (JObj [("error", JStr "batch too large")]).

(** A node whose first answer is an error object and whose later
    answers are the empty array. *)
Definition error_object_once : nat -> list request -> attempt_outcome :=
  fun k _ =>
    match k with
    | O => Body (JObj [("error", JStr "batch too large")])
    | S _ => Body (JArr [])
    end.

(** The world after the POST of attempt number [attempt] failed and the
    back-off was slept. *)
Definition after_failed_attempt (attempt : nat) (batch : list request)
  (w : world) : world :=
  {| posts := S (posts w);
     log := (log w ++ [EvPost batch;
                       EvSleep RetryBackoff
                         (inject_Z (RETRY_DELAY * 2 ^ Z.of_nat attempt))])%list;
     files := files w |}.

Definition after_post (batch : list request) (w : world) : world :=
  {| posts := S (posts w);
     log := (log w ++ [EvPost batch])%list;
     files := files w |}.

Definition empty_world : world :=
  {| posts := 0; log := []; files := ∅ |}.

(** An archive that holds height 1 only, and a run over heights 1..2
    without [--scan-gaps]. *)
Definition archive_with_height_1 : gmap rel_path Py.bytes :=
  {[ block_path 1 := [] ]}.

Definition world_with_height_1 : world :=
  {| posts := 0; log := []; files := archive_with_height_1 |}.

Definition fast_run_1_2 : args :=
  {| start := 1; end_ := 2; batch_size := 5; delay := 5;
     dry_run := false; scan_gaps := false |}.

(** A cache whose newest thousands-directory holds the heights
    9,999,999 and 10,000,000. *)
Definition cache_at_ten_million : list (string * node) :=
  [ ("9000000",
     Dir [ ("9999000",
            Dir [ ("9999999.rmp.lz4", File);
                  ("10000000.rmp.lz4", File) ]) ]) ].

(** The height a file name stands for, as [find_latest_local_block]
    reads it. *)
Definition parsed_height (f : string) : option Z :=
  if CheckBlockCompleteness.has_lz4_suffix f
  then Py.int10 (CheckBlockCompleteness.before_dot (CheckBlockCompleteness.stem f))
  else None.

(** The sub-directories with an all-digit name. *)
Definition numeric_subdirs (entries : list (string * node))
  : list (list (string * node)) :=
  omap (fun d => match d with
                 | (name, Dir sub) => if Py.isdigit name then Some sub else None
                 | (_, File) => None
                 end) entries.

Definition heights_in_files (fs : list (string * node)) : list Z :=
  omap parsed_height (names fs).

(** The heights of all entry files two numeric directories deep. *)
Definition all_heights (blocks_dir : list (string * node)) : list Z :=
  ts ← numeric_subdirs blocks_dir;
  fs ← numeric_subdirs ts;
  heights_in_files fs.

(** A cache whose newest thousands-directory is still empty. *)
Definition cache_with_empty_newest_dir : list (string * node) :=
  [ ("9000000",
     Dir [ ("9998000", Dir [ ("9998001.rmp.lz4", File) ]);
           ("9999000", Dir []) ]) ].

(** The same cache with a stray file beside the entries. *)
Definition cache_with_stray_file : list (string * node) :=
  [ ("9000000",
     Dir [ ("9999000",
            Dir [ ("9999999.rmp.lz4", File);
                  ("partial.rmp.lz4", File) ]) ]) ].

(** The dict key under which a response is filed, with the response,
    when it has a key. *)
Definition response_entry (r : json)
  : option (dict_key * list (string * json)) :=
  match id_key r with
  | Ok kv => Some kv
  | Raise _ => None
  end.

Definition response_entries (results : list json)
  : list (dict_key * list (string * json)) :=
  omap response_entry results.

(** The ids of the responses, as dict keys. *)
Definition response_keys (results : list json) : list dict_key :=
  (response_entries results).*1.

(** The two requests built for the height at position [ib.1]. *)
Definition request_pair (ib : nat * Z) : list request :=
  [block_request ib.1 ib.2; receipts_request ib.1 ib.2].

(** An event a call of [rpc_call] with [batch] may add to the log. *)
Definition rpc_event (batch : list request) (e : event) : Prop :=
  e = EvPost batch \/ exists seconds, e = EvSleep RetryBackoff seconds.

Section PerHeight.

Variable transcode : json -> json -> result Py.bytes.
Variable write_fails : rel_path -> bool.
Variable by_id : gmap dict_key (list (string * json)).

(** The ["result"] of the response filed under id [2 i]: the block of the
    height at position [i]; [JNull] when there is no such response or it
    has no result. *)
Definition own_block (i : nat) : json :=
  get (default [] (by_id !! KInt (Z.of_nat i * 2))) "result".

(** The ["result"] of the response filed under id [2 i + 1]. *)
Definition own_receipts_result (i : nat) : json :=
  get (default [] (by_id !! KInt (Z.of_nat i * 2 + 1))) "result".

(** The receipts handed to the conversion: the empty list for [None]. *)
Definition own_receipts (i : nat) : json :=
  match own_receipts_result i with
  | JNull => JArr []
  | j => j
  end.

(** What the height at position [i] contributes, from its own two
    responses alone: the bytes stored for it, or [None] when it is counted
    as an error. *)
Definition height_outcome (ib : nat * Z) : option Py.bytes :=
  if truthy (own_block ib.1) then
    match transcode (own_block ib.1) (own_receipts ib.1) with
    | Ok data => if write_fails (block_path ib.2) then None else Some data
    | Raise _ => None
    end
  else None.

(** The world with one more entry. *)
Definition with_entry (p : rel_path) (data : Py.bytes) (w : world) : world :=
  {| posts := posts w; log := log w; files := <[p := data]> (files w) |}.

Definition store_outcome (fs : gmap rel_path Py.bytes) (ib : nat * Z)
  : gmap rel_path Py.bytes :=
  match height_outcome ib with
  | Some data => <[block_path ib.2 := data]> fs
  | None => fs
  end.

Definition written_in (l : list (nat * Z)) : Z :=
  Z.of_nat (List.length (List.filter (fun ib => bool_decide (is_Some (height_outcome ib))) l)).

Definition errors_in (l : list (nat * Z)) : Z :=
  Z.of_nat (List.length (List.filter (fun ib => negb (bool_decide (is_Some (height_outcome ib)))) l)).

End PerHeight.

(** A small batch: heights 7, 8, 9. The node answers out of order; the
    block of height 7 is an error, the receipts of height 8 are null. *)
Definition ok_response (n : Z) (res : json) : json :=
  JObj [("jsonrpc", JStr "2.0"); ("id", JNum n); ("result", res)].

Definition error_response (n : Z) : json :=
  JObj [("jsonrpc", JStr "2.0"); ("id", JNum n);
        ("error", JObj [("code", JNum (-32000))])].

Definition block_json (n : Z) : json := JObj [("number", JStr (Py.hex n))].

Definition sample_results : list json :=
  [ ok_response 5 (JArr []);
    ok_response 2 (block_json 8);
    error_response 0;
    ok_response 4 (block_json 9);
    ok_response 3 JNull;
    ok_response 1 (JArr []) ].

Definition sample_server : nat -> list request -> attempt_outcome :=
  fun _ _ => Body (JArr sample_results).

(** The same array with one more response, which carries no id. *)
Definition spoiled_results : list json :=
  (sample_results ++ [JObj [("jsonrpc", JStr "2.0"); ("result", JNull)]])%list.

Definition spoiled_server : nat -> list request -> attempt_outcome :=
  fun _ _ => Body (JArr spoiled_results).

(** A stand-in conversion: one byte per block that has a number. *)
Definition sample_transcode (block_data receipts_data : json)
  : result Py.bytes :=
  match block_data with
  | JObj fields =>
      if has_key fields "number" then Ok [x01] else Raise Py.KeyError
  | _ => Raise Py.TypeError
  end.

Definition never_fails : rel_path -> bool := fun _ => false.

Definition sample_by_id : gmap dict_key (list (string * json)) :=
  match index_by_id sample_results with
  | Ok by_id => by_id
  | Raise _ => ∅
  end.

(** *** Pacing of the batch loop *)

(** The pacing states the batch loop can be in: the initial one, and
    those obtained from it by batch successes and batch failures. *)
Inductive reachable (a : args) : loop_state -> Prop :=
| reach_initial : reachable a (initial_state a)
| reach_success st written errors :
    reachable a st -> reachable a (on_success a st written errors)
| reach_failure st batch :
    reachable a st -> reachable a (on_failure st batch).

(** The events that matter for pacing: the start of a batch and the
    sleep between batches. *)
Definition pacing_event (e : event) : bool :=
  match e with
  | EvBatch _ => true
  | EvSleep BatchPacing _ => true
  | _ => false
  end.

Definition pacing_view (l : list event) : list event :=
  List.filter pacing_event l.

(** [alternates true view]: the view is batch, sleep, batch, .., batch; it
    starts with a batch and ends with one. [expect_batch] tells whether a
    batch has to come next. *)
Fixpoint alternates (expect_batch : bool) (view : list event) : bool :=
  match view with
  | [] => negb expect_batch
  | EvBatch _ :: rest => (expect_batch && alternates false rest)%bool
  | EvSleep BatchPacing _ :: rest =>
      (negb expect_batch && alternates true rest)%bool
  | _ :: _ => false
  end.

(** Sleeps happen only between batches: no batch at all, or batches
    separated by exactly one sleep each. *)
Definition paced_between_batches (view : list event) : bool :=
  match view with
  | [] => true
  | _ => alternates true view
  end.

(** The batches started, in order. *)
Definition batches_in (l : list event) : list (list Z) :=
  omap (fun e => match e with EvBatch b => Some b | _ => None end) l.

(** Every pacing sleep lasts the current delay of a reachable state. *)
Definition paced_by_reachable (a : args) (e : event) : Prop :=
  match e with
  | EvSleep BatchPacing seconds =>
      exists st, reachable a st /\ current_delay st = seconds
  | _ => True
  end.

(** The condition under which iteration [i] sleeps. *)
Definition sleeps_after (a : args) (missing : list Z) (i : Z) : bool :=
  i + Z.of_nat (List.length (Py.slice missing i (i + batch_size a)))
  <? Z.of_nat (List.length missing).

(** Every iteration but the last one sleeps. *)
Fixpoint only_last_silent (a : args) (missing : list Z) (starts : list Z)
  : Prop :=
  match starts with
  | [] => True
  | i :: rest =>
      sleeps_after a missing i = match rest with [] => false | _ => true end
      /\ only_last_silent a missing rest
  end.

(** One step of the pacing state. *)
Definition pacing_step (a : args) (st st' : loop_state) : Prop :=
  (exists written errors, st' = on_success a st written errors)
  \/ (exists batch, st' = on_failure st batch).

(** The pacing rule in the words of the specification. The batches are
    fetched in order. A batch that returns is a success and moves the
    pacing state by [on_success]; a batch that ends in a
    [RequestException] is a failure and moves it by [on_failure]; any other
    exception ends the run. Between two batches, and only there, the run
    sleeps for the delay of the state the batch before left. *)
Definition paced_step (a : args) (batch : list Z) (st : loop_state)
  (r : result (Z * Z)) : result loop_state :=
  match r with
  | Ok (written, errors) => Ok (on_success a st written errors)
  | Raise Py.RequestException => Ok (on_failure st batch)
  | Raise e => Raise e
  end.

Fixpoint paced_batches (fetch : list Z -> M (Z * Z)) (a : args)
  (batches : list (list Z)) (st : loop_state) : M loop_state :=
  match batches with
  | [] => ret st
  | batch :: rest =>
      fun w =>
        let '(r, w1) := (let* _ := emit (EvBatch batch) in fetch batch) w in
        match paced_step a batch st r with
        | Raise e => (Raise e, w1)
        | Ok st' =>
            match rest with
            | [] => (Ok st', w1)
            | _ =>
                (let* _ := sleep BatchPacing (current_delay st') in
                 paced_batches fetch a rest st') w1
            end
        end
  end.

(** The whole loop in these words: the batches are the slices of
    [missing] at the multiples of the batch size. *)
Definition paced_loop (fetch : list Z -> M (Z * Z)) (a : args)
  (missing : list Z) : M loop_state :=
  fun w =>
    match Py.range_step (Z.of_nat (List.length missing)) (batch_size a) with
    | Ok starts =>
        paced_batches fetch a
          (map (fun i => Py.slice missing i (i + batch_size a)) starts)
          (initial_state a) w
    | Raise e => (Raise e, w)
    end.

(** A state with a delay of 8 seconds after five successes in a row. *)
Definition relaxing_state : loop_state :=
  {| total_written := 25; total_errors := 0;
     current_delay := 8; consecutive_ok := 5 |}.

(** A run whose baseline delay, 200 seconds, exceeds the cap, against a
    node that cannot be reached. *)
Definition slow_run : args :=
  {| start := 1; end_ := 2; batch_size := 1; delay := 200;
     dry_run := false; scan_gaps := false |}.

Definition unreachable_node : nat -> list request -> attempt_outcome :=
  fun _ _ => Fails Py.RequestException.

(** A run of one height per batch from a baseline of 5 seconds. *)
Definition backing_off_run : args :=
  {| start := 1; end_ := 3; batch_size := 1; delay := 5;
     dry_run := false; scan_gaps := false |}.

(** The test of [blocks_in_chunk] on one height. *)
Definition in_chunk (thousands_base millions_base latest bn : Z) : bool :=
  ((bn <=? latest)
   && (fst (CheckBlockCompleteness.expected_dir bn) =? millions_base)
   && (snd (CheckBlockCompleteness.expected_dir bn) =? thousands_base))%bool.

(** The heights one chunk adds to [all_missing]. *)
Definition chunk_missing (files : gmap rel_path Py.bytes)
  (latest M T : Z) : list Z :=
  CheckBlockCompleteness.check_chunk files T
    (CheckBlockCompleteness.blocks_in_chunk T M latest).

(** The thousands-directories visited below one millions-directory. *)
Definition chunks_of (start latest M : Z) : list Z :=
  Py.range3
    (if 0 <? start
     then Z.max (Py.floordiv (start - 1) 1000 * 1000) M
     else M)
    (Z.min (M + 999000) (Py.floordiv (latest - 1) 1000 * 1000) + 1)
    1000.

(** All heights the scan expects, chunk by chunk. *)
Definition all_expected (start latest : Z) : list Z :=
  M ← Py.range3
         (if 0 <? start then Py.floordiv (start - 1) 1000000 * 1000000 else 0)
         ((if 0 <? latest
           then Py.floordiv (latest - 1) 1000000 * 1000000 else 0) + 1)
         1000000;
  T ← chunks_of start latest M;
  CheckBlockCompleteness.blocks_in_chunk T M latest.

(** Where the scan of check_block_completeness.py begins: the bucket
    boundary at or below [start - 1], or 0. *)
Definition scan_floor (start : Z) : Z :=
  if 0 <? start then (start - 1) / 1000 * 1000 else 0.

(** Lower-case hex digit of a value below 16. *)
Definition hex_digit (n : Z) : ascii :=
  ascii_of_nat (Z.to_nat (if n <? 10 then 48 + n else 87 + n)).

(** [bs.hex()]: two lower-case hex digits per byte. *)
Fixpoint hexlify (bs : Py.bytes) : string :=
  match bs with
  | [] => EmptyString
  | b :: r =>
      String (hex_digit (Py.Z_of_byte b / 16))
        (String (hex_digit (Py.Z_of_byte b mod 16)) (hexlify r))
  end.

(** The unsigned value of a byte string read least significant first. *)
Fixpoint le_value (bs : Py.bytes) : Z :=
  match bs with
  | [] => 0
  | b :: r => Py.Z_of_byte b + 256 * le_value r
  end.

(** Attempt number [k] of a call started in world [w] ends in an
    exception that [rpc_call] catches. *)
Definition retryable (server : nat -> list request -> attempt_outcome)
  (batch : list request) (w : world) (k : nat) : Prop :=
  exists e,
    attempt_result (server (posts w + k)%nat batch) = Raise e
    /\ caught_by_rpc_call e = true.

(** The log of [n] failed attempts, each followed by its back-off. *)
Definition backoff_log (batch : list request) (first n : nat) : list event :=
  flat_map
    (fun attempt =>
       [EvPost batch;
        EvSleep RetryBackoff (inject_Z (RETRY_DELAY * 2 ^ Z.of_nat attempt))])
    (seq first n).
(** A node that answers [eth_blockNumber] with the height [n]. *)
Definition tip_server (n : Z) : nat -> list request -> attempt_outcome :=
  fun _ _ => Body (JArr [JObj [("jsonrpc", JStr "2.0"); ("id", JNum 0);
                               ("result", JStr (Py.hex n))]]).
(** *** Converted blocks *)

(** [v[key]] on a converted dict. *)
Definition vfield (v : pyval) (key : string) : option pyval :=
  match v with
  | VDict items =>
      snd <$> List.find (fun kv => String.eqb (fst kv) key) items
  | _ => None
  end.

(** [v[k1][k2]..]. *)
Fixpoint vpath (v : pyval) (keys : list string) : option pyval :=
  match keys with
  | [] => Some v
  | k :: rest =>
      match vfield v k with
      | Some v' => vpath v' rest
      | None => None
      end
  end.

(** The value is a byte string of the given length. *)
Definition bytes_of_width (width : Z) (v : option pyval) : Prop :=
  exists raw, v = Some (VBytes raw) /\ Z.of_nat (List.length raw) = width.

(** The header fields that [rpc_to_nanoreth] subscripts, and the
    fixed-width quantities of the header it builds. *)
Definition required_block_keys : list string :=
  [ "number"; "parentHash"; "sha3Uncles"; "miner"; "stateRoot";
    "transactionsRoot"; "receiptsRoot"; "logsBloom"; "gasLimit"; "gasUsed";
    "timestamp"; "hash" ].

Definition header_widths : list (string * Z) :=
  [ ("difficulty", 32); ("number", 8); ("gasLimit", 8); ("gasUsed", 8);
    ("timestamp", 8); ("baseFeePerGas", 8); ("blobGasUsed", 8);
    ("excessBlobGas", 8) ].

Definition header_path : list string :=
  ["block"; "Reth115"; "header"; "header"].

(** The value [rpc_to_nanoreth] returns, from its parts. *)
Definition converted_block (hash header : pyval) (txs rcpts : list pyval)
  (bnum : Z) : pyval :=
  VList
    [ VDict
        [ ("block",
           VDict
             [ ("Reth115",
                VDict
                  [ ("header", VDict [("hash", hash); ("header", header)]);
                    ("body",
                     VDict [ ("transactions", VList txs);
                             ("ommers", VList []);
                             ("withdrawals", VList []) ]) ]) ]);
          ("receipts", VList rcpts);
          ("system_txs", VList []);
          ("read_precompile_calls", VList []);
          ("highest_precompile_address",
           VBytes (get_highest_precompile bnum)) ] ].

(** The receipts the conversion iterates over: [receipts_json or []]. *)
Definition receipts_or_none (receipts_json : json) : json :=
  if truthy receipts_json then receipts_json else JArr [].

(** A converted transaction: the three signature parts at their widths
    and the fields filed under the one variant of the transaction. *)
Definition filed_tx (tx : json) (o : pyval) : Prop :=
  exists t sig inner,
    tx = JObj t
    /\ o = VDict [ ("signature", VList sig);
                   ("transaction", VDict [(fst (tx_variant t), VDict inner)]) ]
    /\ Forall2 (fun width v => bytes_of_width width (Some v)) [32; 32; 8] sig
    /\ map fst inner = map fst (snd (tx_variant t)).

(** A converted receipt. *)
Definition filed_receipt (r : json) (o : pyval) : Prop :=
  exists d name gas logs,
    r = JObj d
    /\ o = VDict [ ("tx_type", VStr name);
                   ("success", VBool (is_str (get d "status") "0x1"));
                   ("cumulative_gas_used", VInt gas);
                   ("logs", VList logs) ]
    /\ name ∈ ["Legacy"; "Eip2930"; "Eip1559"]
    /\ int16_of (get_or d "cumulativeGasUsed" (JStr "0x0")) = Ok gas
    /\ forall ls, get_or d "logs" (JArr []) = JArr ls ->
         List.length logs = List.length ls.

(** How a node renders a response: a byte string as 0x-prefixed hex, a
    quantity as [hex] does. *)
Definition hex_bytes (bs : Py.bytes) : json := JStr ("0x" +:+ hexlify bs).
Definition hex_quantity (n : Z) : json := JStr (Py.hex n).

(** The fields of a header that [rpc_to_nanoreth] insists on. *)
Record header_data : Type := {
  h_hash : Py.bytes;
  h_parentHash : Py.bytes;
  h_sha3Uncles : Py.bytes;
  h_miner : Py.bytes;
  h_stateRoot : Py.bytes;
  h_transactionsRoot : Py.bytes;
  h_receiptsRoot : Py.bytes;
  h_logsBloom : Py.bytes;
  h_number : Z;
  h_gasLimit : Z;
  h_gasUsed : Z;
  h_timestamp : Z
}.

(** A block response with these fields and no others. *)
Definition encode_header (h : header_data) : list (string * json) :=
  [ ("hash", hex_bytes (h_hash h));
    ("parentHash", hex_bytes (h_parentHash h));
    ("sha3Uncles", hex_bytes (h_sha3Uncles h));
    ("miner", hex_bytes (h_miner h));
    ("stateRoot", hex_bytes (h_stateRoot h));
    ("transactionsRoot", hex_bytes (h_transactionsRoot h));
    ("receiptsRoot", hex_bytes (h_receiptsRoot h));
    ("logsBloom", hex_bytes (h_logsBloom h));
    ("number", hex_quantity (h_number h));
    ("gasLimit", hex_quantity (h_gasLimit h));
    ("gasUsed", hex_quantity (h_gasUsed h));
    ("timestamp", hex_quantity (h_timestamp h)) ].

(** [n.to_bytes(8, "big")] for a quantity that fits. *)
Definition quantity8 (n : Z) : pyval := VBytes (rev (Py.le_digits 8 n)).

Definition zeros (n : nat) : pyval := VBytes (repeat x00 n).

(** The header expected for such a response: the bytes and quantities
    themselves, zero for everything the response leaves out. *)
Definition decoded_header (h : header_data) : pyval :=
  VDict
    [ ("parentHash", VBytes (h_parentHash h));
      ("sha3Uncles", VBytes (h_sha3Uncles h));
      ("miner", VBytes (h_miner h));
      ("stateRoot", VBytes (h_stateRoot h));
      ("transactionsRoot", VBytes (h_transactionsRoot h));
      ("receiptsRoot", VBytes (h_receiptsRoot h));
      ("logsBloom", VBytes (h_logsBloom h));
      ("difficulty", zeros 32);
      ("number", quantity8 (h_number h));
      ("gasLimit", quantity8 (h_gasLimit h));
      ("gasUsed", quantity8 (h_gasUsed h));
      ("timestamp", quantity8 (h_timestamp h));
      ("extraData", VBytes []);
      ("mixHash", zeros 32);
      ("nonce", zeros 8);
      ("baseFeePerGas", zeros 8);
      ("withdrawalsRoot", zeros 32);
      ("blobGasUsed", zeros 8);
      ("excessBlobGas", zeros 8);
      ("parentBeaconBlockRoot", zeros 32) ].

Definition fits_u64 (n : Z) : Prop := 0 <= n < 2 ^ 64.

(** A block at height 45,000,000 with one EIP-1559 transaction, and its
    receipt. *)
Definition sample_header : header_data :=
  {| h_hash := repeat xab 32;
     h_parentHash := repeat xcd 32;
     h_sha3Uncles := repeat x1d 32;
     h_miner := repeat x00 20;
     h_stateRoot := repeat x5a 32;
     h_transactionsRoot := repeat x56 32;
     h_receiptsRoot := repeat x57 32;
     h_logsBloom := repeat x00 256;
     h_number := 45000000;
     h_gasLimit := 30000000;
     h_gasUsed := 21000;
     h_timestamp := 1760000000 |}.

Definition sample_tx : json :=
  JObj [ ("type", JStr "0x2");
         ("chainId", JStr "0x3e6");
         ("nonce", JStr "0x7");
         ("gas", JStr "0x5208");
         ("maxFeePerGas", JStr "0x3b9aca00");
         ("maxPriorityFeePerGas", JStr "0x1");
         ("to", hex_bytes (repeat x11 20));
         ("value", JStr "0xde0b6b3a7640000");
         ("accessList",
          JArr [JObj [ ("address", hex_bytes (repeat x22 20));
                       ("storageKeys", JArr [hex_bytes (repeat x00 32)]) ]]);
         ("input", JStr "0x");
         ("r", JStr "0x1");
         ("s", JStr "0x2");
         ("yParity", JStr "0x1") ].

Definition sample_receipt : json :=
  JObj [ ("type", JStr "0x2");
         ("status", JStr "0x1");
         ("cumulativeGasUsed", JStr "0x5208");
         ("logs",
          JArr [JObj [ ("address", hex_bytes (repeat x22 20));
                       ("topics", JArr [hex_bytes (repeat x33 32)]);
                       ("data", JStr "0x") ]]) ].

Definition sample_block : json :=
  JObj (encode_header sample_header
        ++ [("transactions", JArr [sample_tx])])%list.

(** *** Reports *)

(** An entry [(millions, thousands, missing, expected)] of
    [incomplete_chunks] reports its chunk truly. *)
Definition chunk_report_ok (files : gmap rel_path Py.bytes) (latest : Z)
  (c : Z * Z * Z * Z) : Prop :=
  let '(M, T, missing, expected) := c in
  missing = Z.of_nat (List.length (chunk_missing files latest M T))
  /\ expected
     = Z.of_nat (List.length (CheckBlockCompleteness.blocks_in_chunk T M latest))
  /\ 1 <= missing <= expected
  /\ expected <= 1000.

(** The missing heights the report adds up to. *)
Definition reported_missing (cs : list (Z * Z * Z * Z)) : Z :=
  fold_right (fun c acc => snd (fst c) + acc) 0 cs.

(** The directory pairs the report lists. *)
Definition reported_dirs (cs : list (Z * Z * Z * Z)) : list (Z * Z) :=
  map (fun c => fst (fst c)) cs.

(** A node whose responses carry no id. *)
Definition unkeyed_server : nat -> list request -> attempt_outcome :=
  fun _ _ => Body (JArr [JObj [("jsonrpc", JStr "2.0");
                               ("result", JNull)]]).

End Spec.

(** * Properties *)

Import Spec.
Import Py (result, Ok, Raise).

(** ** The path scheme *)

Section PathScheme.

Lemma floordiv_bucket (d x : Z) :
  0 < d -> floor_bucket d x (Py.floordiv x d * d).
Proof.
  intros Hd. unfold floor_bucket, Py.floordiv. split.
  - by exists (x / d).
  - pose proof (Z.mul_div_le x d Hd).
    pose proof (Z.mul_succ_div_gt x d Hd). lia.
Qed.

Lemma floor_bucket_unique (d x b b' : Z) :
  0 < d -> floor_bucket d x b -> floor_bucket d x b' -> b = b'.
Proof.
  intros Hd [[q ->] Hq] [[q' ->] Hq'].
  assert (q = q') by nia. by subst.
Qed.

(** For a height [h >= 1] both buckets of [expected_dir] are the
    floor buckets of [h - 1]: a multiple of 1000 lies in the bucket
    before its own. *)
Lemma expected_dir_floor_buckets (h : Z) :
  1 <= h ->
  floor_bucket 1000000 (h - 1) (fst (CheckBlockCompleteness.expected_dir h))
  /\ floor_bucket 1000 (h - 1) (snd (CheckBlockCompleteness.expected_dir h)).
Proof.
  intros Hh. unfold CheckBlockCompleteness.expected_dir.
  destruct (Z.eqb_spec h 0) as [->|_]; [lia|]. simpl.
  split; apply floordiv_bucket; lia.
Qed.

(** C2. For every height [h >= 1], [expected_dir h] is
    [(floor((h-1)/1_000_000) * 1_000_000, floor((h-1)/1_000) * 1_000)],
    each component being the multiple of the bucket size that brackets
    [h - 1]; [expected_dir 0 = (0, 0)]; and height 45,000,000 lies in the
    thousands bucket 44,999,000, not 45,000,000. *)
Theorem expected_dir_height_minus_one (h : Z) :
  1 <= h ->
  CheckBlockCompleteness.expected_dir h
    = ((h - 1) / 1000000 * 1000000, (h - 1) / 1000 * 1000)
  /\ floor_bucket 1000000 (h - 1) (fst (CheckBlockCompleteness.expected_dir h))
  /\ floor_bucket 1000 (h - 1) (snd (CheckBlockCompleteness.expected_dir h))
  /\ CheckBlockCompleteness.expected_dir 0 = (0, 0)
  /\ snd (CheckBlockCompleteness.expected_dir 45000000) = 44999000
  /\ snd (CheckBlockCompleteness.expected_dir 45000000) <> 45000000.
Proof.
  intros Hh. destruct (expected_dir_floor_buckets h Hh) as [Hm Ht].
  split; [|split; [exact Hm|split; [exact Ht|]]].
  - unfold CheckBlockCompleteness.expected_dir, Py.floordiv.
    by destruct (Z.eqb_spec h 0) as [->|_]; [lia|].
  - repeat split; try reflexivity; discriminate.
Qed.

Lemma expected_dir_height_minus_one_witness :
  1 <= 45000000
  /\ CheckBlockCompleteness.expected_dir 45000000 = (44000000, 44999000).
Proof.
  split; [lia|].
  destruct (expected_dir_height_minus_one 45000000 ltac:(lia)) as [-> _].
  reflexivity.
Defined.

(** Away from height 0 the three scripts compute one and the same
    relative path, and the object keys are its printed form. *)
Lemma path_scheme_agrees_off_zero (h : Z) :
  h <> 0 ->
  CheckBlockCompleteness.cache_path h = DownloadBoundaryBlocks.cache_path h
  /\ DownloadBoundaryBlocks.cache_path h = FetchBlocksRpc.block_path h
  /\ DownloadBoundaryBlocks.s3_key h
       = Archive.key_of (DownloadBoundaryBlocks.cache_path h)
  /\ CheckBlockCompleteness.download_one_key h
       = Archive.key_of (CheckBlockCompleteness.cache_path h).
Proof.
  intros Hh.
  unfold CheckBlockCompleteness.cache_path,
    CheckBlockCompleteness.download_one_key,
    CheckBlockCompleteness.expected_dir,
    DownloadBoundaryBlocks.cache_path, DownloadBoundaryBlocks.s3_key,
    FetchBlocksRpc.block_path, Archive.key_of.
  destruct (Z.eqb_spec h 0) as [?|_]; [contradiction|].
  repeat split; reflexivity.
Qed.

(** C1. At height 0 the scripts part ways: [expected_dir] has the
    special case and yields the buckets (0, 0), while [s3_key] and
    [cache_path] of download_boundary_blocks.py and [block_path] of
    fetch_blocks_rpc.py floor-divide -1 and yield (-1000000, -1000). *)
Theorem path_scheme_diverges_at_zero :
  CheckBlockCompleteness.expected_dir 0 = (0, 0)
  /\ CheckBlockCompleteness.cache_path 0 = ("0", "0", "0.rmp.lz4")
  /\ DownloadBoundaryBlocks.cache_path 0 = ("-1000000", "-1000", "0.rmp.lz4")
  /\ DownloadBoundaryBlocks.s3_key 0 = "-1000000/-1000/0.rmp.lz4"
  /\ FetchBlocksRpc.block_path 0 = ("-1000000", "-1000", "0.rmp.lz4")
  /\ CheckBlockCompleteness.cache_path 0 <> FetchBlocksRpc.block_path 0
  /\ CheckBlockCompleteness.cache_path 0 <> DownloadBoundaryBlocks.cache_path 0.
Proof. repeat split; try reflexivity; discriminate. Qed.

End PathScheme.

(** ** The precompile table *)

Section Precompile.
Import FetchBlocksRpc.

Lemma first_reached_first_applicable table h addr :
  first_reached table h = Some addr -> first_applicable table h addr.
Proof.
  induction table as [|[threshold a] rest IH]; simpl; [discriminate|].
  destruct (Z.leb_spec threshold h) as [Hle|Hgt].
  - intros [= ->]. exists [], threshold, rest. repeat split; auto.
  - intros Hrest. destruct (IH Hrest) as (before & th & after & -> & Hth & Hall).
    exists ((threshold, a) :: before), th, after. repeat split; auto.
Qed.

Lemma first_reached_some (h : Z) :
  0 <= h -> is_Some (first_reached PRECOMPILE_TRANSITIONS h).
Proof.
  intros Hh. unfold PRECOMPILE_TRANSITIONS. simpl.
  repeat (case_match; [by eexists|]).
  lia.
Qed.

(** At height 41,121,887 the wording of the specification fails: the
    address it resolves to is not the third-oldest of the table. *)
Lemma precompile_41121887_is_not_third_oldest :
  nth_oldest PRECOMPILE_TRANSITIONS 3 = Some (address x08 x12)
  /\ get_highest_precompile 41121887 = address x08 x11
  /\ nth_oldest PRECOMPILE_TRANSITIONS 3
       <> Some (get_highest_precompile 41121887).
Proof. repeat split; try reflexivity. vm_compute. discriminate. Qed.

(** C7 (amended). For every height [h >= 0], [get_highest_precompile h]
    is the address of the first entry, in the newest-first order of the
    table, whose threshold is at most [h]. Heights 0 and 41,121,886
    resolve to the oldest address, height 41,121,887 to the
    second-oldest (the third entry of the table), and every height from
    44,868,476 on to the newest. *)
Theorem get_highest_precompile_first_applicable (h : Z) :
  0 <= h ->
  first_applicable PRECOMPILE_TRANSITIONS h (get_highest_precompile h)
  /\ nth_oldest PRECOMPILE_TRANSITIONS 1 = Some (get_highest_precompile 0)
  /\ nth_oldest PRECOMPILE_TRANSITIONS 1
       = Some (get_highest_precompile 41121886)
  /\ nth_oldest PRECOMPILE_TRANSITIONS 2
       = Some (get_highest_precompile 41121887)
  /\ (44868476 <= h ->
      newest PRECOMPILE_TRANSITIONS = Some (get_highest_precompile h)).
Proof.
  intros Hh. split; [|repeat split].
  - apply first_reached_first_applicable. unfold get_highest_precompile.
    by destruct (first_reached_some h Hh) as [addr ->].
  - intros Hnew. unfold get_highest_precompile, PRECOMPILE_TRANSITIONS.
    simpl. by destruct (Z.leb_spec 44868476 h); [|lia].
Qed.

Lemma get_highest_precompile_first_applicable_witness :
  0 <= 45000000
  /\ get_highest_precompile 45000000 = address x08 x13
  /\ first_applicable PRECOMPILE_TRANSITIONS 45000000 (address x08 x13).
Proof.
  split; [lia|]. split; [reflexivity|].
  exact (proj1 (get_highest_precompile_first_applicable 45000000 ltac:(lia))).
Defined.

End Precompile.

(** ** Fixed-width big-endian integers *)

Section HexToBytes.
Import FetchBlocksRpc.

Lemma Z_of_byte_of_Z (z : Z) : 0 <= z < 256 -> Py.Z_of_byte (Py.byte_of_Z z) = z.
Proof.
  intros Hz. unfold Py.Z_of_byte, Py.byte_of_Z.
  destruct (Byte.of_N (Z.to_N z)) as [b|] eqn:Hb.
  - apply Byte.to_of_N in Hb. rewrite Hb. lia.
  - apply Byte.of_N_None_iff in Hb. lia.
Qed.

Lemma be_value_rev (bs : list byte) : Py.be_value (rev bs) = le_value bs.
Proof.
  unfold Py.be_value.
  induction bs as [|b r IH]; simpl; [done|].
  rewrite fold_left_app. simpl. rewrite IH. lia.
Qed.

Lemma le_digits_length (n : nat) (v : Z) : List.length (Py.le_digits n v) = n.
Proof. revert v. induction n as [|n IH]; intros v; simpl; auto. Qed.

Lemma le_digits_value (n : nat) (v : Z) :
  0 <= v -> le_value (Py.le_digits n v) = v mod 256 ^ Z.of_nat n.
Proof.
  revert v. induction n as [|n IH]; intros v Hv.
  - simpl. by rewrite Z.mod_1_r.
  - cbn [Py.le_digits le_value].
    rewrite Z_of_byte_of_Z by (apply Z.mod_pos_bound; lia).
    rewrite IH by (apply Z.div_pos; lia).
    rewrite Nat2Z.inj_succ, Z.pow_succ_r by lia.
    rewrite (Z.rem_mul_r v 256 (256 ^ Z.of_nat n)) by lia. lia.
Qed.

Lemma to_bytes_big_ok (v L : Z) :
  0 <= L -> 0 <= v < 256 ^ L ->
  exists bs, Py.to_bytes_big v L = Ok bs
             /\ Z.of_nat (List.length bs) = L /\ Py.be_value bs = v.
Proof.
  intros HL Hv. unfold Py.to_bytes_big.
  destruct (Z.ltb_spec L 0); [lia|].
  destruct (Z.ltb_spec v 0); [lia|].
  destruct (Z.leb_spec (256 ^ L) v); [lia|].
  eexists; split; [reflexivity|]. split.
  - rewrite length_rev, le_digits_length. lia.
  - rewrite be_value_rev, le_digits_value by lia.
    rewrite Z2Nat.id by lia. apply Z.mod_small. lia.
Qed.

Lemma to_bytes_big_overflow (v L : Z) :
  0 <= L -> v < 0 \/ 256 ^ L <= v ->
  Py.to_bytes_big v L = Raise Py.OverflowError.
Proof.
  intros HL Hv. unfold Py.to_bytes_big.
  destruct (Z.ltb_spec L 0); [lia|].
  destruct (Z.ltb_spec v 0); [done|].
  destruct (Z.leb_spec (256 ^ L) v); [done|lia].
Qed.

(** On a signed literal the wording of the specification fails: ["-1"]
    decodes to -1, which is below [256 ^ 1], and yet no byte string is
    returned. *)
Lemma hex_to_bytes_negative_literal_raises :
  hex_value "-1" = Ok (-1)
  /\ -1 < 256 ^ 1
  /\ hex_to_bytes "-1" 1 = Raise Py.OverflowError
  /\ ~ (exists bs, hex_to_bytes "-1" 1 = Ok bs).
Proof.
  repeat split; try reflexivity. intros [bs Hbs]. discriminate Hbs.
Qed.

(** C10 (amended). [hex_to_bytes] is partial. For a byte width
    [L >= 0]: [""] and ["0x"] decode to zero; when the decoded value [v]
    satisfies [0 <= v < 256 ^ L] the result is the big-endian byte string
    of exactly [L] bytes whose value is [v]; when [v >= 256 ^ L] or
    [v < 0] the call raises [OverflowError] instead of truncating; and
    when the text is not accepted by [int(h, 16)] it raises
    [ValueError]. *)
Theorem hex_to_bytes_partial (h : string) (L : Z) :
  0 <= L ->
  (h = "" \/ h = "0x" -> hex_value h = Ok 0)
  /\ (forall v, hex_value h = Ok v -> 0 <= v < 256 ^ L ->
       exists bs, hex_to_bytes h L = Ok bs
                  /\ Z.of_nat (List.length bs) = L /\ Py.be_value bs = v)
  /\ (forall v, hex_value h = Ok v -> 256 ^ L <= v ->
       hex_to_bytes h L = Raise Py.OverflowError)
  /\ (forall v, hex_value h = Ok v -> v < 0 ->
       hex_to_bytes h L = Raise Py.OverflowError)
  /\ (h <> "" -> h <> "0x" -> Py.int16 h = None ->
       hex_to_bytes h L = Raise Py.ValueError).
Proof.
  intros HL. unfold hex_to_bytes. repeat split.
  - by intros [-> | ->].
  - intros v -> Hv. simpl. by apply to_bytes_big_ok.
  - intros v -> Hv. simpl. apply to_bytes_big_overflow; auto.
  - intros v -> Hv. simpl. apply to_bytes_big_overflow; auto.
  - intros H1 H2 Hnone. unfold hex_value.
    destruct (String.eqb_spec h ""); [done|].
    destruct (String.eqb_spec h "0x"); [done|].
    simpl. by rewrite Hnone.
Qed.

Lemma hex_to_bytes_partial_witness :
  0 <= 8
  /\ hex_value "0x1f4" = Ok 500
  /\ 0 <= 500 < 256 ^ 8
  /\ exists bs, hex_to_bytes "0x1f4" 8 = Ok bs
                /\ Z.of_nat (List.length bs) = 8 /\ Py.be_value bs = 500.
Proof.
  split; [lia|]. split; [reflexivity|]. split; [lia|].
  destruct (hex_to_bytes_partial "0x1f4" 8 ltac:(lia)) as (_ & Hfit & _).
  apply (Hfit 500); [reflexivity | lia].
Defined.

End HexToBytes.

(** ** Retries in [rpc_call] *)

Section RpcCall.
Import Json FetchBlocksRpc.

Variable server : nat -> list request -> attempt_outcome.

Lemma attempt_result_error_object out :
  error_object out = true ->
  attempt_result out = Raise Py.RequestException.
Proof.
  destruct out as [e|[]]; simpl; try discriminate. by intros ->.
Qed.

Lemma attempt_result_as_transport_failure out :
  attempt_result (as_transport_failure out) = attempt_result out.
Proof.
  unfold as_transport_failure. destruct (error_object out) eqn:Herr; [|done].
  by rewrite (attempt_result_error_object out).
Qed.

Lemma rpc_attempts_retry attempt rest batch w e :
  attempt_result (server (posts w) batch) = Raise e ->
  caught_by_rpc_call e = true ->
  (attempt < MAX_RETRIES - 1)%nat ->
  rpc_attempts server (attempt :: rest) batch w
  = rpc_attempts server rest batch (after_failed_attempt attempt batch w).
Proof.
  intros Hres Hcaught Hlt. cbn [rpc_attempts].
  unfold mbind at 1. unfold post at 1. rewrite Hres, Hcaught.
  apply Nat.ltb_lt in Hlt. rewrite Hlt.
  unfold mbind, sleep, emit.
  assert (Qle_bool 0 (inject_Z (RETRY_DELAY * 2 ^ Z.of_nat attempt)) = true)
    as ->.
  { apply Qle_bool_iff. unfold Qle, inject_Z, RETRY_DELAY. simpl.
    pose proof (Z.pow_nonneg 2 (Z.of_nat attempt)). lia. }
  unfold after_failed_attempt. simpl. by rewrite <- app_assoc.
Qed.

Lemma rpc_attempts_give_up attempt rest batch w e :
  attempt_result (server (posts w) batch) = Raise e ->
  caught_by_rpc_call e = true ->
  ~ (attempt < MAX_RETRIES - 1)%nat ->
  rpc_attempts server (attempt :: rest) batch w
  = (Raise e, after_post batch w).
Proof.
  intros Hres Hcaught Hlt. cbn [rpc_attempts].
  unfold mbind at 1. unfold post at 1. rewrite Hres, Hcaught.
  apply Nat.ltb_nlt in Hlt. by rewrite Hlt.
Qed.

Lemma rpc_attempts_return attempt rest batch w results :
  attempt_result (server (posts w) batch) = Ok results ->
  rpc_attempts server (attempt :: rest) batch w
  = (Ok (Some results), after_post batch w).
Proof.
  intros Hres. cbn [rpc_attempts].
  unfold mbind at 1. unfold post at 1. by rewrite Hres.
Qed.

Lemma rpc_attempts_as_transport_failure attempts batch w :
  rpc_attempts (fun k b => as_transport_failure (server k b)) attempts batch w
  = rpc_attempts server attempts batch w.
Proof.
  revert w. induction attempts as [|attempt rest IH]; intros w; [done|].
  cbn [rpc_attempts]. unfold mbind at 1 3. unfold post at 1 2.
  rewrite attempt_result_as_transport_failure.
  destruct (attempt_result (server (posts w) batch)) as [results|e]; [done|].
  destruct (caught_by_rpc_call e); [|done].
  destruct (attempt <? MAX_RETRIES - 1)%nat; [|done].
  unfold mbind. destruct (sleep _ _ _) as [[[]|e'] w']; [apply IH|done].
Qed.

Lemma rpc_attempts_error_objects attempts batch w :
  (forall k, (k < List.length attempts)%nat ->
             error_object (server (posts w + k) batch) = true) ->
  Forall (fun attempt => (attempt < MAX_RETRIES - 1)%nat) attempts ->
  exists w',
    rpc_attempts server (attempts ++ [MAX_RETRIES - 1])%nat%list batch w
    = rpc_attempts server [MAX_RETRIES - 1]%nat batch w'
    /\ posts w' = (posts w + List.length attempts)%nat
    /\ files w' = files w
    /\ log w' = (log w ++ flat_map (fun attempt =>
                    [EvPost batch;
                     EvSleep RetryBackoff
                       (inject_Z (RETRY_DELAY * 2 ^ Z.of_nat attempt))])
                   attempts)%list.
Proof.
  revert w. induction attempts as [|attempt rest IH]; intros w Herr Hlt.
  - exists w. simpl. rewrite Nat.add_0_r, app_nil_r. done.
  - inversion Hlt as [|? ? Hattempt Hrest]; subst.
    assert (error_object (server (posts w) batch) = true) as Hnow.
    { specialize (Herr 0%nat). rewrite Nat.add_0_r in Herr.
      apply Herr. simpl. lia. }
    destruct (IH (after_failed_attempt attempt batch w)) as (w' & Hrun & Hp & Hf & Hl).
    { intros k Hk. simpl. replace (S (posts w + k)) with (posts w + S k)%nat by lia.
      apply Herr. simpl. lia. }
    { done. }
    exists w'. split; [|split; [|split]].
    + rewrite <- Hrun. simpl app.
      apply rpc_attempts_retry with (e := Py.RequestException); auto.
      by apply attempt_result_error_object.
    + rewrite Hp. simpl. lia.
    + by rewrite Hf.
    + rewrite Hl. simpl. by rewrite <- app_assoc.
Qed.

(** C3 (amended). A single error object returned in place of the array
    is raised as a [RequestException] inside the [try] of [rpc_call] and
    so is handled exactly like a transport failure: the call is retried
    with the back-off 2, 4, 8, 16 seconds, and the error reaches the
    caller only when the fifth attempt fails as well; an error object
    followed by an array is absorbed and never reaches the caller. *)
Theorem rpc_call_retries_error_object (batch : list request) (w : world) :
  rpc_call (fun k b => as_transport_failure (server k b)) batch w
  = rpc_call server batch w
  /\ ((forall k, (k < MAX_RETRIES)%nat ->
                 error_object (server (posts w + k) batch) = true) ->
      rpc_call server batch w
      = (Raise Py.RequestException,
         {| posts := (posts w + 5)%nat;
            log := (log w ++ [EvPost batch; EvSleep RetryBackoff 2;
                              EvPost batch; EvSleep RetryBackoff 4;
                              EvPost batch; EvSleep RetryBackoff 8;
                              EvPost batch; EvSleep RetryBackoff 16;
                              EvPost batch])%list;
            files := files w |}))
  /\ (forall results,
        error_object (server (posts w) batch) = true ->
        server (S (posts w)) batch = Body (JArr results) ->
        rpc_call server batch w
        = (Ok (Some results),
           {| posts := (posts w + 2)%nat;
              log := (log w ++ [EvPost batch; EvSleep RetryBackoff 2;
                                EvPost batch])%list;
              files := files w |})).
Proof.
  split; [apply rpc_attempts_as_transport_failure|]. split.
  - intros Herr. unfold rpc_call.
    destruct (rpc_attempts_error_objects [0; 1; 2; 3]%nat batch w)
      as (w' & Hrun & Hp & Hf & Hl).
    { intros k Hk. apply Herr. simpl in Hk. unfold MAX_RETRIES. lia. }
    { unfold MAX_RETRIES. repeat constructor. }
    change (seq 0 MAX_RETRIES) with ([0; 1; 2; 3] ++ [MAX_RETRIES - 1])%nat%list.
    rewrite Hrun.
    rewrite rpc_attempts_give_up with (e := Py.RequestException).
    + f_equal. unfold after_post. rewrite Hp, Hf, Hl.
      f_equal; [simpl; lia|]. rewrite <- app_assoc. reflexivity.
    + apply attempt_result_error_object. rewrite Hp. apply Herr.
      unfold MAX_RETRIES. simpl. lia.
    + done.
    + unfold MAX_RETRIES. lia.
  - intros results Herr Hnext. unfold rpc_call. simpl seq.
    rewrite rpc_attempts_retry with (e := Py.RequestException);
      [|by apply attempt_result_error_object|done|unfold MAX_RETRIES; lia].
    rewrite rpc_attempts_return with (results := results).
    + f_equal. unfold after_post, after_failed_attempt. simpl.
      rewrite <- app_assoc. f_equal. lia.
    + simpl. by rewrite Hnext.
Qed.

End RpcCall.

(** An error object is retried, against the wording of the
    specification: a node that keeps answering with an error object is
    POSTed to five times, not once. *)
Lemma rpc_call_error_object_is_not_propagated_immediately :
  Spec.error_object (always_error_object 0%nat []) = true
  /\ FetchBlocksRpc.posts
       (snd (FetchBlocksRpc.rpc_call always_error_object [] empty_world)) = 5%nat
  /\ ~ propagates_immediately always_error_object [] empty_world.
Proof.
  repeat split. intros [e He]. vm_compute in He. discriminate He.
Qed.

Lemma rpc_call_retries_error_object_witness :
  (forall k, (k < FetchBlocksRpc.MAX_RETRIES)%nat ->
     error_object
       (always_error_object (FetchBlocksRpc.posts empty_world + k) []) = true)
  /\ fst (FetchBlocksRpc.rpc_call always_error_object [] empty_world)
     = Raise Py.RequestException
  /\ error_object (error_object_once 0%nat []) = true
  /\ error_object_once 1%nat [] = FetchBlocksRpc.Body (Json.JArr [])
  /\ fst (FetchBlocksRpc.rpc_call error_object_once [] empty_world)
     = Ok (Some []).
Proof.
  split; [reflexivity|].
  destruct (rpc_call_retries_error_object always_error_object [] empty_world)
    as (_ & Hall & _).
  destruct (rpc_call_retries_error_object error_object_once [] empty_world)
    as (_ & _ & Honce).
  split; [by rewrite Hall|].
  split; [reflexivity|]. split; [reflexivity|].
  by rewrite (Honce []).
Defined.

(** ** Which heights are fetched *)

Section MissingHeights.
Import Archive FetchBlocksRpc.

Lemma fold_left_append_filter {A} (p : A -> bool) (l acc : list A) :
  fold_left (fun missing x => if p x then (missing ++ [x])%list else missing)
    l acc
  = (acc ++ List.filter p l)%list.
Proof.
  revert acc. induction l as [|x l IH]; intros acc; simpl.
  - by rewrite app_nil_r.
  - rewrite IH. destruct (p x); [|done]. by rewrite <- app_assoc.
Qed.

(** With or without [--scan-gaps], [main] keeps exactly the heights of
    the range whose entry does not exist. *)
Lemma determine_missing_modes_agree (a : args) (files : gmap rel_path Py.bytes) :
  determine_missing a files = find_missing_blocks files (start a) (end_ a)
  /\ determine_missing a files
     = List.filter (fun bnum => negb (exists_ files (block_path bnum)))
         (Py.range (start a) (end_ a + 1)).
Proof.
  unfold determine_missing, find_missing_blocks.
  split; destruct (scan_gaps a); try done;
    by rewrite fold_left_append_filter.
Qed.

(** C4. Without [--scan-gaps] the code does not take the whole range:
    over heights 1..2, with height 1 in the archive, only height 2 is
    kept as missing, the same as with [--scan-gaps], and [main] fetches the
    single batch [2]. *)
Theorem fast_mode_skips_existing_entries :
  scan_gaps fast_run_1_2 = false
  /\ Py.range (start fast_run_1_2) (end_ fast_run_1_2 + 1) = [1; 2]
  /\ exists_ archive_with_height_1 (block_path 1) = true
  /\ determine_missing fast_run_1_2 archive_with_height_1 = [2]
  /\ find_missing_blocks archive_with_height_1 1 2 = [2]
  /\ batches_in
       (log (snd (main sample_server sample_transcode never_fails
                    fast_run_1_2 world_with_height_1)))
     = [[2]].
Proof. repeat split; vm_compute; reflexivity. Qed.

End MissingHeights.

(** ** The latest local height *)

Section LatestHeight.
Import Archive.

(** C5. [find_cache_latest] orders the file names of the newest
    directory as text: with the entries 9,999,999 and 10,000,000 present
    it answers 9,999,999, where [find_latest_local_block] answers
    10,000,000. A file name that is no number makes it raise, where
    [find_latest_local_block] skips the file; and it looks into the newest
    directory only, answering 0 when that one is empty. *)
Theorem find_cache_latest_orders_files_as_text :
  all_heights cache_at_ten_million = [9999999; 10000000]
  /\ FetchBlocksRpc.find_cache_latest cache_at_ten_million = Ok 9999999
  /\ CheckBlockCompleteness.find_latest_local_block cache_at_ten_million
     = 10000000
  /\ FetchBlocksRpc.find_cache_latest cache_with_stray_file
     = Raise Py.ValueError
  /\ CheckBlockCompleteness.find_latest_local_block cache_with_stray_file
     = 9999999
  /\ FetchBlocksRpc.find_cache_latest cache_with_empty_newest_dir = Ok 0
  /\ CheckBlockCompleteness.find_latest_local_block cache_with_empty_newest_dir
     = 9998001.
Proof. repeat split; vm_compute; reflexivity. Qed.

Lemma insert_sorted_perm {A} (leb : A -> A -> bool) (x : A) (l : list A) :
  Py.insert_sorted leb x l ≡ₚ x :: l.
Proof.
  induction l as [|y l IH]; simpl; [done|].
  destruct (leb x y); [done|]. rewrite IH. apply perm_swap.
Qed.

(** [sorted] rearranges, it neither drops nor adds. *)
Lemma sorted_perm {A} (leb : A -> A -> bool) (l : list A) :
  Py.sorted leb l ≡ₚ l.
Proof.
  unfold Py.sorted. induction l as [|x l IH]; simpl; [done|].
  by rewrite insert_sorted_perm, IH.
Qed.

Lemma fold_max_spec (l : list Z) (best : Z) :
  let r := fold_left Z.max l best in
  best <= r /\ (forall h, h ∈ l -> h <= r) /\ (r = best \/ r ∈ l).
Proof.
  revert best. induction l as [|x l IH]; intros best; simpl.
  - split; [lia|]. split; [|by left]. intros h Hh. by apply elem_of_nil in Hh.
  - destruct (IH (Z.max best x)) as (Hge & Hall & Hin).
    split; [lia|]. split.
    + intros h Hh. apply elem_of_cons in Hh as [->|Hh]; [lia|by apply Hall].
    + destruct Hin as [Heq|Hin]; [|right; by right].
      rewrite Heq. destruct (Z.max_spec best x) as [[_ ->]|[_ ->]];
        [right; by left|by left].
Qed.

Lemma scan_files_fold (best : Z) (fs : list (string * node)) :
  CheckBlockCompleteness.scan_files best fs
  = fold_left Z.max (heights_in_files fs) best.
Proof.
  unfold CheckBlockCompleteness.scan_files, heights_in_files.
  revert best. induction (names fs) as [|f l IH]; intros best; [done|].
  cbn [fold_left omap list_omap]. fold (omap parsed_height l).
  unfold parsed_height at 1.
  destruct (CheckBlockCompleteness.has_lz4_suffix f); [|apply IH].
  destruct (Py.int10 _) as [bn|]; [|apply IH].
  cbn [fold_left]. rewrite <- IH. f_equal.
  destruct (Z.ltb_spec best bn); lia.
Qed.

Lemma scan_dirs_fold (inner : Z -> list (string * node) -> Z)
  (heights : list (string * node) -> list Z)
  (l : list (string * node)) (best : Z) :
  (forall b sub, inner b sub = fold_left Z.max (heights sub) b) ->
  fold_left
    (fun best d =>
       match d with
       | (name, Dir sub) => if Py.isdigit name then inner best sub else best
       | (_, File) => best
       end) l best
  = fold_left Z.max (sub ← numeric_subdirs l; heights sub) best.
Proof.
  intros Hinner. unfold numeric_subdirs.
  revert best. induction l as [|[name [|sub]] l IH]; intros best; [done|..].
  - cbn [fold_left omap list_omap]. apply IH.
  - cbn [fold_left omap list_omap].
    destruct (Py.isdigit name); [|apply IH].
    rewrite bind_cons, fold_left_app, <- Hinner. apply IH.
Qed.

Lemma sorted_subdirs_perm (l : list (string * node)) :
  numeric_subdirs (CheckBlockCompleteness.sorted_entries l) ≡ₚ numeric_subdirs l.
Proof.
  unfold numeric_subdirs, CheckBlockCompleteness.sorted_entries.
  by rewrite sorted_perm.
Qed.

(** [find_latest_local_block] does what the specification says: it returns the
    greatest height among the entry files of the cache, 0 when there is
    none, whatever the order of the listings and whatever else lies in
    the directories. *)
Lemma find_latest_local_block_is_highest (blocks_dir : list (string * node)) :
  let latest := CheckBlockCompleteness.find_latest_local_block blocks_dir in
  0 <= latest
  /\ (forall h, h ∈ all_heights blocks_dir -> h <= latest)
  /\ (latest = 0 \/ latest ∈ all_heights blocks_dir).
Proof.
  unfold CheckBlockCompleteness.find_latest_local_block.
  rewrite (scan_dirs_fold CheckBlockCompleteness.scan_thousands
             (fun ts => fs ← numeric_subdirs (CheckBlockCompleteness.sorted_entries ts);
                        heights_in_files fs)).
  2:{ intros b ts. unfold CheckBlockCompleteness.scan_thousands.
      apply scan_dirs_fold. apply scan_files_fold. }
  set (sorted_heights := _ ≫= _).
  assert (forall h, h ∈ sorted_heights <-> h ∈ all_heights blocks_dir) as Hsame.
  { intros h. unfold sorted_heights, all_heights.
    rewrite !list_elem_of_bind.
    split; intros (ts & Hh & Hts); exists ts.
    - rewrite sorted_subdirs_perm in Hts. split; [|done].
      apply list_elem_of_bind in Hh as (fs & Hh & Hfs).
      rewrite sorted_subdirs_perm in Hfs.
      apply list_elem_of_bind. by exists fs.
    - split; [|by rewrite sorted_subdirs_perm].
      apply list_elem_of_bind in Hh as (fs & Hh & Hfs).
      apply list_elem_of_bind. exists fs. by rewrite sorted_subdirs_perm. }
  destruct (fold_max_spec sorted_heights 0) as (Hge & Hall & Hin).
  split; [done|]. split.
  - intros h Hh. apply Hall. by apply Hsame.
  - destruct Hin as [?|Hin]; [by left|right; by apply Hsame].
Qed.

End LatestHeight.

(** ** Correlation of requests and responses *)

Section Correlation.
Import Json FetchBlocksRpc.

Variable server : nat -> list request -> attempt_outcome.
Variable transcode : json -> json -> result Py.bytes.
Variable write_fails : Archive.rel_path -> bool.

Lemma build_batch_unfold (block_nums : list Z) :
  build_batch block_nums = flat_map request_pair (Py.enumerate block_nums).
Proof.
  unfold build_batch. apply flat_map_ext. by intros [i bnum].
Qed.

Lemma request_pairs_length (k : nat) (l : list Z) :
  List.length (flat_map request_pair (combine (seq k (List.length l)) l))
  = (2 * List.length l)%nat.
Proof.
  revert k. induction l as [|b l IH]; intros k; simpl; [done|].
  rewrite IH. lia.
Qed.

Lemma request_pairs_ids (k : nat) (l : list Z) :
  map id (flat_map request_pair (combine (seq k (List.length l)) l))
  = map Z.of_nat (seq (2 * k) (2 * List.length l)).
Proof.
  revert k. induction l as [|b l IH]; intros k; [done|].
  replace (2 * List.length (b :: l))%nat with (S (S (2 * List.length l)))
    by (simpl; lia).
  cbn [List.length seq combine flat_map request_pair app map id
         block_request receipts_request fst snd].
  rewrite IH. replace (2 * S k)%nat with (S (S (2 * k))) by lia.
  f_equal; [lia|]. f_equal. lia.
Qed.

Lemma request_pairs_lookup (k i : nat) (l : list Z) (bnum : Z) :
  l !! i = Some bnum ->
  flat_map request_pair (combine (seq k (List.length l)) l) !! (2 * i)%nat
  = Some (block_request (k + i) bnum)
  /\ flat_map request_pair (combine (seq k (List.length l)) l) !! (2 * i + 1)%nat
     = Some (receipts_request (k + i) bnum).
Proof.
  revert k i. induction l as [|b l IH]; intros k i Hi; [done|].
  destruct i as [|i].
  - injection Hi as ->. rewrite Nat.add_0_r. by split.
  - replace (2 * S i)%nat with (S (S (2 * i))) by lia.
    replace (k + S i)%nat with (S k + i)%nat by lia.
    simpl in Hi. destruct (IH (S k) i Hi) as [H1 H2].
    split; [exact H1|exact H2].
Qed.

Lemma index_from_entries (results : list json)
  (acc : gmap dict_key (list (string * json))) :
  NoDup (response_keys results) ->
  Forall (fun r => is_Some (response_entry r)) results ->
  index_from results acc = Ok (list_to_map (response_entries results) ∪ acc).
Proof.
  unfold response_keys, response_entries.
  revert acc. induction results as [|r rest IH]; intros acc Hnd Hall.
  - simpl. by rewrite (left_id ∅ (∪)).
  - inversion Hall as [|? ? [[k fields] Hr] Hrest]; subst.
    cbn [index_from omap list_omap] in *.
    fold (omap response_entry rest) in *.
    rewrite Hr in Hnd |- *. unfold response_entry in Hr.
    destruct (id_key r) as [[k' fields']|e]; [|done].
    injection Hr as -> ->.
    rewrite fmap_cons in Hnd. apply NoDup_cons in Hnd as [Hk Hnd].
    rewrite IH by done. f_equal.
    rewrite list_to_map_cons, <- insert_union_l.
    symmetry. apply insert_union_r. by apply not_elem_of_list_to_map.
Qed.

Lemma index_from_all_keyed (results : list json)
  (acc by_id : gmap dict_key (list (string * json))) :
  index_from results acc = Ok by_id ->
  Forall (fun r => is_Some (response_entry r)) results.
Proof.
  revert acc. induction results as [|r rest IH]; intros acc Hidx; [done|].
  simpl in Hidx. destruct (id_key r) as [[k fields]|e] eqn:Hr; [|done].
  constructor; [|by eapply IH].
  unfold response_entry. rewrite Hr. by eexists.
Qed.

(** Under distinct ids the index does not depend on the order of the
    array of responses. *)
Lemma index_by_id_permutation (results results' : list json)
  (by_id : gmap dict_key (list (string * json))) :
  results ≡ₚ results' ->
  NoDup (response_keys results) ->
  index_by_id results = Ok by_id ->
  index_by_id results' = Ok by_id.
Proof.
  intros Hperm Hnd Hidx. unfold index_by_id in *.
  pose proof (index_from_all_keyed _ _ _ Hidx) as Hall.
  rewrite index_from_entries in Hidx by done.
  rewrite index_from_entries.
  - rewrite <- Hidx. do 2 f_equal.
    symmetry. apply list_to_map_proper; [done|].
    unfold response_entries. by rewrite Hperm.
  - unfold response_keys, response_entries in *. by rewrite <- Hperm.
  - by rewrite <- Hperm.
Qed.

(** A response is found under its own id. *)
Lemma index_by_id_lookup (results : list json)
  (by_id : gmap dict_key (list (string * json)))
  (fields : list (string * json)) (n : Z) :
  NoDup (response_keys results) ->
  index_by_id results = Ok by_id ->
  JObj fields ∈ results ->
  has_key fields "id" = true ->
  get fields "id" = JNum n ->
  by_id !! KInt n = Some fields.
Proof.
  intros Hnd Hidx Hin Hhas Hid. unfold index_by_id in Hidx.
  pose proof (index_from_all_keyed _ _ _ Hidx) as Hall.
  rewrite index_from_entries in Hidx by done. injection Hidx as <-.
  rewrite (right_id ∅ (∪)).
  apply elem_of_list_to_map; [done|].
  unfold response_entries. apply list_elem_of_omap.
  exists (JObj fields). split; [done|].
  unfold response_entry, id_key. by rewrite Hhas, Hid.
Qed.

End Correlation.

(** ** Heights of a batch are handled one by one *)

Section Batch.
Import Archive Json FetchBlocksRpc.

Variable server : nat -> list request -> attempt_outcome.
Variable transcode : json -> json -> result Py.bytes.
Variable write_fails : rel_path -> bool.

Lemma string_length_append (s1 s2 : string) :
  String.length (s1 +:+ s2) = (String.length s1 + String.length s2)%nat.
Proof. induction s1 as [|c s1 IH]; simpl; [done|]. by rewrite IH. Qed.

Lemma string_append_cancel_r (s1 s2 x : string) :
  s1 +:+ x = s2 +:+ x -> s1 = s2.
Proof.
  revert s2. induction s1 as [|c s1 IH]; intros [|c' s2] Heq; simpl in Heq.
  - done.
  - apply (f_equal String.length) in Heq.
    rewrite ?string_length_append in Heq. simpl in Heq.
    rewrite ?string_length_append in Heq. lia.
  - apply (f_equal String.length) in Heq.
    rewrite ?string_length_append in Heq. simpl in Heq.
    rewrite ?string_length_append in Heq. lia.
  - injection Heq as -> Heq. f_equal. by apply IH.
Qed.

Lemma to_int_not_nil (n : Z) :
  Z.to_int n <> Decimal.Pos Decimal.Nil /\ Z.to_int n <> Decimal.Neg Decimal.Nil.
Proof.
  destruct n as [|p|p]; simpl; split; try discriminate;
    intros [= H]; by apply DecimalPos.Unsigned.to_uint_nonnil in H.
Qed.

Lemma str_inj (a b : Z) : Py.str a = Py.str b -> a = b.
Proof.
  unfold Py.str. intros Heq.
  destruct (to_int_not_nil a) as [Ha1 Ha2].
  destruct (to_int_not_nil b) as [Hb1 Hb2].
  apply DecimalZ.to_int_inj.
  pose proof (DecimalString.NilZero.isi _ Ha1 Ha2) as Ha.
  pose proof (DecimalString.NilZero.isi _ Hb1 Hb2) as Hb.
  rewrite Heq in Ha. congruence.
Qed.

(** Distinct heights have distinct entries. *)
Lemma block_path_inj (a b : Z) : block_path a = block_path b -> a = b.
Proof.
  unfold block_path. intros [= _ _ Hname].
  apply str_inj. by eapply string_append_cancel_r.
Qed.

Local Abbreviation outcome := (height_outcome transcode write_fails).

Lemma handle_height_run by_id (written errors : Z) (ib : nat * Z) (w : world) :
  handle_height transcode write_fails by_id (written, errors) ib w
  = match outcome by_id ib with
    | Some data =>
        (Ok (written + 1, errors), with_entry (block_path ib.2) data w)
    | None => (Ok (written, errors + 1), w)
    end.
Proof.
  destruct ib as [i bnum].
  unfold handle_height, height_outcome, own_block, own_receipts,
    own_receipts_result. cbn [fst snd].
  destruct (truthy _); [|done]. cbn [negb].
  unfold convert_and_write, mbind, lift, write_entry.
  destruct (get (default [] (by_id !! KInt (Z.of_nat i * 2 + 1))) "result");
    (destruct (transcode _ _) as [data|e]; [|done]);
    by destruct (write_fails _).
Qed.

Lemma for_each_handle_height by_id (l : list (nat * Z)) (written errors : Z)
  (w : world) :
  for_each l (handle_height transcode write_fails by_id) (written, errors) w
  = (Ok (written + written_in transcode write_fails by_id l,
         errors + errors_in transcode write_fails by_id l),
     {| posts := posts w;
        log := log w;
        files := foldl (store_outcome transcode write_fails by_id) (files w) l |}).
Proof.
  revert written errors w. induction l as [|ib l IH]; intros written errors w.
  - unfold written_in, errors_in. simpl. unfold ret.
    rewrite !Z.add_0_r. by destruct w.
  - cbn [for_each]. unfold mbind. rewrite handle_height_run.
    unfold written_in, errors_in, store_outcome in *. cbn [List.filter foldl].
    destruct (outcome by_id ib) as [data|] eqn:Hout.
    + rewrite IH. rewrite bool_decide_true by by eexists. simpl negb.
      cbn [List.length with_entry posts log files]. do 3 f_equal; lia.
    + rewrite IH. rewrite bool_decide_false by by intros [? ?]. simpl negb.
      cbn [List.length]. do 3 f_equal; lia.
Qed.

Lemma counts_add_up by_id (l : list (nat * Z)) :
  written_in transcode write_fails by_id l
  + errors_in transcode write_fails by_id l = Z.of_nat (List.length l).
Proof.
  unfold written_in, errors_in. induction l as [|ib l IH]; [done|].
  cbn [List.filter]. destruct (bool_decide _); simpl negb; cbn [List.length]; lia.
Qed.

Lemma foldl_store_other by_id (l : list (nat * Z)) fs (p : rel_path) :
  (forall ib, ib ∈ l -> block_path ib.2 <> p) ->
  foldl (store_outcome transcode write_fails by_id) fs l !! p = fs !! p.
Proof.
  revert fs. induction l as [|ib l IH]; intros fs Hp; [done|].
  cbn [foldl]. rewrite IH.
  - unfold store_outcome. destruct (outcome by_id ib); [|done].
    apply lookup_insert_ne. apply Hp. by left.
  - intros ib' Hin. apply Hp. by right.
Qed.

Lemma foldl_store_own by_id (l : list (nat * Z)) fs (ib : nat * Z) :
  NoDup l.*2 -> ib ∈ l ->
  foldl (store_outcome transcode write_fails by_id) fs l !! block_path ib.2
  = match outcome by_id ib with
    | Some data => Some data
    | None => fs !! block_path ib.2
    end.
Proof.
  revert fs. induction l as [|ib' l IH]; intros fs Hnd Hin.
  - by apply elem_of_nil in Hin.
  - rewrite fmap_cons in Hnd. apply NoDup_cons in Hnd as [Hfresh Hnd].
    cbn [foldl]. apply elem_of_cons in Hin as [->|Hin].
    + rewrite foldl_store_other.
      * unfold store_outcome. destruct (outcome by_id ib') as [data|]; [|done].
        apply lookup_insert_eq.
      * intros ib Hin Heq. apply block_path_inj in Heq.
        apply Hfresh. rewrite <- Heq. apply list_elem_of_fmap. by exists ib.
    + rewrite IH by done.
      destruct (outcome by_id ib) as [data|]; [done|].
      unfold store_outcome. destruct (outcome by_id ib') as [data'|]; [|done].
      apply lookup_insert_ne. intros Heq. apply block_path_inj in Heq.
      apply Hfresh. rewrite Heq. apply list_elem_of_fmap. by exists ib.
Qed.

Lemma enumerate_from_snd (k : nat) (l : list Z) :
  (combine (seq k (List.length l)) l).*2 = l.
Proof.
  revert k. induction l as [|b l IH]; intros k; [done|].
  simpl. by rewrite IH.
Qed.

Lemma enumerate_from_lookup (k i : nat) (l : list Z) (bnum : Z) :
  l !! i = Some bnum -> ((k + i)%nat, bnum) ∈ combine (seq k (List.length l)) l.
Proof.
  revert k i. induction l as [|b l IH]; intros k i Hi; [done|].
  destruct i as [|i]; simpl in *.
  - injection Hi as ->. rewrite Nat.add_0_r. by left.
  - right. replace (k + S i)%nat with (S k + i)%nat by lia. by apply IH.
Qed.

Lemma enumerate_length (l : list Z) :
  List.length (Py.enumerate l) = List.length l.
Proof.
  unfold Py.enumerate. rewrite length_combine, length_seq. lia.
Qed.

(** [rpc_call] only POSTs its batch and sleeps its back-off; it does not
    touch the archive. *)
Lemma rpc_attempts_effects attempts batch w r w' :
  rpc_attempts server attempts batch w = (r, w') ->
  files w' = files w
  /\ exists new,
       log w' = (log w ++ new)%list
       /\ Forall (rpc_event batch) new
       /\ (attempts <> [] -> exists rest, new = EvPost batch :: rest).
Proof.
  revert w. induction attempts as [|attempt rest IH]; intros w Hrun.
  - injection Hrun as <- <-. split; [done|]. exists [].
    rewrite app_nil_r. by repeat split.
  - cbn [rpc_attempts] in Hrun. unfold mbind at 1 in Hrun.
    unfold post at 1 in Hrun.
    assert (Hstop : forall r0, (r0, after_post batch w) = (r, w') ->
      files w' = files w
      /\ exists new, log w' = (log w ++ new)%list
           /\ Forall (rpc_event batch) new
           /\ (attempt :: rest <> [] -> exists rest', new = EvPost batch :: rest')).
    { intros r0 [= <- <-]. split; [done|]. exists [EvPost batch].
      repeat split; [|by eexists]. constructor; [by left|done]. }
    destruct (attempt_result _) as [results|e]; [by eapply Hstop|].
    destruct (caught_by_rpc_call e); [|by eapply Hstop].
    destruct (attempt <? MAX_RETRIES - 1)%nat; [|by eapply Hstop].
    unfold mbind, sleep in Hrun.
    destruct (Qle_bool 0 _); [|unfold raise in Hrun; by eapply Hstop].
    unfold emit in Hrun.
    apply IH in Hrun as (Hfiles & new & Hlog & Hall & _). simpl in *.
    split; [done|].
    eexists (EvPost batch :: EvSleep RetryBackoff _ :: new).
    split; [|split].
    + rewrite Hlog, <- !app_assoc. reflexivity.
    + constructor; [by left|]. constructor; [right; by eexists|done].
    + by eexists.
Qed.

Lemma process_results_effects results block_nums w r w' :
  process_results transcode write_fails results block_nums w = (r, w') ->
  log w' = log w /\ posts w' = posts w.
Proof.
  unfold process_results, mbind, lift.
  destruct (index_by_id results) as [by_id|e]; [|by intros [= <- <-]].
  rewrite for_each_handle_height. by intros [= <- <-].
Qed.

Lemma fetch_and_write_batch_effects block_nums w r w' :
  fetch_and_write_batch server transcode write_fails block_nums w = (r, w') ->
  exists rest,
    log w' = (log w ++ EvPost (build_batch block_nums) :: rest)%list
    /\ Forall (rpc_event (build_batch block_nums)) rest.
Proof.
  unfold fetch_and_write_batch, mbind.
  destruct (rpc_call _ _ _) as [res w1] eqn:Hrpc.
  apply rpc_attempts_effects in Hrpc as (_ & new & Hlog & Hall & Hhead).
  destruct Hhead as [rest ->]; [done|].
  apply Forall_cons in Hall as [_ Hall].
  destruct res as [[results|]|e].
  - intros Hrun. apply process_results_effects in Hrun as [-> _]. by exists rest.
  - intros [= <- <-]. by exists rest.
  - intros [= <- <-]. by exists rest.
Qed.

Lemma get_id_has_key (fields : list (string * json)) (n : Z) :
  get fields "id" = JNum n -> has_key fields "id" = true.
Proof.
  induction fields as [|[k v] rest IH]; simpl; [done|].
  destruct (String.eqb k "id"); [done|]. exact IH.
Qed.

(** C8. For a batch of N heights [fetch_and_write_batch] POSTs exactly
    2 N requests: the height at position [i] (from 0) gets a
    block-by-number request with id [2 i] and a block-receipts request with
    id [2 i + 1]. Responses are filed by id: with distinct ids, any
    reordering of the array of responses gives the same run, and the block
    and receipts of position [i] are the results of the responses that
    carry the ids [2 i] and [2 i + 1]. The call itself uses them so: what
    it leaves in the entry of the height at position [i] is the conversion
    of the result of the response with id [2 i], together with the result
    of the response with id [2 i + 1] as its receipts, wherever in the array
    the two stand. A batch of five heights has the ten ids 0..9. *)
Theorem batch_requests_are_correlated_by_id (block_nums : list Z) :
  List.length (build_batch block_nums) = (2 * List.length block_nums)%nat
  /\ map id (build_batch block_nums)
     = map Z.of_nat (seq 0 (2 * List.length block_nums))
  /\ (forall i bnum, block_nums !! i = Some bnum ->
        build_batch block_nums !! (2 * i)%nat
        = Some {| jsonrpc := "2.0"; method := "eth_getBlockByNumber";
                  params := [JStr (Py.hex bnum); JBool true];
                  id := 2 * Z.of_nat i |}
        /\ build_batch block_nums !! (2 * i + 1)%nat
           = Some {| jsonrpc := "2.0"; method := "eth_getBlockReceipts";
                     params := [JStr (Py.hex bnum)];
                     id := 2 * Z.of_nat i + 1 |})
  /\ (forall w r w',
        fetch_and_write_batch server transcode write_fails block_nums w = (r, w') ->
        exists rest,
          log w' = (log w ++ EvPost (build_batch block_nums) :: rest)%list
          /\ Forall (rpc_event (build_batch block_nums)) rest)
  /\ (forall results results' by_id w,
        results ≡ₚ results' ->
        NoDup (response_keys results) ->
        index_by_id results = Ok by_id ->
        process_results transcode write_fails results' block_nums w
        = process_results transcode write_fails results block_nums w)
  /\ (forall results by_id fields i,
        NoDup (response_keys results) ->
        index_by_id results = Ok by_id ->
        JObj fields ∈ results ->
        has_key fields "id" = true ->
        (get fields "id" = JNum (2 * Z.of_nat i) ->
         own_block by_id i = get fields "result")
        /\ (get fields "id" = JNum (2 * Z.of_nat i + 1) ->
            own_receipts_result by_id i = get fields "result"))
  /\ (forall results by_id w w1 i bnum block_fields receipt_fields,
        NoDup block_nums ->
        rpc_call server (build_batch block_nums) w = (Ok (Some results), w1) ->
        NoDup (response_keys results) ->
        index_by_id results = Ok by_id ->
        block_nums !! i = Some bnum ->
        JObj block_fields ∈ results ->
        get block_fields "id" = JNum (2 * Z.of_nat i) ->
        JObj receipt_fields ∈ results ->
        get receipt_fields "id" = JNum (2 * Z.of_nat i + 1) ->
        let block_data := get block_fields "result" in
        let receipts_data :=
          match get receipt_fields "result" with
          | JNull => JArr []
          | j => j
          end in
        let p := block_path bnum in
        files (snd (fetch_and_write_batch server transcode write_fails
                      block_nums w)) !! p
        = if truthy block_data then
            match transcode block_data receipts_data with
            | Ok data => if write_fails p then files w !! p else Some data
            | Raise _ => files w !! p
            end
          else files w !! p)
  /\ (List.length block_nums = 5%nat ->
      map id (build_batch block_nums) = [0; 1; 2; 3; 4; 5; 6; 7; 8; 9]).
Proof.
  split; [rewrite build_batch_unfold; apply request_pairs_length|].
  split; [rewrite build_batch_unfold; apply request_pairs_ids|].
  split; [|split; [|split; [|split; [|split]]]].
  - intros i bnum Hi. rewrite build_batch_unfold. unfold Py.enumerate.
    destruct (request_pairs_lookup 0 i block_nums bnum Hi) as [-> ->].
    unfold block_request, receipts_request. simpl.
    split; do 2 f_equal; lia.
  - intros w r w' Hrun. by eapply fetch_and_write_batch_effects.
  - intros results results' by_id w Hperm Hnd Hidx.
    unfold process_results.
    by rewrite (index_by_id_permutation _ _ _ Hperm Hnd Hidx), Hidx.
  - intros results by_id fields i Hnd Hidx Hin Hhas.
    unfold own_block, own_receipts_result.
    split; intros Hid;
      erewrite index_by_id_lookup; eauto; rewrite Hid; f_equal; lia.
  - intros results by_id w w1 i bnum block_fields receipt_fields
      Hnd Hrpc Hkeys Hidx Hi Hblock Hblock_id Hreceipt Hreceipt_id.
    cbv zeta. unfold fetch_and_write_batch, mbind. rewrite Hrpc.
    unfold process_results, mbind, lift. rewrite Hidx.
    rewrite for_each_handle_height. cbn [snd files].
    apply rpc_attempts_effects in Hrpc as [-> _].
    rewrite (foldl_store_own by_id (Py.enumerate block_nums) _ (i, bnum)).
    2:{ unfold Py.enumerate. by rewrite enumerate_from_snd. }
    2:{ apply (enumerate_from_lookup 0 i block_nums bnum Hi). }
    unfold height_outcome, own_block, own_receipts, own_receipts_result.
    cbn [fst snd].
    replace (Z.of_nat i * 2) with (2 * Z.of_nat i) by lia.
    rewrite (index_by_id_lookup results by_id block_fields (2 * Z.of_nat i))
      by eauto using get_id_has_key.
    rewrite (index_by_id_lookup results by_id receipt_fields
               (2 * Z.of_nat i + 1)) by eauto using get_id_has_key.
    cbn [default]. destruct (truthy _); [|done].
    destruct (transcode _ _) as [data|e]; [|done].
    by destruct (write_fails _).
  - intros Hlen. rewrite build_batch_unfold. unfold Py.enumerate.
    rewrite request_pairs_ids, Hlen. reflexivity.
Qed.

(** C9 (amended). Within a batch the heights are handled in isolation,
    once the responses are filed: given the array of responses, each of them
    an object with an id so that the index by id exists, and distinct
    heights, the call returns counts that
    add up to the number of heights, the errors being exactly the heights
    without an outcome, and no entry outside the batch changes. For each
    height, by its own two responses alone: a missing, empty or error block
    response makes it an error and leaves its entry untouched; [None]
    receipts are replaced by the empty list and are no error; a conversion
    or a write that raises makes it one error; and a height whose block
    converts and writes is stored, whatever happened to its siblings. *)
Theorem per_height_failures_are_isolated (block_nums : list Z)
  (results : list json) (by_id : gmap dict_key (list (string * json)))
  (w w1 : world) :
  NoDup block_nums ->
  rpc_call server (build_batch block_nums) w = (Ok (Some results), w1) ->
  index_by_id results = Ok by_id ->
  exists written errors w',
    fetch_and_write_batch server transcode write_fails block_nums w
    = (Ok (written, errors), w')
    /\ written + errors = Z.of_nat (List.length block_nums)
    /\ errors = errors_in transcode write_fails by_id (Py.enumerate block_nums)
    /\ (forall p, (forall bnum, bnum ∈ block_nums -> block_path bnum <> p) ->
         files w' !! p = files w !! p)
    /\ forall i bnum, block_nums !! i = Some bnum ->
         let entry := files w' !! block_path bnum in
         let block_data := own_block by_id i in
         let receipts_data := own_receipts by_id i in
         let is_error := outcome by_id (i, bnum) = None in
         (by_id !! KInt (Z.of_nat i * 2) = None -> truthy block_data = false)
         /\ (truthy block_data = false ->
             is_error /\ entry = files w !! block_path bnum)
         /\ (own_receipts_result by_id i = JNull -> receipts_data = JArr [])
         /\ (forall e, transcode block_data receipts_data = Raise e ->
             is_error /\ entry = files w !! block_path bnum)
         /\ (write_fails (block_path bnum) = true -> is_error)
         /\ (forall data,
               truthy block_data = true ->
               transcode block_data receipts_data = Ok data ->
               write_fails (block_path bnum) = false ->
               ~ is_error /\ entry = Some data).
Proof.
  intros Hnd Hrpc Hidx.
  unfold fetch_and_write_batch, mbind. rewrite Hrpc.
  unfold process_results, mbind, lift. rewrite Hidx.
  rewrite for_each_handle_height.
  apply rpc_attempts_effects in Hrpc as [Hfiles _].
  eexists _, _, _. split; [reflexivity|]. cbn [files].
  split; [|split; [|split]].
  - pose proof (counts_add_up by_id (Py.enumerate block_nums)) as Hsum.
    rewrite enumerate_length in Hsum. lia.
  - lia.
  - intros p Hp. rewrite foldl_store_other, Hfiles; [done|].
    intros [i bnum] Hin. apply Hp. rewrite <- (enumerate_from_snd 0 block_nums).
    apply list_elem_of_fmap. by exists (i, bnum).
  - intros i bnum Hi.
    set (entry := foldl _ _ _ !! block_path bnum).
    set (block_data := own_block by_id i).
    set (receipts_data := own_receipts by_id i).
    assert (entry = match outcome by_id (i, bnum) with
                    | Some data => Some data
                    | None => files w !! block_path bnum
                    end) as Hentry.
    { unfold entry. rewrite <- Hfiles.
      apply (foldl_store_own by_id (Py.enumerate block_nums) _ (i, bnum)).
      - unfold Py.enumerate. by rewrite enumerate_from_snd.
      - apply (enumerate_from_lookup 0 i block_nums bnum Hi). }
    revert Hentry. unfold height_outcome. cbn [fst snd].
    fold block_data receipts_data. intros Hentry.
    split; [|split; [|split; [|split; [|split]]]].
    + intros Hnone. unfold block_data, own_block. by rewrite Hnone.
    + intros Hfalse. rewrite Hfalse in Hentry |- *. by split.
    + intros Hnull. unfold receipts_data, own_receipts. by rewrite Hnull.
    + intros e He. rewrite He in Hentry |- *.
      destruct (truthy block_data); by split.
    + intros Hw. rewrite Hw.
      destruct (truthy block_data); [|done].
      by destruct (transcode block_data receipts_data).
    + intros data Ht Hc Hw. rewrite Ht, Hc, Hw in Hentry |- *. by split.
Qed.

End Batch.

Lemma sample_results_indexed :
  NoDup (response_keys sample_results)
  /\ FetchBlocksRpc.index_by_id sample_results = Ok sample_by_id.
Proof.
  split; [|by vm_compute].
  apply (bool_decide_unpack _). by vm_compute.
Qed.

Lemma batch_requests_are_correlated_by_id_witness :
  sample_results ≡ₚ rev sample_results
  /\ NoDup (response_keys sample_results)
  /\ FetchBlocksRpc.index_by_id sample_results = Ok sample_by_id
  /\ FetchBlocksRpc.process_results sample_transcode never_fails
       (rev sample_results) [7; 8; 9] empty_world
     = FetchBlocksRpc.process_results sample_transcode never_fails
         sample_results [7; 8; 9] empty_world
  /\ map FetchBlocksRpc.id (FetchBlocksRpc.build_batch [7; 8; 9; 10; 11])
     = [0; 1; 2; 3; 4; 5; 6; 7; 8; 9]
  /\ FetchBlocksRpc.files
       (snd (FetchBlocksRpc.fetch_and_write_batch sample_server
               sample_transcode never_fails [7; 8; 9] empty_world))
     !! FetchBlocksRpc.block_path 8
     = Some [x01].
Proof.
  destruct sample_results_indexed as [Hnd Hidx].
  split; [apply Permutation_rev|]. split; [exact Hnd|]. split; [exact Hidx|].
  split; [|split].
  - destruct (batch_requests_are_correlated_by_id
                sample_server sample_transcode never_fails [7; 8; 9])
      as (_ & _ & _ & _ & Hperm & _).
    apply (Hperm _ _ sample_by_id); [apply Permutation_rev|exact Hnd|exact Hidx].
  - destruct (batch_requests_are_correlated_by_id
                sample_server sample_transcode never_fails [7; 8; 9; 10; 11])
      as (_ & _ & _ & _ & _ & _ & _ & Hfive).
    by apply Hfive.
  - destruct (batch_requests_are_correlated_by_id
                sample_server sample_transcode never_fails [7; 8; 9])
      as (_ & _ & _ & _ & _ & _ & Hused & _).
    assert (NoDup [7; 8; 9]) as Hheights
      by (apply (bool_decide_unpack _); by vm_compute).
    assert (Json.JObj [("jsonrpc", Json.JStr "2.0"); ("id", Json.JNum 2);
                       ("result", block_json 8)] ∈ sample_results) as Hblock
      by (apply list_elem_of_lookup; by exists 1%nat).
    assert (Json.JObj [("jsonrpc", Json.JStr "2.0"); ("id", Json.JNum 3);
                       ("result", Json.JNull)] ∈ sample_results) as Hreceipts
      by (apply list_elem_of_lookup; by exists 4%nat).
    pose proof (Hused sample_results sample_by_id empty_world
                  (after_post (FetchBlocksRpc.build_batch [7; 8; 9]) empty_world)
                  1%nat 8 _ _ Hheights eq_refl Hnd Hidx eq_refl
                  Hblock eq_refl Hreceipts eq_refl) as Hentry.
    etransitivity; [exact Hentry|reflexivity].
Defined.

Lemma per_height_failures_are_isolated_witness :
  NoDup [7; 8; 9]
  /\ FetchBlocksRpc.rpc_call sample_server
       (FetchBlocksRpc.build_batch [7; 8; 9]) empty_world
     = (Ok (Some sample_results),
        after_post (FetchBlocksRpc.build_batch [7; 8; 9]) empty_world)
  /\ FetchBlocksRpc.index_by_id sample_results = Ok sample_by_id
  /\ exists written errors w',
       FetchBlocksRpc.fetch_and_write_batch sample_server sample_transcode
         never_fails [7; 8; 9] empty_world
       = (Ok (written, errors), w')
       /\ written + errors = 3
       /\ FetchBlocksRpc.files w' !! FetchBlocksRpc.block_path 7 = None
       /\ FetchBlocksRpc.files w' !! FetchBlocksRpc.block_path 8 = Some [x01]
       /\ FetchBlocksRpc.files w' !! FetchBlocksRpc.block_path 9 = Some [x01].
Proof.
  destruct sample_results_indexed as [_ Hidx].
  assert (NoDup [7; 8; 9]) as Hnd by (apply (bool_decide_unpack _); by vm_compute).
  assert (FetchBlocksRpc.rpc_call sample_server
            (FetchBlocksRpc.build_batch [7; 8; 9]) empty_world
          = (Ok (Some sample_results),
             after_post (FetchBlocksRpc.build_batch [7; 8; 9]) empty_world))
    as Hrpc by reflexivity.
  split; [exact Hnd|]. split; [exact Hrpc|]. split; [exact Hidx|].
  destruct (per_height_failures_are_isolated
              sample_server sample_transcode never_fails
              [7; 8; 9] sample_results sample_by_id _ _ Hnd Hrpc Hidx)
    as (written & errors & w' & Hrun & Hsum & _ & _ & Hheights).
  exists written, errors, w'. split; [exact Hrun|]. split; [exact Hsum|].
  split; [|split].
  - destruct (Hheights 0%nat 7 eq_refl) as (_ & Hskip & _).
    destruct Hskip as [_ ->]; [by vm_compute | apply lookup_empty].
  - destruct (Hheights 1%nat 8 eq_refl) as (_ & _ & _ & _ & _ & Hstore).
    apply (Hstore [x01]); by vm_compute.
  - destruct (Hheights 2%nat 9 eq_refl) as (_ & _ & _ & _ & _ & Hstore).
    apply (Hstore [x01]); by vm_compute.
Defined.

(** As the specification words it, the isolation fails: it takes the
    array of responses to be indexed already. One response without an id
    beside the good ones raises [KeyError] while the responses are filed,
    before any height is handled: no height is counted and none is
    written, not even height 8, whose own two responses are good and which
    is written when the stray response is left out. *)
Lemma response_without_id_spoils_sibling_heights :
  FetchBlocksRpc.index_by_id spoiled_results = Raise Py.KeyError
  /\ FetchBlocksRpc.fetch_and_write_batch spoiled_server sample_transcode
       never_fails [7; 8; 9] empty_world
     = (Raise Py.KeyError,
        after_post (FetchBlocksRpc.build_batch [7; 8; 9]) empty_world)
  /\ FetchBlocksRpc.files
       (snd (FetchBlocksRpc.fetch_and_write_batch spoiled_server
               sample_transcode never_fails [7; 8; 9] empty_world))
     !! FetchBlocksRpc.block_path 8
     = None
  /\ FetchBlocksRpc.files
       (snd (FetchBlocksRpc.fetch_and_write_batch sample_server
               sample_transcode never_fails [7; 8; 9] empty_world))
     !! FetchBlocksRpc.block_path 8
     = Some [x01].
Proof. repeat split; by vm_compute. Qed.

(** ** Adaptive pacing *)

Section Pacing.
Import Archive Json FetchBlocksRpc.

Variable server : nat -> list request -> attempt_outcome.
Variable transcode : json -> json -> result Py.bytes.
Variable write_fails : rel_path -> bool.
Variable a : args.

Lemma Qlt_bool_spec (x y : Q) :
  (Py.Qlt_bool x y = true /\ x < y)%Q \/ (Py.Qlt_bool x y = false /\ y <= x)%Q.
Proof.
  unfold Py.Qlt_bool. destruct (Qle_bool y x) eqn:Hle.
  - right. split; [done|]. by apply Qle_bool_iff.
  - left. split; [done|]. apply Qnot_le_lt. intros Hc.
    apply Qle_bool_iff in Hc. congruence.
Qed.

Lemma py_min_is_min (x y : Q) : (Py.min x y == Qmin x y)%Q.
Proof.
  unfold Py.min. destruct (Qlt_bool_spec y x) as [[-> H]|[-> H]].
  - symmetry. apply Q.min_r. lra.
  - symmetry. by apply Q.min_l.
Qed.

Lemma py_max_is_max (x y : Q) : (Py.max x y == Qmax x y)%Q.
Proof.
  unfold Py.max. destruct (Qlt_bool_spec x y) as [[-> H]|[-> H]].
  - symmetry. apply Q.max_r. lra.
  - symmetry. by apply Q.max_l.
Qed.

Lemma on_success_keeps_floor st written errors :
  (delay a <= current_delay st)%Q ->
  (delay a <= current_delay (on_success a st written errors))%Q.
Proof.
  intros Hst. unfold on_success. cbn [current_delay].
  destruct (_ && _)%bool; [|done].
  unfold Py.max.
  destruct (Qlt_bool_spec (delay a)
              (Py.float_mul (current_delay st) Py.zero_point_eight))
    as [[-> H]|[-> H]]; lra.
Qed.

Lemma on_failure_keeps_floor st batch :
  (0 <= delay a <= 120)%Q ->
  (delay a <= current_delay st)%Q ->
  (delay a <= current_delay (on_failure st batch))%Q.
Proof.
  intros Hbase Hst. unfold on_failure. cbn [current_delay].
  unfold Py.min. destruct (Qlt_bool_spec 120 (current_delay st * 2))
    as [[-> H]|[-> H]]; lra.
Qed.

Lemma reachable_above_baseline st :
  (0 <= delay a <= 120)%Q -> reachable a st -> (delay a <= current_delay st)%Q.
Proof.
  intros Hbase Hreach. induction Hreach.
  - simpl. lra.
  - by apply on_success_keeps_floor.
  - by apply on_failure_keeps_floor.
Qed.

Lemma rpc_events_invisible batch (l : list event) :
  Forall (rpc_event batch) l ->
  pacing_view l = [] /\ batches_in l = [] /\ Forall (paced_by_reachable a) l.
Proof.
  induction 1 as [|e l He _ (IH1 & IH2 & IH3)]; [done|].
  unfold pacing_view, batches_in in *. cbn [List.filter omap list_omap].
  fold (omap (fun e => match e with EvBatch b => Some b | _ => None end) l).
  destruct He as [->|[seconds ->]]; cbn [pacing_event];
    rewrite IH1, IH2; repeat split; by constructor.
Qed.

Lemma pacing_view_app (l1 l2 : list event) :
  pacing_view (l1 ++ l2) = (pacing_view l1 ++ pacing_view l2)%list.
Proof. apply List.filter_app. Qed.

Lemma batches_in_app (l1 l2 : list event) :
  batches_in (l1 ++ l2) = (batches_in l1 ++ batches_in l2)%list.
Proof. apply omap_app. Qed.

(** What one iteration of the batch loop adds to the log. *)
Lemma loop_body_effects missing st i w r w' :
  reachable a st ->
  loop_body server transcode write_fails a missing st i w = (r, w') ->
  let batch := Py.slice missing i (i + batch_size a) in
  exists new,
    log w' = (log w ++ new)%list
    /\ Forall (paced_by_reachable a) new
    /\ batches_in new = [batch]
    /\ ((pacing_view new = [EvBatch batch]
         /\ forall st', r = Ok st' ->
              sleeps_after a missing i = false /\ reachable a st')
        \/ (exists st', r = Ok st' /\ reachable a st'
             /\ sleeps_after a missing i = true
             /\ pacing_view new
                = [EvBatch batch; EvSleep BatchPacing (current_delay st')])).
Proof.
  intros Hst Hrun batch. unfold loop_body in Hrun. fold batch in Hrun.
  unfold mbind at 1 in Hrun. unfold mbind at 1 in Hrun.
  unfold emit at 1 in Hrun.
  destruct (fetch_and_write_batch _ _ _ _ _) as [res w1] eqn:Hfetch.
  apply fetch_and_write_batch_effects in Hfetch as (rest & Hlog & Hrest).
  cbn [log] in Hlog.
  assert (Forall (rpc_event (build_batch batch)) (EvPost (build_batch batch) :: rest))
    as Hrpc by (constructor; [by left|done]).
  destruct (rpc_events_invisible _ _ Hrpc) as (Hview & Hbatches & Hpaced).
  set (new := (EvBatch batch :: EvPost (build_batch batch) :: rest)) in *.
  assert (log w1 = (log w ++ new)%list) as Hlog1.
  { rewrite Hlog, <- app_assoc. reflexivity. }
  assert (pacing_view new = [EvBatch batch]) as Hview1.
  { unfold new. change (EvBatch batch :: ?l) with ([EvBatch batch] ++ l)%list.
    by rewrite pacing_view_app, Hview. }
  assert (batches_in new = [batch]) as Hbatches1.
  { unfold new. change (EvBatch batch :: ?l) with ([EvBatch batch] ++ l)%list.
    by rewrite batches_in_app, Hbatches. }
  assert (Forall (paced_by_reachable a) new) as Hpaced1.
  { unfold new. by constructor. }
  assert (Hcrash : forall e, (Raise e, w1) = (r, w') ->
    exists new0, log w' = (log w ++ new0)%list
      /\ Forall (paced_by_reachable a) new0
      /\ batches_in new0 = [batch]
      /\ ((pacing_view new0 = [EvBatch batch]
           /\ forall st', r = Ok st' ->
                sleeps_after a missing i = false /\ reachable a st')
          \/ (exists st', r = Ok st' /\ reachable a st'
               /\ sleeps_after a missing i = true
               /\ pacing_view new0
                  = [EvBatch batch; EvSleep BatchPacing (current_delay st')]))).
  { intros e [= <- <-]. exists new. repeat split; try done.
    left. split; [done|]. by intros st' [=]. }
  assert (Hnext : forall st', reachable a st' ->
    (if i + Z.of_nat (List.length batch) <? Z.of_nat (List.length missing)
     then let* _ := sleep BatchPacing (current_delay st') in ret st'
     else ret st') w1 = (r, w') ->
    exists new0, log w' = (log w ++ new0)%list
      /\ Forall (paced_by_reachable a) new0
      /\ batches_in new0 = [batch]
      /\ ((pacing_view new0 = [EvBatch batch]
           /\ forall st'', r = Ok st'' ->
                sleeps_after a missing i = false /\ reachable a st'')
          \/ (exists st'', r = Ok st'' /\ reachable a st''
               /\ sleeps_after a missing i = true
               /\ pacing_view new0
                  = [EvBatch batch; EvSleep BatchPacing (current_delay st'')]))).
  { intros st' Hst'. unfold sleeps_after. fold batch.
    destruct (_ <? _) eqn:Hsleeps.
    - unfold mbind, sleep.
      destruct (Qle_bool 0 (current_delay st')).
      + unfold emit, ret. intros [= <- <-]. cbn [log].
        exists (new ++ [EvSleep BatchPacing (current_delay st')])%list.
        split; [by rewrite Hlog1, app_assoc|].
        split; [apply Forall_app; split; [done|]; constructor; [|done];
                by exists st'|].
        split; [by rewrite batches_in_app, Hbatches1|].
        right. exists st'. repeat split; try done.
        by rewrite pacing_view_app, Hview1.
      + unfold raise. intros [= <- <-]. exists new. repeat split; try done.
        left. split; [done|]. by intros st'' [=].
    - unfold ret. intros [= <- <-]. exists new. repeat split; try done.
      left. split; [done|]. by intros st'' [= <-]. }
  destruct res as [[written errors]|e].
  - apply (Hnext (on_success a st written errors)); [by constructor|done].
  - destruct e; try by eapply Hcrash.
    apply (Hnext (on_failure st batch)); [by constructor|done].
Qed.

Lemma batch_iterations missing starts st w r w' :
  reachable a st ->
  only_last_silent a missing starts ->
  for_each starts (loop_body server transcode write_fails a missing) st w
  = (r, w') ->
  exists new,
    log w' = (log w ++ new)%list
    /\ Forall (paced_by_reachable a) new
    /\ match starts with
       | [] => new = []
       | _ => alternates true (pacing_view new) = true
       end
    /\ (forall st', r = Ok st' ->
         reachable a st'
         /\ batches_in new
            = map (fun i => Py.slice missing i (i + batch_size a)) starts).
Proof.
  revert st w. induction starts as [|i rest IH]; intros st w Hst Hsilent Hrun.
  - injection Hrun as <- <-. exists []. rewrite app_nil_r.
    split; [done|]. split; [done|]. split; [done|].
    intros st' [= <-]. by split.
  - cbn [for_each] in Hrun. unfold mbind in Hrun.
    destruct (loop_body _ _ _ _ _ _ _ _) as [r1 w1] eqn:Hbody.
    apply loop_body_effects in Hbody
      as (new1 & Hlog1 & Hpaced1 & Hbatches1 & Hcases); [|done].
    destruct Hsilent as [Hsleeps Hsilent].
    destruct r1 as [st1|e].
    + destruct Hcases as [[Hview1 Hok]|(st1' & [= <-] & Hst1 & Hon & Hview1)].
      * destruct (Hok st1 eq_refl) as [Hoff Hst1].
        rewrite Hoff in Hsleeps. destruct rest as [|i2 rest]; [|done].
        injection Hrun as <- <-. exists new1.
        split; [done|]. split; [done|]. split; [by rewrite Hview1|].
        intros st' [= <-]. split; [done|]. by rewrite Hbatches1.
      * rewrite Hon in Hsleeps. destruct rest as [|i2 rest]; [done|].
        apply IH in Hrun as (new2 & Hlog2 & Hpaced2 & Hview2 & Hok2); [|done..].
        exists (new1 ++ new2)%list.
        split; [by rewrite Hlog2, Hlog1, app_assoc|].
        split; [by apply Forall_app|].
        split; [by rewrite pacing_view_app, Hview1|].
        intros st' ->. destruct (Hok2 st' eq_refl) as [Hst' Hb2].
        split; [done|]. by rewrite batches_in_app, Hbatches1, Hb2.
    + injection Hrun as <- <-.
      destruct Hcases as [[Hview1 _]|(st1' & [=] & _)].
      exists new1. split; [done|]. split; [done|].
      split; [by rewrite Hview1|]. by intros st' [=].
Qed.

Lemma ceil_div_lt (len bs k : Z) :
  0 < bs -> k < (len + bs - 1) / bs <-> k * bs < len.
Proof.
  intros Hbs. split; intros H.
  - assert (k + 1 <= (len + bs - 1) / bs) as H1 by lia.
    pose proof (Z.mul_div_le (len + bs - 1) bs Hbs). nia.
  - apply Z.div_le_lower_bound with (a := len + bs - 1) (q := k + 1) in Hbs as H1;
      lia.
Qed.

Lemma slice_length (missing : list Z) (i bs : Z) :
  0 <= i -> 0 < bs ->
  Z.of_nat (List.length (Py.slice missing i (i + bs)))
  = Z.min bs (Z.max 0 (Z.of_nat (List.length missing) - i)).
Proof.
  intros Hi Hbs. unfold Py.slice.
  rewrite length_firstn, length_skipn. lia.
Qed.

Lemma range_step_only_last_silent missing starts :
  Py.range_step (Z.of_nat (List.length missing)) (batch_size a) = Ok starts ->
  only_last_silent a missing starts.
Proof.
  unfold Py.range_step.
  destruct (Z.eqb_spec (batch_size a) 0) as [|Hne]; [done|].
  destruct (Z.ltb_spec (batch_size a) 0) as [|Hpos]; [by intros [= <-]|].
  intros [= <-].
  set (bs := batch_size a) in *. set (len := Z.of_nat (List.length missing)).
  assert (0 < bs) as Hbs by lia.
  set (n := Z.to_nat ((len + bs - 1) / bs)).
  assert (forall m j, (j + m = n)%nat ->
            only_last_silent a missing
              (map (fun k => Z.of_nat k * bs) (seq j m))) as Hgen.
  { induction m as [|m IHm]; intros j Hj; [done|].
    cbn [seq map only_last_silent]. split; [|apply IHm; lia].
    assert (Z.of_nat j * bs < len) as Hlt.
    { apply ceil_div_lt; [done|]. fold len. unfold n in Hj. lia. }
    unfold sleeps_after. fold bs. rewrite slice_length by lia. fold len.
    destruct m as [|m]; cbn [seq map].
    - apply Z.ltb_ge.
      assert (~ (Z.of_nat j + 1) * bs < len) as Hlast.
      { intros Hc. apply ceil_div_lt in Hc; [|done]. unfold n in Hj. lia. }
      lia.
    - apply Z.ltb_lt.
      assert ((Z.of_nat j + 1) * bs < len) as Hmore.
      { apply ceil_div_lt; [done|]. unfold n in Hj. lia. }
      lia. }
  apply Hgen. lia.
Qed.

Lemma for_each_paced missing (starts : list Z) st w :
  only_last_silent a missing starts ->
  for_each starts (loop_body server transcode write_fails a missing) st w
  = paced_batches (fetch_and_write_batch server transcode write_fails) a
      (map (fun i => Py.slice missing i (i + batch_size a)) starts) st w.
Proof.
  revert st w. induction starts as [|i rest IH]; intros st w Hsilent; [done|].
  destruct Hsilent as [Hsleep Hrest].
  cbn [for_each map paced_batches]. unfold mbind at 1, loop_body.
  unfold sleeps_after in Hsleep. rewrite Hsleep. clear Hsleep.
  unfold mbind at 1.
  destruct ((let* _ := emit (EvBatch _) in fetch_and_write_batch _ _ _ _) w)
    as [r w1].
  assert (forall st',
            (let* st1 :=
               (if match rest with [] => false | _ => true end
                then let* _ := sleep BatchPacing (current_delay st') in ret st'
                else ret st') in
             for_each rest (loop_body server transcode write_fails a missing) st1)
              w1
            = match map (fun i => Py.slice missing i (i + batch_size a)) rest with
              | [] => (Ok st', w1)
              | _ =>
                  (let* _ := sleep BatchPacing (current_delay st') in
                   paced_batches
                     (fetch_and_write_batch server transcode write_fails) a
                     (map (fun i => Py.slice missing i (i + batch_size a)) rest)
                     st') w1
              end) as Hnext.
  { intros st'. destruct rest as [|i' rest]; [done|]. cbn [map].
    unfold mbind. destruct (sleep _ _ w1) as [[[]|e'] w2]; [|done].
    unfold ret. by apply IH. }
  destruct r as [[written errors]|e]; cbn [paced_step].
  - apply Hnext.
  - destruct e; try done. apply Hnext.
Qed.

(** C6 (amended). The pacing state starts at (baseline, 0). A batch
    failure sets the delay to [min (2 * delay) 120] and the success count
    to 0. A batch success increments the count and, once the count is at
    least 5 and the delay is above the baseline, sets the delay to
    [max baseline (0.8 * delay)], the product being the float one; a
    success never takes the delay below the baseline. When the baseline
    lies between 0 and the cap of 120, the delay of every reachable state
    is at least the baseline. In every run of the batch loop the pacing
    sleeps lie between batches (batch, sleep, batch, .., batch: none before
    the first batch, none after the last), each lasts the current delay of
    a reachable state, and a run that ends normally has started every
    batch. And the batch loop is this rule and nothing else: it fetches
    the slices of the missing heights in order, a batch that returns moves
    the state by the success step, a batch that fails with a
    [RequestException] by the failure step, any other exception ends the
    run, and the sleep after a batch that is not the last lasts the delay
    of the state that batch left. *)
Theorem pacing_state_machine :
  (current_delay (initial_state a) = delay a
   /\ consecutive_ok (initial_state a) = 0)
  /\ (forall st batch,
        (current_delay (on_failure st batch)
         == Qmin (2 * current_delay st) 120)%Q
        /\ consecutive_ok (on_failure st batch) = 0)
  /\ (forall st written errors,
        let st' := on_success a st written errors in
        consecutive_ok st' = consecutive_ok st + 1
        /\ (5 <= consecutive_ok st' -> (delay a < current_delay st)%Q ->
            (current_delay st'
             == Qmax (delay a)
                  (Py.float_mul (current_delay st) Py.zero_point_eight))%Q)
        /\ (consecutive_ok st' < 5 \/ (current_delay st <= delay a)%Q ->
            current_delay st' = current_delay st)
        /\ ((delay a <= current_delay st)%Q -> (delay a <= current_delay st')%Q))
  /\ ((0 <= delay a <= 120)%Q ->
      forall st, reachable a st -> (delay a <= current_delay st)%Q)
  /\ (forall missing w r w',
        batch_loop server transcode write_fails a missing w = (r, w') ->
        exists new,
          log w' = (log w ++ new)%list
          /\ paced_between_batches (pacing_view new) = true
          /\ Forall (paced_by_reachable a) new
          /\ (forall st starts,
                r = Ok st ->
                Py.range_step (Z.of_nat (List.length missing)) (batch_size a)
                = Ok starts ->
                reachable a st
                /\ batches_in new
                   = map (fun i => Py.slice missing i (i + batch_size a)) starts))
  /\ (forall missing w,
        batch_loop server transcode write_fails a missing w
        = paced_loop (fetch_and_write_batch server transcode write_fails)
            a missing w).
Proof.
  split; [done|]. split; [|split; [|split; [|split]]].
  - intros st batch. split; [|done]. cbn [on_failure current_delay].
    rewrite py_min_is_min. by rewrite Qmult_comm.
  - intros st written errors st'. split; [done|].
    unfold st', on_success. cbn [current_delay consecutive_ok].
    split; [|split].
    + intros Hok Hgt. apply Z.leb_le in Hok. rewrite Hok.
      destruct (Qlt_bool_spec (delay a) (current_delay st)) as [[-> _]|[_ Hle]];
        [|lra].
      cbn [andb]. by rewrite py_max_is_max.
    + intros [Hlt|Hle].
      * apply Z.leb_gt in Hlt. by rewrite Hlt.
      * destruct (Qlt_bool_spec (delay a) (current_delay st)) as [[_ Hgt]|[-> _]];
          [lra|]. by rewrite andb_false_r.
    + apply (on_success_keeps_floor st written errors).
  - intros Hbase st Hst. by apply reachable_above_baseline.
  - intros missing w r w'. unfold batch_loop, mbind, lift.
    destruct (Py.range_step _ _) as [starts|e] eqn:Hstarts.
    + intros Hrun.
      apply batch_iterations in Hrun as (new & Hlog & Hpaced & Hview & Hok);
        [|constructor|by apply range_step_only_last_silent].
      exists new. split; [done|]. split; [|split; [done|]].
      * destruct starts; [by rewrite Hview|].
        unfold paced_between_batches. by destruct (pacing_view new).
      * intros st starts' -> [= <-]. by apply Hok.
    + intros [= <- <-]. exists []. rewrite app_nil_r. by repeat split.
  - intros missing w. unfold batch_loop, paced_loop, mbind, lift.
    destruct (Py.range_step _ _) as [starts|e] eqn:Hstarts; [|done].
    by apply for_each_paced, range_step_only_last_silent.
Qed.

End Pacing.

(** For a baseline above the cap the wording of the specification fails:
    with a baseline of 200 seconds one failed batch brings the delay to
    120, and the loop then sleeps 120 seconds between its batches. *)
Lemma pacing_delay_drops_below_large_baseline :
  reachable slow_run
    (FetchBlocksRpc.on_failure (FetchBlocksRpc.initial_state slow_run) [1])
  /\ FetchBlocksRpc.current_delay
       (FetchBlocksRpc.on_failure (FetchBlocksRpc.initial_state slow_run) [1])
     = 120%Q
  /\ ~ Qle (FetchBlocksRpc.delay slow_run)
           (FetchBlocksRpc.current_delay
              (FetchBlocksRpc.on_failure
                 (FetchBlocksRpc.initial_state slow_run) [1]))
  /\ pacing_view
       (FetchBlocksRpc.log
          (snd (FetchBlocksRpc.batch_loop unreachable_node sample_transcode
                  never_fails slow_run [1; 2] empty_world)))
     = [FetchBlocksRpc.EvBatch [1];
        FetchBlocksRpc.EvSleep FetchBlocksRpc.BatchPacing 120;
        FetchBlocksRpc.EvBatch [2]].
Proof.
  split; [apply reach_failure, reach_initial|].
  split; [reflexivity|]. split; [|by vm_compute].
  vm_compute. intros H. by apply H.
Qed.

Lemma pacing_state_machine_witness :
  (0 <= FetchBlocksRpc.delay fast_run_1_2 <= 120)%Q
  /\ reachable fast_run_1_2
       (FetchBlocksRpc.on_failure (FetchBlocksRpc.initial_state fast_run_1_2) [1])
  /\ Qle (FetchBlocksRpc.delay fast_run_1_2)
         (FetchBlocksRpc.current_delay
            (FetchBlocksRpc.on_failure
               (FetchBlocksRpc.initial_state fast_run_1_2) [1]))
  /\ (exists new,
       FetchBlocksRpc.log
         (snd (FetchBlocksRpc.batch_loop unreachable_node sample_transcode
                 never_fails slow_run [1; 2] empty_world))
       = (FetchBlocksRpc.log empty_world ++ new)%list
       /\ paced_between_batches (pacing_view new) = true)
  /\ Qeq (FetchBlocksRpc.current_delay
            (FetchBlocksRpc.on_success fast_run_1_2 relaxing_state 5 0))
         (3602879701896397 # 562949953421312)
  /\ Qeq (FetchBlocksRpc.current_delay
            (FetchBlocksRpc.on_success fast_run_1_2
               (FetchBlocksRpc.on_success fast_run_1_2 relaxing_state 5 0)
               5 0))
         (1441151880758559 # 281474976710656)
  /\ FetchBlocksRpc.batch_loop unreachable_node sample_transcode never_fails
       slow_run [1; 2] empty_world
     = paced_loop
         (FetchBlocksRpc.fetch_and_write_batch unreachable_node
            sample_transcode never_fails)
         slow_run [1; 2] empty_world
  /\ fst (FetchBlocksRpc.batch_loop unreachable_node sample_transcode
            never_fails backing_off_run [1; 2; 3] empty_world)
     = Ok {| FetchBlocksRpc.total_written := 0;
             FetchBlocksRpc.total_errors := 3;
             FetchBlocksRpc.current_delay := 40;
             FetchBlocksRpc.consecutive_ok := 0 |}
  /\ pacing_view
       (FetchBlocksRpc.log
          (snd (FetchBlocksRpc.batch_loop unreachable_node sample_transcode
                  never_fails backing_off_run [1; 2; 3] empty_world)))
     = [FetchBlocksRpc.EvBatch [1];
        FetchBlocksRpc.EvSleep FetchBlocksRpc.BatchPacing 10;
        FetchBlocksRpc.EvBatch [2];
        FetchBlocksRpc.EvSleep FetchBlocksRpc.BatchPacing 20;
        FetchBlocksRpc.EvBatch [3]].
Proof.
  assert (0 <= FetchBlocksRpc.delay fast_run_1_2 <= 120)%Q as Hbase
    by (split; by vm_compute).
  assert (reachable fast_run_1_2
            (FetchBlocksRpc.on_failure
               (FetchBlocksRpc.initial_state fast_run_1_2) [1])) as Hreach
    by apply reach_failure, reach_initial.
  split; [exact Hbase|]. split; [exact Hreach|].
  split; [|split; [|split; [|split; [|split; [|split]]]]].
  - destruct (pacing_state_machine unreachable_node sample_transcode
                never_fails fast_run_1_2) as (_ & _ & _ & Hfloor & _).
    by apply Hfloor.
  - destruct (pacing_state_machine unreachable_node sample_transcode
                never_fails slow_run) as (_ & _ & _ & _ & Hloop & _).
    destruct (Hloop [1; 2] empty_world _ _ (surjective_pairing _))
      as (new & Hlog & Hview & _).
    exists new. by split.
  - destruct (pacing_state_machine unreachable_node sample_transcode
                never_fails fast_run_1_2) as (_ & _ & Hsuccess & _).
    destruct (Hsuccess relaxing_state 5 0) as (_ & Hrelax & _).
    rewrite Hrelax; by vm_compute.
  - destruct (pacing_state_machine unreachable_node sample_transcode
                never_fails fast_run_1_2) as (_ & _ & Hsuccess & _).
    destruct (Hsuccess
                (FetchBlocksRpc.on_success fast_run_1_2 relaxing_state 5 0)
                5 0) as (_ & Hrelax & _).
    rewrite Hrelax; by vm_compute.
  - destruct (pacing_state_machine unreachable_node sample_transcode
                never_fails slow_run) as (_ & _ & _ & _ & _ & Hrule).
    apply Hrule.
  - destruct (pacing_state_machine unreachable_node sample_transcode
                never_fails backing_off_run) as (_ & _ & _ & _ & _ & Hrule).
    rewrite (Hrule [1; 2; 3] empty_world). by vm_compute.
  - destruct (pacing_state_machine unreachable_node sample_transcode
                never_fails backing_off_run) as (_ & _ & _ & _ & _ & Hrule).
    rewrite (Hrule [1; 2; 3] empty_world). by vm_compute.
Defined.

(** * Further properties of the scripts *)

(** ** Ranges *)

Section Ranges.

Lemma range_elem (a b x : Z) : x ∈ Py.range a b <-> a <= x < b.
Proof.
  unfold Py.range. rewrite list_elem_of_In, in_map_iff. split.
  - intros (k & <- & Hk). apply in_seq in Hk. lia.
  - intros Hx. exists (Z.to_nat (x - a)). split; [lia|]. apply in_seq. lia.
Qed.

Lemma range3_elem (a b s x : Z) :
  0 < s -> x ∈ Py.range3 a b s <-> a <= x < b /\ (x - a) mod s = 0.
Proof.
  intros Hs. unfold Py.range3. rewrite list_elem_of_In, in_map_iff. split.
  - intros (k & <- & Hk). apply in_seq in Hk.
    assert (Z.of_nat k < (b - a + s - 1) / s) as Hlt by lia.
    apply ceil_div_lt in Hlt; [|done].
    split; [nia|].
    replace (a + Z.of_nat k * s - a) with (Z.of_nat k * s) by lia.
    apply Z_mod_mult.
  - intros [Hx Hmod]. apply Z_div_exact_full_2 in Hmod; [|lia].
    exists (Z.to_nat ((x - a) / s)).
    assert (0 <= (x - a) / s) as Hq by (apply Z.div_pos; lia).
    split; [rewrite Z2Nat.id by done; lia|].
    apply in_seq. split; [lia|].
    assert ((x - a) / s < (b - a + s - 1) / s) as Hlt.
    { apply ceil_div_lt; [done|]. nia. }
    lia.
Qed.

Lemma range_NoDup (a b : Z) : NoDup (Py.range a b).
Proof.
  unfold Py.range. apply NoDup_ListNoDup.
  apply Finite.Injective_map_NoDup; [|apply NoDup_ListNoDup, NoDup_seq].
  intros x y. lia.
Qed.

Lemma range3_NoDup (a b s : Z) : 0 < s -> NoDup (Py.range3 a b s).
Proof.
  intros Hs. unfold Py.range3.
  apply NoDup_ListNoDup.
  apply Finite.Injective_map_NoDup; [|apply NoDup_ListNoDup, NoDup_seq].
  intros x y. nia.
Qed.

End Ranges.

(** ** The completeness scan *)

Section ChunkScan.
Import Archive CheckBlockCompleteness.

Variable files : gmap rel_path Py.bytes.

Lemma blocks_in_chunk_loop_filter (a : Z) (n j : nat) T M latest blocks :
  blocks_in_chunk_loop (map (fun k => a + Z.of_nat k) (seq j n)) T M latest blocks
  = (blocks ++ List.filter (in_chunk T M latest)
                 (map (fun k => a + Z.of_nat k) (seq j n)))%list.
Proof.
  revert j blocks. induction n as [|n IH]; intros j blocks.
  - simpl. by rewrite app_nil_r.
  - cbn [seq map blocks_in_chunk_loop List.filter].
    unfold in_chunk at 1.
    destruct (Z.ltb_spec latest (a + Z.of_nat j)) as [Hgt|Hle].
    + destruct (Z.leb_spec (a + Z.of_nat j) latest) as [?|_]; [lia|].
      cbn [andb].
      assert (List.filter (in_chunk T M latest)
                (map (fun k => a + Z.of_nat k) (seq (S j) n)) = []) as ->.
      { erewrite filter_ext_in; [apply filter_false|].
        intros x Hx. apply in_map_iff in Hx as (k & <- & Hk).
        apply in_seq in Hk. unfold in_chunk.
        by destruct (Z.leb_spec (a + Z.of_nat k) latest) as [?|_]; [lia|]. }
      by rewrite app_nil_r.
    + destruct (Z.leb_spec (a + Z.of_nat j) latest) as [_|?]; [|lia].
      cbn [andb]. destruct (expected_dir (a + Z.of_nat j)) as [m t].
      cbn [fst snd]. rewrite IH.
      destruct (_ && _)%bool; [|done]. by rewrite <- app_assoc.
Qed.

Lemma blocks_in_chunk_filter T M latest :
  blocks_in_chunk T M latest
  = List.filter (in_chunk T M latest) (Py.range (T + 1) (T + 1001)).
Proof. apply (blocks_in_chunk_loop_filter (T + 1) _ 0 T M latest []). Qed.

Lemma range_length (a b : Z) : List.length (Py.range a b) = Z.to_nat (b - a).
Proof. unfold Py.range. by rewrite length_map, length_seq. Qed.

Lemma blocks_in_chunk_elem (T M latest bn : Z) :
  bn ∈ blocks_in_chunk T M latest
  <-> bn <> 0 /\ bn <= latest /\ expected_dir bn = (M, T).
Proof.
  rewrite blocks_in_chunk_filter.
  rewrite list_elem_of_In, filter_In, <- list_elem_of_In, range_elem.
  unfold in_chunk. rewrite !andb_true_iff, Z.leb_le, !Z.eqb_eq.
  unfold expected_dir, Py.floordiv.
  destruct (Z.eqb_spec bn 0) as [->|Hne]; cbn [fst snd].
  - split; [|by intros [? _]]. intros (Hr & (_ & _) & Ht). lia.
  - split.
    + intros (_ & (Hl & <-) & <-). by repeat split.
    + intros (_ & Hl & [= <- <-]). repeat split; try done;
        Z.div_mod_to_equations; lia.
Qed.

(** [blocks_in_chunk] inverts the path scheme: it returns exactly the
    heights other than 0, up to [latest], that [expected_dir] sends to the
    directory pair it is asked about, each once, and never more than 1000
    of them. *)
Theorem blocks_in_chunk_inverts_expected_dir (T M latest : Z) :
  (forall bn,
     bn ∈ blocks_in_chunk T M latest
     <-> bn <> 0 /\ bn <= latest /\ expected_dir bn = (M, T))
  /\ NoDup (blocks_in_chunk T M latest)
  /\ (List.length (blocks_in_chunk T M latest) <= 1000)%nat.
Proof.
  split; [intros bn; apply blocks_in_chunk_elem|].
  rewrite blocks_in_chunk_filter. split.
  - apply NoDup_ListNoDup, List.NoDup_filter, NoDup_ListNoDup, range_NoDup.
  - etransitivity; [apply filter_length_le|]. rewrite range_length. lia.
Qed.

(** For a directory pair of the scheme, [blocks_in_chunk] is the run of
    heights [T + 1 .. min (T + 1000) latest]. *)
Theorem blocks_in_chunk_is_a_range (T M latest : Z) :
  0 <= T -> T mod 1000 = 0 -> M = T / 1000000 * 1000000 ->
  blocks_in_chunk T M latest
  = Py.range (T + 1) (Z.min (T + 1000) latest + 1).
Proof.
  intros HT Hmod ->. rewrite blocks_in_chunk_filter.
  unfold Py.range.
  replace (T + 1001 - (T + 1)) with 1000 by lia.
  set (n := Z.to_nat (Z.min (T + 1000) latest + 1 - (T + 1))).
  assert (n <= 1000)%nat as Hn by lia.
  replace (Z.to_nat 1000) with (n + (1000 - n))%nat by lia.
  rewrite seq_app, map_app, List.filter_app.
  rewrite forallb_filter_id.
  2:{ apply forallb_forall. intros x Hx.
      apply in_map_iff in Hx as (k & <- & Hk). apply in_seq in Hk.
      unfold in_chunk, expected_dir, Py.floordiv.
      destruct (Z.eqb_spec (T + 1 + Z.of_nat k) 0); [lia|]. cbn [fst snd].
      rewrite !andb_true_iff, Z.leb_le, !Z.eqb_eq.
      repeat split; [lia|..]; Z.div_mod_to_equations; lia. }
  erewrite (filter_ext_in _ (fun _ => false)); [by rewrite filter_false, app_nil_r|].
  intros x Hx. apply in_map_iff in Hx as (k & <- & Hk). apply in_seq in Hk.
  unfold in_chunk.
  destruct (Z.leb_spec (T + 1 + Z.of_nat k) latest) as [?|_]; [lia|done].
Qed.

Lemma blocks_in_chunk_is_a_range_witness :
  0 <= 2000 /\ 2000 mod 1000 = 0 /\ 0 = 2000 / 1000000 * 1000000
  /\ blocks_in_chunk 2000 0 2500 = Py.range 2001 2501
  /\ List.length (blocks_in_chunk 2000 0 2500) = 500%nat.
Proof.
  assert (blocks_in_chunk 2000 0 2500 = Py.range 2001 2501) as Heq
    by (apply (blocks_in_chunk_is_a_range 2000 0 2500); [lia|reflexivity..]).
  split; [lia|]. split; [reflexivity|]. split; [reflexivity|].
  split; [exact Heq|]. rewrite Heq. reflexivity.
Defined.

Lemma check_chunk_filter T (expected : list Z) :
  check_chunk files T expected
  = List.filter (fun bn => negb (exists_ files (cache_path bn))) expected.
Proof. unfold check_chunk. by rewrite fold_left_append_filter. Qed.

Local Abbreviation chunk_missing := (Spec.chunk_missing files).

Lemma scan_chunk_effect latest M st T :
  let st' := scan_chunk files latest M st T in
  all_missing st' = (all_missing st ++ chunk_missing latest M T)%list
  /\ total_missing st'
     = total_missing st + Z.of_nat (List.length (chunk_missing latest M T)).
Proof.
  unfold scan_chunk, Spec.chunk_missing.
  destruct (blocks_in_chunk T M latest) as [|bn expected] eqn:Hexp.
  - rewrite check_chunk_filter. simpl. rewrite app_nil_r. split; [done|lia].
  - destruct (check_chunk files T (bn :: expected)) as [|m missing];
      cbn [all_missing total_missing].
    + rewrite app_nil_r. simpl. split; [done|lia].
    + done.
Qed.

Lemma scan_chunks_effect latest M (Ts : list Z) st :
  let st' := fold_left (scan_chunk files latest M) Ts st in
  all_missing st' = (all_missing st ++ (Ts ≫= chunk_missing latest M))%list
  /\ total_missing st' - Z.of_nat (List.length (all_missing st'))
     = total_missing st - Z.of_nat (List.length (all_missing st)).
Proof.
  revert st. induction Ts as [|T Ts IH]; intros st.
  - simpl. rewrite app_nil_r. by split.
  - cbn [fold_left]. destruct (IH (scan_chunk files latest M st T)) as [Ha Ht].
    destruct (scan_chunk_effect latest M st T) as [Ha1 Ht1].
    cbv zeta. split.
    + by rewrite Ha, Ha1, bind_cons, <- app_assoc.
    + rewrite Ht, Ha1, Ht1, length_app. lia.
Qed.

Lemma scan_millions_effect start latest (Ms : list Z) st :
  let st' := fold_left (scan_million files start latest) Ms st in
  all_missing st'
  = (all_missing st
       ++ (Ms ≫= fun M => chunks_of start latest M ≫= chunk_missing latest M))%list
  /\ total_missing st' - Z.of_nat (List.length (all_missing st'))
     = total_missing st - Z.of_nat (List.length (all_missing st)).
Proof.
  revert st. induction Ms as [|M Ms IH]; intros st.
  - simpl. rewrite app_nil_r. by split.
  - cbn [fold_left]. destruct (IH (scan_million files start latest st M)) as [Ha Ht].
    destruct (scan_chunks_effect latest M (chunks_of start latest M) st)
      as [Ha1 Ht1].
    cbv zeta.
    change (scan_million files start latest st M)
      with (fold_left (scan_chunk files latest M) (chunks_of start latest M) st)
      in *.
    split.
    + by rewrite Ha, Ha1, bind_cons, <- app_assoc.
    + by rewrite Ht, Ht1.
Qed.

Lemma all_expected_elem (start latest bn : Z) :
  bn ∈ all_expected start latest <-> scan_floor start < bn <= latest.
Proof.
  unfold all_expected, chunks_of.
  rewrite list_elem_of_bind.
  setoid_rewrite list_elem_of_bind.
  setoid_rewrite blocks_in_chunk_elem.
  setoid_rewrite range3_elem; [|lia..].
  unfold scan_floor, expected_dir, Py.floordiv.
  split.
  - intros (M & (T & (Hne & Hl & Heq) & HT & HTm) & HM & HMm).
    destruct (Z.eqb_spec bn 0); [done|]. injection Heq as <- <-.
    split; [|done].
    destruct (Z.ltb_spec 0 start); Z.div_mod_to_equations; lia.
  - intros [Hlo Hhi].
    assert (0 < bn) as Hpos
      by (destruct (Z.ltb_spec 0 start); Z.div_mod_to_equations; lia).
    destruct (Z.eqb_spec bn 0); [lia|].
    exists ((bn - 1) / 1000000 * 1000000). split.
    + exists ((bn - 1) / 1000 * 1000). split; [by repeat split|].
      destruct (Z.ltb_spec 0 start); Z.div_mod_to_equations; lia.
    + destruct (Z.ltb_spec 0 start); destruct (Z.ltb_spec 0 latest);
        Z.div_mod_to_equations; lia.
Qed.

Lemma bind_filter {A B} (p : B -> bool) (f : A -> list B) (l : list A) :
  (l ≫= fun x => List.filter p (f x)) = List.filter p (l ≫= f).
Proof.
  induction l as [|x l IH]; [done|].
  by rewrite !bind_cons, List.filter_app, IH.
Qed.

Lemma all_missing_filter (start latest : Z) :
  all_missing (scan files start latest)
  = List.filter (fun bn => negb (exists_ files (cache_path bn)))
      (all_expected start latest).
Proof.
  unfold scan, all_expected.
  match goal with
  | |- context [fold_left _ ?Ms scan_start] =>
      destruct (scan_millions_effect start latest Ms scan_start) as [-> _]
  end.
  cbn [all_missing scan_start app].
  rewrite <- bind_filter. apply list_bind_ext; [|done]. intros M.
  rewrite <- bind_filter. apply list_bind_ext; [|done]. intros T.
  apply check_chunk_filter.
Qed.

(** The scan of [main] reports as missing exactly the heights without an
    entry from the bucket boundary below [start] (not from [start] itself)
    through [latest]; height 0 is never looked at. *)
Theorem scan_covers_from_bucket_boundary (start latest bn : Z) :
  bn ∈ all_missing (scan files start latest)
  <-> scan_floor start < bn <= latest
      /\ exists_ files (cache_path bn) = false.
Proof.
  rewrite all_missing_filter, list_elem_of_In, filter_In, <- list_elem_of_In.
  by rewrite all_expected_elem, negb_true_iff.
Qed.

(** The exit status of the scan is 0 exactly when no height from the
    bucket boundary below [start] through [latest] lacks its entry, and 1
    otherwise; [total_missing] is the number of heights listed. *)
Theorem scan_exit_status (start latest : Z) :
  let st := scan files start latest in
  total_missing st = Z.of_nat (List.length (all_missing st))
  /\ (exit_status st = 0
      <-> forall bn, scan_floor start < bn <= latest ->
                     exists_ files (cache_path bn) = true)
  /\ (exit_status st = 0 \/ exit_status st = 1).
Proof.
  intros st.
  assert (total_missing st = Z.of_nat (List.length (all_missing st))) as Htot.
  { unfold st, scan.
    match goal with
    | |- context [fold_left _ ?Ms scan_start] =>
        destruct (scan_millions_effect start latest Ms scan_start) as [_ Ht]
    end.
    cbv zeta in Ht. cbn [scan_start total_missing all_missing List.length] in Ht.
    lia. }
  assert (forall bn, bn ∈ all_missing st
                     <-> scan_floor start < bn <= latest
                         /\ exists_ files (cache_path bn) = false) as Hcover.
  { intros bn. unfold st.
    rewrite all_missing_filter, list_elem_of_In, filter_In, <- list_elem_of_In.
    by rewrite all_expected_elem, negb_true_iff. }
  split; [done|]. unfold exit_status. rewrite Htot. split.
  - split.
    + intros Hzero bn Hbn.
      destruct (exists_ files (cache_path bn)) eqn:Hex; [done|].
      assert (bn ∈ all_missing st) as Hin by (by apply Hcover).
      clear Hcover. destruct (all_missing st); [by apply elem_of_nil in Hin|].
      cbn [List.length] in Hzero.
      destruct (Z.ltb_spec 0 (Z.of_nat (S (List.length l)))); [done|lia].
    + intros Hall. destruct (all_missing st) as [|bn l] eqn:Hl; [done|].
      assert (bn ∈ bn :: l) as Hin by (by left).
      apply Hcover in Hin as [Hbn Hex].
      rewrite Hall in Hex; done.
  - destruct (0 <? _); [by right|by left].
Qed.


Lemma scan_expected_effect start latest :
  total_expected (scan files start latest)
  = Z.of_nat (List.length (all_expected start latest)).
Proof.
  unfold scan, all_expected.
  assert (forall latest M Ts st,
            total_expected (fold_left (scan_chunk files latest M) Ts st)
            = total_expected st
              + Z.of_nat (List.length (Ts ≫= fun T => blocks_in_chunk T M latest)))
    as Hchunks.
  { intros l M Ts. induction Ts as [|T Ts IH]; intros st; [simpl; lia|].
    cbn [fold_left]. rewrite IH, bind_cons, length_app.
    unfold scan_chunk.
    destruct (blocks_in_chunk T M l) as [|bn expected]; [simpl; lia|].
    destruct (check_chunk _ _ _); cbn [total_expected]; lia. }
  assert (forall Ms st,
            total_expected (fold_left (scan_million files start latest) Ms st)
            = total_expected st
              + Z.of_nat (List.length
                  (Ms ≫= fun M => chunks_of start latest M
                            ≫= fun T => blocks_in_chunk T M latest)))
    as Hmillions.
  { induction Ms as [|M Ms IH]; intros st; [simpl; lia|].
    cbn [fold_left]. rewrite IH, bind_cons, length_app.
    change (scan_million files start latest st M)
      with (fold_left (scan_chunk files latest M) (chunks_of start latest M) st).
    rewrite Hchunks. lia. }
  rewrite Hmillions. cbn [scan_start total_expected]. lia.
Qed.

(** The scan expects every height from the bucket boundary below
    [start] through [latest] exactly once: [total_expected] is their
    number. *)
Theorem scan_expected_total (start latest : Z) :
  NoDup (all_expected start latest)
  /\ total_expected (scan files start latest)
     = Z.max 0 (latest - scan_floor start).
Proof.
  assert (NoDup (all_expected start latest)) as Hnd.
  { unfold all_expected. apply NoDup_bind.
    - intros M1 M2 bn _ _ H1 H2.
      apply list_elem_of_bind in H1 as (T1 & H1 & _).
      apply list_elem_of_bind in H2 as (T2 & H2 & _).
      apply blocks_in_chunk_elem in H1 as (_ & _ & H1).
      apply blocks_in_chunk_elem in H2 as (_ & _ & H2). congruence.
    - intros M _. apply NoDup_bind.
      + intros T1 T2 bn _ _ H1 H2.
        apply blocks_in_chunk_elem in H1 as (_ & _ & H1).
        apply blocks_in_chunk_elem in H2 as (_ & _ & H2). congruence.
      + intros T _. rewrite blocks_in_chunk_filter.
        apply NoDup_ListNoDup, List.NoDup_filter, NoDup_ListNoDup, range_NoDup.
      + apply range3_NoDup. lia.
    - apply range3_NoDup. lia. }
  split; [done|]. rewrite scan_expected_effect.
  assert (all_expected start latest
          ≡ₚ Py.range (scan_floor start + 1) (latest + 1)) as Hperm.
  { apply NoDup_Permutation; [done|apply range_NoDup|].
    intros bn. rewrite all_expected_elem, range_elem. lia. }
  rewrite Hperm, range_length. lia.
Qed.

End ChunkScan.

(** ** Boundary blocks *)

Section BoundaryBlocks.
Import Archive DownloadBoundaryBlocks.

(** Started at a positive multiple of 1000, [find_missing_blocks] of
    download_boundary_blocks.py returns exactly the multiples of 1000 up to
    [end_] whose entry is absent, and it looks for the entry of such a
    height [h] in the thousands-directory [h - 1000], the bucket before
    its own. *)
Theorem missing_boundary_blocks (files : gmap rel_path Py.bytes)
  (start end_ h : Z) :
  0 < start -> start mod 1000 = 0 ->
  h ∈ find_missing_blocks files start end_
  <-> start <= h <= end_
      /\ h mod 1000 = 0
      /\ files !! (Py.str ((h - 1) / 1000000 * 1000000),
                   Py.str (h - 1000),
                   Py.str h +:+ ".rmp.lz4") = None.
Proof.
  intros Hpos Hmod. unfold find_missing_blocks.
  rewrite fold_left_append_filter. cbn [app].
  rewrite list_elem_of_In, filter_In, <- list_elem_of_In, range3_elem by lia.
  rewrite negb_true_iff. unfold exists_.
  rewrite bool_decide_eq_false, <- eq_None_not_Some.
  unfold cache_path, Py.floordiv.
  split.
  - intros [[Hh Hstep] Hnone].
    assert (h mod 1000 = 0) as Hh0 by (Z.div_mod_to_equations; lia).
    replace (h - 1000) with ((h - 1) / 1000 * 1000)
      by (Z.div_mod_to_equations; lia).
    repeat split; try done; lia.
  - intros (Hh & Hh0 & Hnone).
    replace (h - 1000) with ((h - 1) / 1000 * 1000) in Hnone
      by (Z.div_mod_to_equations; lia).
    repeat split; try done; try lia. Z.div_mod_to_equations; lia.
Qed.

Lemma missing_boundary_blocks_witness :
  0 < 18000000 /\ 18000000 mod 1000 = 0
  /\ 18001000 ∈ find_missing_blocks ∅ 18000000 18002500.
Proof.
  split; [lia|]. split; [reflexivity|].
  apply (missing_boundary_blocks ∅ 18000000 18002500 18001000);
    [lia | reflexivity |].
  split; [lia|]. split; [reflexivity|]. apply lookup_empty.
Defined.

End BoundaryBlocks.

(** ** Hex text and bytes *)

Section HexRoundTrip.
Import FetchBlocksRpc.

Lemma nibble_cases (n : Z) :
  0 <= n < 16 -> exists k : nat, (k < 16)%nat /\ n = Z.of_nat k.
Proof. intros Hn. exists (Z.to_nat n). lia. Qed.

Lemma hex_digit_facts (n : Z) :
  0 <= n < 16 ->
  Py.digit_value (hex_digit n) = Some n
  /\ Py.is_space (hex_digit n) = false
  /\ Py.is_underscore (hex_digit n) = false
  /\ hex_digit n <> "+"%char /\ hex_digit n <> "-"%char.
Proof.
  intros Hn. destruct (nibble_cases n Hn) as (k & Hk & ->).
  do 16 (destruct k as [|k]; [by vm_compute|]). lia.
Qed.

Lemma Z_of_byte_range (b : byte) : 0 <= Py.Z_of_byte b < 256.
Proof.
  unfold Py.Z_of_byte. pose proof (Byte.to_N_bounded b). lia.
Qed.

Lemma byte_of_Z_of_byte (b : byte) : Py.byte_of_Z (Py.Z_of_byte b) = b.
Proof.
  unfold Py.byte_of_Z, Py.Z_of_byte. by rewrite N2Z.id, Byte.of_to_N.
Qed.

Lemma hexlify_length (bs : Py.bytes) :
  String.length (hexlify bs) = (2 * List.length bs)%nat.
Proof. induction bs as [|b bs IH]; simpl; [done|]. rewrite IH. lia. Qed.

Lemma fromhex_hexlify (bs : Py.bytes) : Py.fromhex (hexlify bs) = Some bs.
Proof.
  induction bs as [|b bs IH]; [done|].
  pose proof (Z_of_byte_range b) as Hb.
  destruct (hex_digit_facts (Py.Z_of_byte b / 16)) as (Hd1 & Hs1 & _);
    [Z.div_mod_to_equations; lia|].
  destruct (hex_digit_facts (Py.Z_of_byte b mod 16)) as (Hd2 & _);
    [Z.div_mod_to_equations; lia|].
  cbn [hexlify Py.fromhex]. rewrite Hs1, Hd1, Hd2, IH. cbn [option_map].
  do 2 f_equal. rewrite <- (byte_of_Z_of_byte b) at 3. f_equal.
  Z.div_mod_to_equations; lia.
Qed.

Lemma substring_all (s : string) : String.substring 0 (String.length s) s = s.
Proof. induction s as [|c s IH]; simpl; [done|]. by rewrite IH. Qed.

Lemma odd_double (n : nat) : Nat.odd (2 * n) = false.
Proof.
  rewrite <- Nat.negb_even, Nat.even_mul. done.
Qed.

Lemma hex_to_raw_prefixed (x : string) :
  x <> "" ->
  hex_to_raw ("0x" +:+ x)
  = match Py.fromhex (if Nat.odd (String.length x) then "0" +:+ x else x) with
    | Some raw => Ok raw
    | None => Raise Py.ValueError
    end.
Proof.
  intros Hx. unfold hex_to_raw.
  change ("0x" +:+ x) with (String "0" (String "x" x)).
  destruct (String.eqb_spec (String "0" (String "x" x)) "") as [Heq|_]; [done|].
  destruct (String.eqb_spec (String "0" (String "x" x)) "0x") as [Heq|_].
  { injection Heq as Heq. done. }
  cbn [orb].
  assert (String.prefix "0x" (String "0" (String "x" x)) = true) as ->.
  { apply String.prefix_correct. simpl. by destruct x. }
  assert (String.substring 2 (String.length (String "0" (String "x" x)) - 2)
            (String "0" (String "x" x)) = x) as ->.
  { simpl. rewrite Nat.sub_0_r. apply substring_all. }
  done.
Qed.

Lemma hex_to_raw_bare (x : string) :
  x <> "" -> x <> "0x" -> String.prefix "0x" x = false ->
  hex_to_raw x
  = match Py.fromhex (if Nat.odd (String.length x) then "0" +:+ x else x) with
    | Some raw => Ok raw
    | None => Raise Py.ValueError
    end.
Proof.
  intros H1 H2 Hpre. unfold hex_to_raw.
  destruct (String.eqb_spec x "") as [?|_]; [done|].
  destruct (String.eqb_spec x "0x") as [?|_]; [done|].
  cbn [orb]. by rewrite Hpre.
Qed.

Lemma hexlify_no_prefix (b : byte) (bs : Py.bytes) :
  String.prefix "0x" (hexlify (b :: bs)) = false.
Proof.
  destruct (String.prefix "0x" (hexlify (b :: bs))) eqn:Hpre; [|done].
  apply String.prefix_correct in Hpre. simpl in Hpre.
  injection Hpre as _ Hx.
  destruct (hex_digit_facts (Py.Z_of_byte b mod 16)) as (Hd & _).
  { pose proof (Z_of_byte_range b). Z.div_mod_to_equations; lia. }
  rewrite Hx in Hd. vm_compute in Hd. discriminate.
Qed.

(** Raw decoding undoes hex encoding: for every byte string, with or
    without the ["0x"] prefix, [hex_to_raw] of its lower-case hex text is
    the byte string again; and an odd number of digits is read as if a
    zero digit came first. *)
Theorem hex_to_raw_decodes_hex (bs : Py.bytes) :
  hex_to_raw ("0x" +:+ hexlify bs) = Ok bs
  /\ hex_to_raw (hexlify bs) = Ok bs
  /\ (forall d, 0 <= d < 16 ->
        hex_to_raw ("0x" +:+ String (hex_digit d) (hexlify bs))
        = Ok (Py.byte_of_Z d :: bs)).
Proof.
  split; [|split].
  - destruct bs as [|b bs]; [done|].
    rewrite hex_to_raw_prefixed by done.
    by rewrite hexlify_length, odd_double, fromhex_hexlify.
  - destruct bs as [|b bs]; [done|].
    rewrite hex_to_raw_bare; [|done| |apply hexlify_no_prefix].
    + by rewrite hexlify_length, odd_double, fromhex_hexlify.
    + intros Heq. pose proof (hexlify_no_prefix b bs) as Hp.
      rewrite Heq in Hp. discriminate Hp.
  - intros d Hd. rewrite hex_to_raw_prefixed by done.
    destruct (hex_digit_facts d Hd) as (Hv & Hs & _).
    cbn [String.length]. rewrite hexlify_length.
    replace (Nat.odd (S (2 * List.length bs))) with true
      by (rewrite Nat.odd_succ, <- Nat.negb_odd, odd_double; done).
    change ("0" +:+ String (hex_digit d) (hexlify bs))
      with (String "0" (String (hex_digit d) (hexlify bs))).
    cbn [Py.fromhex]. rewrite Hv, fromhex_hexlify. done.
Qed.

End HexRoundTrip.

(** ** The retry budget of [rpc_call] *)

Section RetryBudget.
Import Json FetchBlocksRpc.

Variable server : nat -> list request -> attempt_outcome.

Lemma rpc_attempts_uncaught attempt rest batch w e :
  attempt_result (server (posts w) batch) = Raise e ->
  caught_by_rpc_call e = false ->
  rpc_attempts server (attempt :: rest) batch w
  = (Raise e, after_post batch w).
Proof.
  intros Hres Hcaught. cbn [rpc_attempts].
  unfold mbind at 1. unfold post at 1. by rewrite Hres, Hcaught.
Qed.

Lemma rpc_attempts_settle (m first : nat) batch w :
  (first + S m = MAX_RETRIES)%nat ->
  exists n : nat,
    (n <= m)%nat
    /\ (forall k, (k < n)%nat -> retryable server batch w k)
    /\ ((n < m)%nat -> ~ retryable server batch w n)
    /\ rpc_attempts server (seq first (S m)) batch w
       = (match attempt_result (server (posts w + n)%nat batch) with
          | Ok results => Ok (Some results)
          | Raise e => Raise e
          end,
          {| posts := S (posts w + n);
             log := (log w ++ backoff_log batch first n ++ [EvPost batch])%list;
             files := files w |}).
Proof.
  revert first w. induction m as [|m IH]; intros first w Hsum.
  - exists 0%nat. split; [lia|]. split; [lia|]. split; [lia|].
    rewrite Nat.add_0_r. cbn [seq].
    destruct (attempt_result (server (posts w) batch)) as [results|e] eqn:Hres.
    + by rewrite rpc_attempts_return with (results := results).
    + destruct (caught_by_rpc_call e) eqn:Hc.
      * rewrite rpc_attempts_give_up with (e := e); [done..|lia].
      * by rewrite rpc_attempts_uncaught with (e := e).
  - cbn [seq].
    destruct (attempt_result (server (posts w) batch)) as [results|e] eqn:Hres.
    + exists 0%nat. split; [lia|]. split; [lia|]. split.
      * intros _ (e & He & _). rewrite Nat.add_0_r in He. congruence.
      * rewrite Nat.add_0_r, Hres.
        by rewrite rpc_attempts_return with (results := results).
    + destruct (caught_by_rpc_call e) eqn:Hc.
      * destruct (IH (S first) (after_failed_attempt first batch w))
          as (n & Hn & Hbefore & Hstop & Hrun); [lia|].
        exists (S n). split; [lia|]. split; [|split].
        -- intros k Hk. destruct k as [|k].
           ++ exists e. by rewrite Nat.add_0_r.
           ++ destruct (Hbefore k) as (e' & He' & Hc'); [lia|].
              exists e'. split; [|done]. simpl in He'.
              by replace (posts w + S k)%nat with (S (posts w + k)) by lia.
        -- intros Hlt (e' & He' & Hc'). apply Hstop; [lia|].
           exists e'. split; [|done]. simpl.
           by replace (S (posts w + n)) with (posts w + S n)%nat by lia.
        -- rewrite rpc_attempts_retry with (e := e); [|done..|lia].
           cbn [seq] in Hrun. rewrite Hrun. simpl.
           replace (posts w + S n)%nat with (S (posts w + n)) by lia.
           f_equal. f_equal. unfold backoff_log. cbn [seq flat_map].
           by rewrite <- !app_assoc.
      * exists 0%nat. split; [lia|]. split; [lia|]. split.
        -- intros _ (e' & He' & Hc'). rewrite Nat.add_0_r in He'. congruence.
        -- rewrite Nat.add_0_r, Hres.
           by rewrite rpc_attempts_uncaught with (e := e).
Qed.

(** [rpc_call] is settled by the first attempt that returns or that
    fails with an exception it does not catch, and by the fifth attempt
    at the latest. *)
Theorem rpc_call_settles_within_five_attempts (batch : list request)
  (w : world) :
  exists n : nat,
    (n < MAX_RETRIES)%nat
    /\ (forall k, (k < n)%nat -> retryable server batch w k)
    /\ ((n < MAX_RETRIES - 1)%nat -> ~ retryable server batch w n)
    /\ rpc_call server batch w
       = (match attempt_result (server (posts w + n)%nat batch) with
          | Ok results => Ok (Some results)
          | Raise e => Raise e
          end,
          {| posts := S (posts w + n);
             log := (log w ++ backoff_log batch 0 n ++ [EvPost batch])%list;
             files := files w |})
    /\ fst (rpc_call server batch w) <> Ok None.
Proof.
  destruct (rpc_attempts_settle 4 0 batch w) as (n & Hn & Hbefore & Hstop & Hrun);
    [done|].
  exists n. unfold MAX_RETRIES. split; [lia|]. split; [done|].
  split; [intros Hlt; apply Hstop; simpl in Hlt; lia|].
  unfold rpc_call. change (seq 0 MAX_RETRIES) with (seq 0 5).
  rewrite Hrun. split; [done|]. simpl.
  by destruct (attempt_result _).
Qed.

End RetryBudget.

(** ** What a run writes and counts *)

Section Fill.
Import Archive Json FetchBlocksRpc.

Variable server : nat -> list request -> attempt_outcome.
Variable transcode : json -> json -> result Py.bytes.
Variable write_fails : rel_path -> bool.

Lemma fetch_and_write_batch_frame block_nums w r w' :
  fetch_and_write_batch server transcode write_fails block_nums w = (r, w') ->
  (forall p, (forall bnum, bnum ∈ block_nums -> block_path bnum <> p) ->
     files w' !! p = files w !! p)
  /\ (forall written errors, r = Ok (written, errors) ->
        written + errors = Z.of_nat (List.length block_nums)
        /\ 0 <= written /\ 0 <= errors).
Proof.
  unfold fetch_and_write_batch, mbind.
  destruct (rpc_call _ _ _) as [res w1] eqn:Hrpc.
  apply rpc_attempts_effects in Hrpc as (Hfiles & _).
  destruct res as [[results|]|e];
    [|intros [= <- <-]; by rewrite Hfiles..].
  unfold process_results, mbind, lift.
  destruct (index_by_id results) as [by_id|e];
    [|intros [= <- <-]; by rewrite Hfiles].
  rewrite for_each_handle_height. intros [= <- <-]. cbn [files]. split.
  - intros p Hp. rewrite foldl_store_other, Hfiles; [done|].
    intros [i bnum] Hin. apply Hp. rewrite <- (enumerate_from_snd 0 block_nums).
    apply list_elem_of_fmap. by exists (i, bnum).
  - intros written errors [= <- <-].
    pose proof (counts_add_up transcode write_fails by_id
                  (Py.enumerate block_nums)) as Hsum.
    rewrite enumerate_length in Hsum.
    unfold written_in, errors_in in *. lia.
Qed.

Lemma slice_subseteq (missing : list Z) (i j : Z) (bnum : Z) :
  bnum ∈ Py.slice missing i j -> bnum ∈ missing.
Proof.
  unfold Py.slice. intros Hin.
  by apply subseteq_take, subseteq_drop in Hin.
Qed.

Lemma loop_body_frame a missing st i w r w' :
  loop_body server transcode write_fails a missing st i w = (r, w') ->
  (forall p, (forall bnum, bnum ∈ missing -> block_path bnum <> p) ->
     files w' !! p = files w !! p)
  /\ (forall st', r = Ok st' ->
        total_written st' + total_errors st'
        = total_written st + total_errors st
          + Z.of_nat (List.length (Py.slice missing i (i + batch_size a)))
        /\ total_written st <= total_written st'
        /\ total_errors st <= total_errors st').
Proof.
  unfold loop_body. set (batch := Py.slice missing i (i + batch_size a)).
  unfold mbind at 1. unfold mbind at 1. unfold emit at 1.
  destruct (fetch_and_write_batch _ _ _ _ _) as [res w1] eqn:Hfetch.
  apply fetch_and_write_batch_frame in Hfetch as [Hframe Hcount].
  cbn [files] in Hframe.
  assert (forall p, (forall bnum, bnum ∈ missing -> block_path bnum <> p) ->
            files w1 !! p = files w !! p) as Hframe1.
  { intros p Hp. apply Hframe. intros bnum Hin. apply Hp.
    by eapply slice_subseteq. }
  assert (forall st1 r1 w1',
            (if i + Z.of_nat (List.length batch) <? Z.of_nat (List.length missing)
             then let* _ := sleep BatchPacing (current_delay st1) in ret st1
             else ret st1) w1 = (r1, w1') ->
            files w1' = files w1 /\ forall st', r1 = Ok st' -> st' = st1) as Htail.
  { intros st1 r1 w1'. destruct (_ <? _).
    - unfold mbind, sleep. destruct (Qle_bool 0 _).
      + unfold emit, ret. intros [= <- <-]. split; [done|]. by intros ? [= <-].
      + unfold raise. intros [= <- <-]. split; [done|]. by intros ?.
    - unfold ret. intros [= <- <-]. split; [done|]. by intros ? [= <-]. }
  destruct res as [[written errors]|e].
  - intros Hrun. apply Htail in Hrun as [Hf Hst]. rewrite Hf. split; [done|].
    intros st' Hr. rewrite (Hst st' Hr).
    destruct (Hcount written errors eq_refl) as (Hsum & Hw & He).
    cbn [on_success total_written total_errors]. fold batch. lia.
  - destruct e; try (intros [= <- <-]; by split).
    intros Hrun. apply Htail in Hrun as [Hf Hst]. rewrite Hf. split; [done|].
    intros st' Hr. rewrite (Hst st' Hr).
    cbn [on_failure total_written total_errors]. fold batch. lia.
Qed.

Lemma batch_iterations_frame a missing (m j : nat) st w r w' :
  0 < batch_size a ->
  for_each (map (fun k => Z.of_nat k * batch_size a) (seq j m))
    (loop_body server transcode write_fails a missing) st w = (r, w') ->
  (forall p, (forall bnum, bnum ∈ missing -> block_path bnum <> p) ->
     files w' !! p = files w !! p)
  /\ (forall st', r = Ok st' ->
        let len := Z.of_nat (List.length missing) in
        let bs := batch_size a in
        total_written st' + total_errors st'
        = total_written st + total_errors st
          + (Z.min len (Z.of_nat (j + m) * bs) - Z.min len (Z.of_nat j * bs))
        /\ total_written st <= total_written st'
        /\ total_errors st <= total_errors st').
Proof.
  intros Hbs. revert j st w. induction m as [|m IH]; intros j st w.
  - cbn [seq map for_each]. unfold ret. intros [= <- <-]. split; [done|].
    intros st' [= <-]. rewrite Nat.add_0_r. cbv zeta. lia.
  - cbn [seq map for_each]. unfold mbind at 1.
    destruct (loop_body _ _ _ _ _ _ _ _) as [[st1|e] w1] eqn:Hbody.
    + apply loop_body_frame in Hbody as [Hframe Hcount].
      intros Hrun. apply IH in Hrun as [Hframe' Hcount'].
      split; [intros p Hp; by rewrite Hframe', Hframe|].
      intros st' Hr. destruct (Hcount st1 eq_refl) as (Hs1 & Hw1 & He1).
      destruct (Hcount' st' Hr) as (Hs2 & Hw2 & He2). cbv zeta in *.
      rewrite slice_length in Hs1 by lia.
      split; [|lia]. nia.
    + apply loop_body_frame in Hbody as [Hframe _].
      intros [= <- <-]. split; [done|]. by intros ?.
Qed.

Lemma batch_loop_frame a missing w r w' p :
  batch_loop server transcode write_fails a missing w = (r, w') ->
  (forall bnum, bnum ∈ missing -> block_path bnum <> p) ->
  files w' !! p = files w !! p.
Proof.
  unfold batch_loop, mbind, lift, Py.range_step.
  destruct (Z.eqb_spec (batch_size a) 0) as [|Hne]; [by intros [= <- <-]|].
  destruct (Z.ltb_spec (batch_size a) 0) as [|Hpos]; [by intros [= <- <-]|].
  intros Hrun Hp.
  apply batch_iterations_frame in Hrun as [Hf _]; [|lia]. by apply Hf.
Qed.

(** A run of the batch loop that ends normally has counted every
    missing height once, as written or as an error. *)
Theorem batch_loop_accounts_for_every_height (a : args) (missing : list Z)
  (w w' : world) (st : loop_state) :
  0 < batch_size a ->
  batch_loop server transcode write_fails a missing w = (Ok st, w') ->
  total_written st + total_errors st = Z.of_nat (List.length missing)
  /\ 0 <= total_written st
  /\ 0 <= total_errors st.
Proof.
  intros Hbs. unfold batch_loop, mbind, lift, Py.range_step.
  destruct (Z.eqb_spec (batch_size a) 0) as [|_]; [lia|].
  destruct (Z.ltb_spec (batch_size a) 0) as [|_]; [lia|].
  intros Hrun. apply batch_iterations_frame in Hrun as [_ Hcount]; [|done].
  destruct (Hcount st eq_refl) as (Hsum & Hw & He).
  cbv zeta in Hsum. cbn [initial_state total_written total_errors] in *.
  split; [|lia]. rewrite Hsum.
  set (len := Z.of_nat (List.length missing)). set (bs := batch_size a) in *.
  assert (len <= Z.of_nat (0 + Z.to_nat ((len + bs - 1) / bs)) * bs) as Hcover.
  { assert (0 <= (len + bs - 1) / bs) as Hq by (apply Z.div_pos; lia).
    rewrite Nat.add_0_l, Z2Nat.id by done.
    destruct (Z.le_gt_cases len ((len + bs - 1) / bs * bs)) as [|Hlt]; [done|].
    apply ceil_div_lt in Hlt; [lia|done]. }
  lia.
Qed.

(** [main] only fills gaps: an entry either is as it was before the
    run, or belongs to a height of the range that had no entry. With
    [--dry-run], or with a batch size that is not positive, nothing is
    written at all. *)
Theorem main_only_fills_gaps (a : args) (w : world) :
  let w' := snd (main server transcode write_fails a w) in
  (forall p,
     files w' !! p = files w !! p
     \/ exists h, start a <= h <= end_ a
                  /\ p = block_path h /\ files w !! p = None)
  /\ (forall p data, files w !! p = Some data -> files w' !! p = Some data)
  /\ (dry_run a = true \/ batch_size a <= 0 -> files w' = files w).
Proof.
  cbv zeta.
  assert (forall h, h ∈ determine_missing a (files w) ->
            start a <= h <= end_ a /\ files w !! block_path h = None) as Hmiss.
  { intros h. destruct (determine_missing_modes_agree a (files w)) as [_ ->].
    rewrite list_elem_of_In, filter_In, <- list_elem_of_In, range_elem.
    unfold exists_. rewrite negb_true_iff, bool_decide_eq_false.
    intros [Hr Hnone]. split; [lia|].
    by apply eq_None_not_Some. }
  assert (forall p, (forall h, h ∈ determine_missing a (files w) ->
                       block_path h <> p) ->
            files (snd (main server transcode write_fails a w)) !! p
            = files w !! p) as Hframe.
  { intros p Hp. unfold main. destruct (dry_run a); [done|].
    destruct (determine_missing a (files w)) as [|h0 rest] eqn:Hm; [done|].
    rewrite <- Hm in *. unfold mbind at 1.
    destruct (batch_loop _ _ _ _ _ _) as [r w1] eqn:Hloop.
    apply batch_loop_frame with (p := p) in Hloop; [|done].
    by destruct r. }
  split; [|split].
  - intros p.
    destruct (decide (p ∈ block_path <$> determine_missing a (files w)))
      as [Hin|Hout].
    + right. apply list_elem_of_fmap in Hin as (h & -> & Hin).
      destruct (Hmiss h Hin) as [Hr Hnone]. by exists h.
    + left. apply Hframe. intros h Hin <-. apply Hout.
      apply list_elem_of_fmap. by exists h.
  - intros p data Hp. rewrite Hframe; [done|].
    intros h Hin <-. destruct (Hmiss h Hin) as [_ Hnone]. congruence.
  - intros Hnothing. unfold main.
    destruct (dry_run a) eqn:Hdry; [done|].
    destruct Hnothing as [|Hbs]; [done|].
    destruct (determine_missing a (files w)); [done|].
    unfold mbind at 1, batch_loop, mbind, lift, Py.range_step.
    destruct (Z.eqb_spec (batch_size a) 0) as [|Hne]; [done|].
    destruct (Z.ltb_spec (batch_size a) 0) as [|Hpos]; [done|lia].
Qed.

End Fill.

Lemma batch_loop_accounts_for_every_height_witness :
  exists st w',
    FetchBlocksRpc.batch_loop sample_server sample_transcode never_fails
      fast_run_1_2 [1; 2] empty_world = (Ok st, w')
    /\ FetchBlocksRpc.total_written st = 1
    /\ FetchBlocksRpc.total_errors st = 1
    /\ FetchBlocksRpc.total_written st + FetchBlocksRpc.total_errors st = 2.
Proof.
  destruct (FetchBlocksRpc.batch_loop sample_server sample_transcode
              never_fails fast_run_1_2 [1; 2] empty_world)
    as [[st|e] w'] eqn:Hrun; [|by vm_compute in Hrun].
  exists st, w'. split; [done|].
  destruct (batch_loop_accounts_for_every_height sample_server
              sample_transcode never_fails fast_run_1_2 [1; 2] empty_world w' st
              ltac:(done) Hrun) as (Hsum & _).
  vm_compute in Hrun. injection Hrun as <- _. by repeat split.
Defined.

(** ** Hex quantities *)

Section HexQuantity.
Import Json FetchBlocksRpc.

Variable server : nat -> list request -> attempt_outcome.

Lemma scan_digits_digit (c : ascii) (d : Z) (r : string) (acc : Z) :
  Py.is_underscore c = false ->
  Py.digit_value c = Some d ->
  d < 16 ->
  Py.scan_digits 16 (String c r) false acc
  = Py.scan_digits 16 r false (acc * 16 + d).
Proof.
  intros Hu Hd Hlt. cbn [Py.scan_digits]. rewrite Hu, Hd.
  by destruct (Z.ltb_spec d 16); [|lia].
Qed.

Lemma not_underscore_cases {A} (c : ascii) (r : string) (x y : A) :
  Py.is_underscore c = false ->
  match String c r with String "_" _ => x | _ => y end = y.
Proof.
  destruct c as [[] [] [] [] [] [] [] []]; try reflexivity; discriminate.
Qed.

Lemma int_of_str_hex_literal (neg : bool) (c : ascii) (r : string) (v : Z) :
  Py.is_underscore c = false ->
  Py.scan_digits 16 (String c r) false 0 = Some (v, "") ->
  Py.int_of_str 16 ((if neg then "-0x" else "0x") +:+ String c r)
  = Some (if neg then - v else v).
Proof.
  intros Hu Hscan. unfold Py.int_of_str.
  assert (Py.strip_prefix 16 (String "0" (String "x" (String c r)))
          = String c r) as Hpre.
  { unfold Py.strip_prefix. cbn [Z.eqb Pos.eqb Ascii.eqb Bool.eqb orb].
    destruct c as [[] [] [] [] [] [] [] []]; try reflexivity; discriminate. }
  destruct neg.
  - change ("-0x" +:+ String c r)
      with (String "-" (String "0" (String "x" (String c r)))).
    change (Py.strip_sign (Py.lstrip (String "-" (String "0" (String "x" (String c r))))))
      with (true, String "0" (String "x" (String c r))).
    cbv beta iota. rewrite Hpre.
    rewrite (not_underscore_cases c r) by done. by rewrite Hscan.
  - change ("0x" +:+ String c r)
      with (String "0" (String "x" (String c r))).
    change (Py.strip_sign (Py.lstrip (String "0" (String "x" (String c r)))))
      with (false, String "0" (String "x" (String c r))).
    cbv beta iota. rewrite Hpre.
    rewrite (not_underscore_cases c r) by done. by rewrite Hscan.
Qed.

Lemma scan_hex_uint_acc (u : Hexadecimal.uint) (acc : positive) :
  Py.scan_digits 16 (HexadecimalString.NilEmpty.string_of_uint u) false
    (Z.pos acc)
  = Some (Z.pos (Pos.of_hex_uint_acc u acc), "").
Proof.
  revert acc.
  induction u as [|u IH|u IH|u IH|u IH|u IH|u IH|u IH|u IH|u IH|u IH|u IH
                 |u IH|u IH|u IH|u IH|u IH];
    intros acc; [done|..];
    cbn [HexadecimalString.NilEmpty.string_of_uint Pos.of_hex_uint_acc];
    (erewrite scan_digits_digit; [|reflexivity|reflexivity|reflexivity]);
    rewrite <- IH; f_equal; vm_compute Z.sub; lia.
Qed.

Lemma scan_hex_uint (u : Hexadecimal.uint) :
  Py.scan_digits 16 (HexadecimalString.NilEmpty.string_of_uint u) false 0
  = Some (Z.of_N (Pos.of_hex_uint u), "").
Proof.
  induction u as [|u IH|u IH|u IH|u IH|u IH|u IH|u IH|u IH|u IH|u IH|u IH
                 |u IH|u IH|u IH|u IH|u IH];
    [done|..];
    cbn [HexadecimalString.NilEmpty.string_of_uint Pos.of_hex_uint];
    (erewrite scan_digits_digit; [|reflexivity|reflexivity|reflexivity]);
    [exact IH|..]; apply (scan_hex_uint_acc u).
Qed.

Lemma int16_hex (n : Z) : Py.int16 (Py.hex n) = Some n.
Proof.
  unfold Py.int16, Py.hex.
  set (u := N.to_hex_uint (Z.abs_N n)).
  assert (exists c r, HexadecimalString.NilZero.string_of_uint u = String c r
                      /\ Py.is_underscore c = false
                      /\ Py.scan_digits 16 (String c r) false 0
                         = Some (Z.of_N (Z.abs_N n), "")) as (c & r & -> & Hu & Hscan).
  { pose proof (scan_hex_uint u) as Hscan.
    change (Pos.of_hex_uint u)
      with (N.of_hex_uint (N.to_hex_uint (Z.abs_N n))) in Hscan.
    rewrite (HexadecimalN.Unsigned.of_to (Z.abs_N n)) in Hscan.
    destruct u; [by exists "0"%char, ""|..];
      (eexists _, _; split; [reflexivity|]; split; [reflexivity|exact Hscan]). }
  destruct (Z.ltb_spec n 0).
  - rewrite (int_of_str_hex_literal true c r _ Hu Hscan). f_equal. lia.
  - rewrite (int_of_str_hex_literal false c r _ Hu Hscan). f_equal. lia.
Qed.

Lemma get_has_key (fields : list (string * json)) (key : string) :
  get fields key <> JNull -> has_key fields key = true.
Proof.
  induction fields as [|[k v] r IH]; simpl; [done|].
  destruct (String.eqb k key); [done|]. exact IH.
Qed.

(** [get_chain_tip] reads the answer of a node as a hex quantity: when
    the first response of the array carries [hex(n)] as its result, the
    tip is [n], after a single POST of one [eth_blockNumber] request. An
    answer whose result is not a hex literal raises instead of
    returning a height. *)
Theorem get_chain_tip_decodes_quantity (w : world)
  (fields : list (string * json)) (rest : list json) :
  server (posts w) [tip_request] = Body (JArr (JObj fields :: rest)) ->
  (forall n, get fields "result" = JStr (Py.hex n) ->
     get_chain_tip server w = (Ok n, after_post [tip_request] w))
  /\ (forall s, get fields "result" = JStr s -> Py.int16 s = None ->
        get_chain_tip server w
        = (Raise Py.ValueError, after_post [tip_request] w))
  /\ (has_key fields "result" = false ->
        get_chain_tip server w
        = (Raise Py.KeyError, after_post [tip_request] w)).
Proof.
  intros Hbody. unfold get_chain_tip, mbind, rpc_call.
  change (seq 0 MAX_RETRIES) with (0%nat :: seq 1 4).
  rewrite rpc_attempts_return with (results := JObj fields :: rest)
    by by rewrite Hbody.
  split; [|split].
  - intros n Hn. rewrite get_has_key by by rewrite Hn.
    by rewrite Hn, int16_hex.
  - intros s Hs Hnone. rewrite get_has_key by by rewrite Hs.
    by rewrite Hs, Hnone.
  - by intros ->.
Qed.

End HexQuantity.

Lemma get_chain_tip_decodes_quantity_witness :
  FetchBlocksRpc.get_chain_tip (tip_server 46000000) empty_world
  = (Ok 46000000, after_post [FetchBlocksRpc.tip_request] empty_world).
Proof.
  destruct (get_chain_tip_decodes_quantity (tip_server 46000000) empty_world
              _ [] eq_refl) as [Htip _].
  by apply Htip.
Defined.

(** ** Fixed-width quantities *)

Section FixedWidth.
Import FetchBlocksRpc.

Lemma scan_hexlify (bs : Py.bytes) (acc : Z) :
  Py.scan_digits 16 (hexlify bs) false acc
  = Some (fold_left (fun a b => a * 256 + Py.Z_of_byte b) bs acc, "").
Proof.
  revert acc. induction bs as [|b bs IH]; intros acc; [done|].
  pose proof (Z_of_byte_range b) as Hb.
  destruct (hex_digit_facts (Py.Z_of_byte b / 16)) as (Hd1 & _ & Hu1 & _);
    [Z.div_mod_to_equations; lia|].
  destruct (hex_digit_facts (Py.Z_of_byte b mod 16)) as (Hd2 & _ & Hu2 & _);
    [Z.div_mod_to_equations; lia|].
  cbn [hexlify fold_left].
  rewrite (scan_digits_digit _ _ _ _ Hu1 Hd1) by (Z.div_mod_to_equations; lia).
  rewrite (scan_digits_digit _ _ _ _ Hu2 Hd2) by (Z.div_mod_to_equations; lia).
  rewrite IH. do 3 f_equal. Z.div_mod_to_equations; lia.
Qed.

Lemma hex_value_hexlify (bs : Py.bytes) :
  hex_value ("0x" +:+ hexlify bs) = Ok (Py.be_value bs).
Proof.
  destruct bs as [|b bs]; [done|].
  unfold hex_value, Py.int16.
  change ("0x" +:+ hexlify (b :: bs))
    with (String "0" (String "x" (hexlify (b :: bs)))).
  cbn [hexlify]. cbn [String.eqb Ascii.eqb Bool.eqb negb andb].
  destruct (hex_digit_facts (Py.Z_of_byte b / 16)) as (_ & _ & Hu & _).
  { pose proof (Z_of_byte_range b). Z.div_mod_to_equations; lia. }
  pose proof (scan_hexlify (b :: bs) 0) as Hscan. cbn [hexlify] in Hscan.
  change (String "0" (String "x" ?s))
    with ("0x" +:+ s).
  by rewrite (int_of_str_hex_literal false _ _ _ Hu Hscan).
Qed.

Lemma le_value_range (l : Py.bytes) :
  0 <= le_value l < 256 ^ Z.of_nat (List.length l).
Proof.
  induction l as [|b l IH]; [simpl; lia|].
  cbn [le_value List.length]. pose proof (Z_of_byte_range b).
  rewrite Nat2Z.inj_succ, Z.pow_succ_r by lia. lia.
Qed.

Lemma le_digits_le_value (l : Py.bytes) (k : nat) :
  Py.le_digits (List.length l + k) (le_value l) = (l ++ repeat x00 k)%list.
Proof.
  induction l as [|b l IH].
  - cbn [List.length Nat.add le_value app].
    induction k as [|k IHk]; [done|].
    cbn [Py.le_digits repeat]. change (0 / 256) with 0. by rewrite IHk.
  - cbn [List.length Nat.add Py.le_digits le_value app].
    pose proof (Z_of_byte_range b).
    replace ((Py.Z_of_byte b + 256 * le_value l) mod 256) with (Py.Z_of_byte b)
      by (Z.div_mod_to_equations; lia).
    replace ((Py.Z_of_byte b + 256 * le_value l) / 256) with (le_value l)
      by (Z.div_mod_to_equations; lia).
    by rewrite byte_of_Z_of_byte, IH.
Qed.

(** [hex_to_bytes] at a width that holds the digits pads on the left
    with zero bytes and keeps the bytes that the digits spell; at the exact
    width it inverts the hex rendering. *)
Theorem hex_to_bytes_pads_left (bs : Py.bytes) (L : Z) :
  Z.of_nat (List.length bs) <= L ->
  hex_to_bytes ("0x" +:+ hexlify bs) L
  = Ok (repeat x00 (Z.to_nat L - List.length bs) ++ bs)%list.
Proof.
  intros HL. unfold hex_to_bytes. rewrite hex_value_hexlify. cbn [Py.bind].
  rewrite <- (rev_involutive bs) at 1. rewrite be_value_rev.
  pose proof (le_value_range (rev bs)) as Hv. rewrite length_rev in Hv.
  unfold Py.to_bytes_big.
  destruct (Z.ltb_spec L 0); [lia|].
  destruct (Z.ltb_spec (le_value (rev bs)) 0); [lia|].
  destruct (Z.leb_spec (256 ^ L) (le_value (rev bs))) as [Hbig|_].
  { assert (256 ^ Z.of_nat (List.length bs) <= 256 ^ L)
      by (apply Z.pow_le_mono_r; lia). lia. }
  set (k := (Z.to_nat L - List.length bs)%nat).
  replace (Z.to_nat L) with (List.length (rev bs) + k)%nat
    by (rewrite length_rev; lia).
  rewrite le_digits_le_value, rev_app_distr, rev_involutive.
  f_equal. f_equal. clearbody k.
  induction k as [|k IH]; [done|].
  cbn [repeat rev]. rewrite IH. by rewrite <- repeat_cons.
Qed.

End FixedWidth.

Lemma hex_to_bytes_pads_left_witness :
  FetchBlocksRpc.hex_to_bytes "0x01f4" 8
  = Ok [x00; x00; x00; x00; x00; x00; x01; xf4].
Proof.
  by apply (hex_to_bytes_pads_left [x01; xf4] 8).
Defined.

(** ** The conversion [rpc_to_nanoreth] *)

Section Conversion.
Import Json FetchBlocksRpc.

Lemma map_result_Forall2 {A B} (f : A -> result B) (l : list A) (ys : list B) :
  map_result f l = Ok ys <-> Forall2 (fun x y => f x = Ok y) l ys.
Proof.
  revert ys. induction l as [|x l IH]; intros ys; cbn [map_result].
  - split; [intros [= <-]; constructor|by inversion 1].
  - split.
    + destruct (f x) as [y|e] eqn:Hx; [|done]. cbn [Py.bind].
      destruct (map_result f l) as [ys'|e] eqn:Hl; [|done]. cbn [Py.bind].
      intros [= <-]. constructor; [done|]. by apply IH.
    + inversion 1 as [|? y ? ys' Hx Hl]; subst. rewrite Hx. cbn [Py.bind].
      apply IH in Hl. by rewrite Hl.
Qed.

Lemma dict_of_Forall2 (entries : list (string * result pyval)) (v : pyval) :
  dict_of entries = Ok v
  <-> exists items,
        v = VDict items
        /\ Forall2 (fun e kv => fst e = fst kv /\ snd e = Ok (snd kv))
             entries items.
Proof.
  unfold dict_of. split.
  - destruct (map_result _ entries) as [items|e] eqn:Hm; [|done].
    cbn [Py.bind]. intros [= <-]. exists items. split; [done|].
    apply map_result_Forall2 in Hm.
    eapply Forall2_impl; [exact Hm|]. intros [k r] [k' v']. cbn [fst snd].
    destruct r as [v0|e]; [|done]. by intros [= <- <-].
  - intros (items & -> & Hall).
    assert (map_result (fun e => let? v := snd e in Ok (fst e, v)) entries
            = Ok items) as ->; [|done].
    apply map_result_Forall2.
    eapply Forall2_impl; [exact Hall|]. intros [k r] [k' v']. cbn [fst snd].
    by intros [-> ->].
Qed.

Lemma to_bytes_big_inv (v L : Z) (raw : Py.bytes) :
  Py.to_bytes_big v L = Ok raw ->
  0 <= L /\ 0 <= v < 256 ^ L
  /\ Z.of_nat (List.length raw) = L /\ Py.be_value raw = v.
Proof.
  intros Hraw.
  assert (0 <= L /\ 0 <= v < 256 ^ L) as [HL Hv].
  { revert Hraw. unfold Py.to_bytes_big.
    destruct (Z.ltb_spec L 0); [done|].
    destruct (Z.ltb_spec v 0); [done|].
    destruct (Z.leb_spec (256 ^ L) v); [done|]. lia. }
  destruct (to_bytes_big_ok v L HL Hv) as (bs & Hbs & Hlen & Hval).
  rewrite Hraw in Hbs. injection Hbs as <-. by repeat split; try lia.
Qed.

Lemma hex_to_bytes_of_width (j : json) (L : Z) (v : pyval) :
  hex_to_bytes_of j L = Ok v -> bytes_of_width L (Some v).
Proof.
  unfold hex_to_bytes_of, hex_to_bytes.
  destruct j as [|b|n|s|items|fields]; cbn [Py.bind];
    try (destruct (truthy _); [done|]);
    try (destruct (hex_value s) as [val|]; [|done]; cbn [Py.bind]);
    (destruct (Py.to_bytes_big _ L) as [raw|] eqn:Hraw; [|done]);
    cbn [Py.bind]; intros [= <-];
    apply to_bytes_big_inv in Hraw as (_ & _ & Hlen & _);
    by exists raw.
Qed.

Lemma hex_to_bytes_of_number (s : string) (bnum : Z) (v : pyval) :
  Py.int16 s = Some bnum ->
  hex_to_bytes_of (JStr s) 8 = Ok v ->
  0 <= bnum < 2 ^ 64
  /\ exists raw, v = VBytes raw
       /\ Z.of_nat (List.length raw) = 8 /\ Py.be_value raw = bnum.
Proof.
  intros Hint. unfold hex_to_bytes_of, hex_to_bytes, hex_value.
  destruct (String.eqb_spec s "") as [->|_]; [done|].
  destruct (String.eqb_spec s "0x") as [->|_]; [done|].
  cbn [negb andb]. rewrite Hint. cbn [Py.bind].
  destruct (Py.to_bytes_big bnum 8) as [raw|] eqn:Hraw; [|done].
  cbn [Py.bind]. intros [= <-].
  apply to_bytes_big_inv in Hraw as (_ & Hv & Hlen & Hval).
  split; [by change (2 ^ 64) with (256 ^ 8)|]. by exists raw.
Qed.

End Conversion.

Section ConvertedBlock.
Import Json FetchBlocksRpc.

Lemma rpc_to_nanoreth_inv (block_json receipts_json : json) (out : pyval) :
  rpc_to_nanoreth block_json receipts_json = Ok out
  <-> exists b s bnum header transactions txs receipts rcpts hash,
        block_json = JObj b
        /\ item b "number" = Ok (JStr s)
        /\ Py.int16 s = Some bnum
        /\ dict_of (header_entries b) = Ok header
        /\ iterate (get_or b "transactions" (JArr [])) = Ok transactions
        /\ Forall2 (fun tx o => convert_tx tx = Ok o) transactions txs
        /\ iterate (receipts_or_none receipts_json) = Ok receipts
        /\ Forall2 (fun r o => convert_receipt r = Ok o) receipts rcpts
        /\ raw_at b "hash" = Ok hash
        /\ out = converted_block hash header txs rcpts bnum.
Proof.
  unfold rpc_to_nanoreth, receipts_or_none. split.
  - destruct block_json as [| | | | |b]; try done.
    destruct (item b "number") as [number|] eqn:Hnumber; [|done].
    cbn [Py.bind].
    destruct (int16_of number) as [bnum|] eqn:Hbnum; [|done]. cbn [Py.bind].
    destruct (dict_of (header_entries b)) as [header|] eqn:Hheader; [|done].
    cbn [Py.bind].
    destruct (iterate (get_or b "transactions" (JArr [])))
      as [transactions|] eqn:Htransactions; [|done]. cbn [Py.bind].
    destruct (map_result convert_tx transactions) as [txs|] eqn:Htxs; [|done].
    cbn [Py.bind].
    destruct (iterate (if truthy receipts_json then receipts_json else JArr []))
      as [receipts|] eqn:Hreceipts; [|done]. cbn [Py.bind].
    destruct (map_result convert_receipt receipts) as [rcpts|] eqn:Hrcpts;
      [|done]. cbn [Py.bind].
    destruct (raw_at b "hash") as [hash|] eqn:Hhash; [|done]. cbn [Py.bind].
    intros [= <-].
    destruct number as [| | |s| |]; try done. cbn [int16_of] in Hbnum.
    destruct (Py.int16 s) as [v|] eqn:Hint; [|done]. injection Hbnum as ->.
    exists b, s, bnum, header, transactions, txs, receipts, rcpts, hash.
    repeat split; try done; by apply map_result_Forall2.
  - intros (b & s & bnum & header & transactions & txs & receipts & rcpts
            & hash & -> & -> & Hint & -> & -> & Htxs & -> & Hrcpts & -> & ->).
    cbn [Py.bind int16_of]. rewrite Hint. cbn [Py.bind].
    apply map_result_Forall2 in Htxs, Hrcpts. by rewrite Htxs, Hrcpts.
Qed.

Lemma dict_of_vfield (entries : list (string * result pyval))
  (items : list (string * pyval)) (key : string) (e : string * result pyval) :
  Forall2 (fun e kv => fst e = fst kv /\ snd e = Ok (snd kv)) entries items ->
  List.find (fun e => String.eqb (fst e) key) entries = Some e ->
  exists v, snd e = Ok v /\ vfield (VDict items) key = Some v.
Proof.
  unfold vfield. induction 1 as [|[k r] [k' v'] entries items [Hk Hr] Hall IH];
    [done|].
  cbn [List.find fst snd] in *. subst k'.
  destruct (String.eqb k key).
  - intros [= <-]. by exists v'.
  - exact IH.
Qed.

Lemma item_has_key (d : list (string * json)) (key : string) (j : json) :
  item d key = Ok j -> has_key d key = true.
Proof. unfold item. by destruct (has_key d key). Qed.

Lemma raw_at_has_key (d : list (string * json)) (key : string) (v : pyval) :
  raw_at d key = Ok v -> has_key d key = true.
Proof.
  unfold raw_at. destruct (item d key) as [j|] eqn:Hj; [|done].
  intros _. by eapply item_has_key.
Qed.

Lemma bytes_at_has_key (d : list (string * json)) (key : string) (L : Z)
  (v : pyval) :
  bytes_at d key L = Ok v -> has_key d key = true.
Proof.
  unfold bytes_at. destruct (item d key) as [j|] eqn:Hj; [|done].
  intros _. by eapply item_has_key.
Qed.

Lemma bytes_at_width (d : list (string * json)) (key : string) (L : Z)
  (v : pyval) :
  bytes_at d key L = Ok v -> bytes_of_width L (Some v).
Proof.
  unfold bytes_at. destruct (item d key) as [j|]; [|done].
  apply hex_to_bytes_of_width.
Qed.

Lemma vpath_header (hash header : pyval) (txs rcpts : list pyval) (bnum : Z)
  (entry : pyval) (key : string) :
  converted_block hash header txs rcpts bnum = VList [entry] ->
  vpath entry (header_path ++ [key]) = vfield header key.
Proof.
  intros [= <-]. unfold header_path. cbn [app vpath].
  change (vfield (VDict (("block", ?x) :: _)) "block") with (Some x).
  cbv beta iota.
  change (vfield (VDict (("Reth115", ?x) :: _)) "Reth115") with (Some x).
  cbv beta iota.
  change (vfield (VDict (("header", ?x) :: _)) "header") with (Some x).
  cbv beta iota.
  change (vfield (VDict (_ :: ("header", ?x) :: _)) "header") with (Some x).
  cbv beta iota. by destruct (vfield header key).
Qed.

(** The header of a converted block carries the block number twice over:
    when [rpc_to_nanoreth] returns, the ["number"] of the response is a hex
    literal of a height below 2^64, the header field holds its 8-byte
    big-endian form, and the precompile address is the one
    [get_highest_precompile] gives for that very height. *)
Theorem rpc_to_nanoreth_number_and_precompile (block_json receipts_json : json)
  (out : pyval) :
  rpc_to_nanoreth block_json receipts_json = Ok out ->
  exists b s bnum entry raw,
    block_json = JObj b
    /\ get b "number" = JStr s
    /\ Py.int16 s = Some bnum
    /\ 0 <= bnum < 2 ^ 64
    /\ out = VList [entry]
    /\ vpath entry (header_path ++ ["number"]) = Some (VBytes raw)
    /\ List.length raw = 8%nat
    /\ Py.be_value raw = bnum
    /\ vpath entry ["highest_precompile_address"]
       = Some (VBytes (get_highest_precompile bnum))
    /\ first_applicable PRECOMPILE_TRANSITIONS bnum
         (get_highest_precompile bnum).
Proof.
  intros Hout.
  apply rpc_to_nanoreth_inv in Hout
    as (b & s & bnum & header & transactions & txs & receipts & rcpts & hash
        & -> & Hnumber & Hint & Hheader & _ & _ & _ & _ & _ & ->).
  apply dict_of_Forall2 in Hheader as (items & -> & Hitems).
  destruct (dict_of_vfield _ _ "number" _ Hitems eq_refl) as (v & Hv & Hfield).
  cbn [snd] in Hv. unfold bytes_at in Hv. rewrite Hnumber in Hv.
  cbn [Py.bind] in Hv.
  destruct (hex_to_bytes_of_number s bnum v Hint Hv)
    as (Hrange & raw & -> & Hlen & Hval).
  eexists b, s, bnum, _, raw.
  split; [done|]. split.
  { unfold item in Hnumber. destruct (has_key b "number"); [|done].
    by injection Hnumber. }
  split; [done|]. split; [done|]. split; [reflexivity|].
  split; [by erewrite vpath_header|]. split; [lia|]. split; [done|].
  split; [done|].
  unfold get_highest_precompile.
  destruct (first_reached PRECOMPILE_TRANSITIONS bnum) as [addr|] eqn:Hfirst.
  - by apply first_reached_first_applicable.
  - destruct (first_reached_some bnum) as [addr Haddr]; [lia|]. congruence.
Qed.

(** [rpc_to_nanoreth] never makes up a required field: when it returns,
    the response is an object that has every key the code subscripts, and
    each fixed-width quantity of the header has exactly its width (32
    bytes for the difficulty, 8 for the others). *)
Theorem rpc_to_nanoreth_requires_header_fields (block_json receipts_json : json)
  (out : pyval) :
  rpc_to_nanoreth block_json receipts_json = Ok out ->
  exists b entry,
    block_json = JObj b
    /\ out = VList [entry]
    /\ Forall (fun k => has_key b k = true) required_block_keys
    /\ Forall (fun kw =>
                 bytes_of_width (snd kw)
                   (vpath entry (header_path ++ [fst kw])))
         header_widths.
Proof.
  intros Hout.
  apply rpc_to_nanoreth_inv in Hout
    as (b & s & bnum & header & transactions & txs & receipts & rcpts & hash
        & -> & Hnumber & Hint & Hheader & _ & _ & _ & _ & Hhash & ->).
  apply dict_of_Forall2 in Hheader as (items & -> & Hitems).
  eexists b, _. split; [done|]. split; [reflexivity|]. split.
  - unfold required_block_keys.
    repeat apply Forall_cons_2; try apply Forall_nil_2;
      try (by eapply item_has_key); try (by eapply raw_at_has_key);
      match goal with
      | |- has_key b ?k = true =>
          destruct (dict_of_vfield _ _ k _ Hitems eq_refl) as (v & Hv & _);
          cbn [snd] in Hv;
          first [by eapply raw_at_has_key | by eapply bytes_at_has_key]
      end.
  - unfold header_widths.
    repeat apply Forall_cons_2; try apply Forall_nil_2; cbn [fst snd];
      match goal with
      | |- bytes_of_width _ (vpath _ (header_path ++ [?k])) =>
          destruct (dict_of_vfield _ _ k _ Hitems eq_refl) as (v & Hv & Hf);
          cbn [snd] in Hv;
          erewrite vpath_header by reflexivity; rewrite Hf;
          first [by eapply bytes_at_width | by eapply hex_to_bytes_of_width]
      end.
Qed.

End ConvertedBlock.

Section Bodies.
Import Json FetchBlocksRpc.

Lemma Forall2_fst_map (entries : list (string * result pyval))
  (items : list (string * pyval)) :
  Forall2 (fun e kv => fst e = fst kv /\ snd e = Ok (snd kv)) entries items ->
  map fst items = map fst entries.
Proof.
  induction 1 as [|e kv entries items [Hk _] _ IH]; [done|].
  cbn [map]. by rewrite IH, Hk.
Qed.

Lemma convert_tx_filed (tx : json) (o : pyval) :
  convert_tx tx = Ok o -> filed_tx tx o.
Proof.
  unfold convert_tx. destruct tx as [| | | | |t]; try done.
  destruct (map_result _ _) as [sig|] eqn:Hsig; [|done]. cbn [Py.bind].
  destruct (tx_variant t) as [variant entries] eqn:Hvariant.
  destruct (dict_of entries) as [tx_inner|] eqn:Hinner; [|done].
  cbn [Py.bind]. intros [= <-].
  apply dict_of_Forall2 in Hinner as (inner & -> & Hitems).
  exists t, sig, inner. rewrite Hvariant. cbn [fst snd].
  split; [done|]. split; [done|]. split.
  - apply map_result_Forall2 in Hsig.
    inversion Hsig as [|? r ? sig1 Hr Hsig1]; subst.
    inversion Hsig1 as [|? s ? sig2 Hs Hsig2]; subst.
    inversion Hsig2 as [|? v ? sig3 Hv Hsig3]; subst.
    inversion Hsig3; subst.
    repeat constructor;
      first [by eapply bytes_at_width | by eapply hex_to_bytes_of_width].
  - by apply Forall2_fst_map.
Qed.

Lemma type_name_cases (rtype : json) (name : string) :
  type_name rtype = Ok name -> name ∈ ["Legacy"; "Eip2930"; "Eip1559"].
Proof.
  unfold type_name.
  destruct rtype as [| | |s| |]; try done; intros [= <-]; cbn [is_str];
    try set_solver.
  destruct (String.eqb s "0x1"); [set_solver|].
  destruct (String.eqb s "0x2"); set_solver.
Qed.

Lemma convert_receipt_filed (r : json) (o : pyval) :
  convert_receipt r = Ok o -> filed_receipt r o.
Proof.
  unfold convert_receipt. destruct r as [| | | | |d]; try done.
  destruct (type_name _) as [name|] eqn:Hname; [|done]. cbn [Py.bind].
  destruct (iterate (get_or d "logs" (JArr []))) as [ls|] eqn:Hls; [|done].
  cbn [Py.bind].
  destruct (map_result convert_log ls) as [logs|] eqn:Hlogs; [|done].
  cbn [Py.bind]. unfold dict_of. cbn [map_result fst snd Py.bind].
  destruct (int16_of _) as [gas|] eqn:Hgas; [|done]. cbn [Py.bind].
  intros [= <-]. exists d, name, gas, logs.
  split; [done|]. split; [done|]. split; [by eapply type_name_cases|].
  split; [done|]. intros ls' Hls'. rewrite Hls' in Hls.
  injection Hls as <-. apply map_result_Forall2 in Hlogs.
  symmetry. by eapply Forall2_length.
Qed.

(** [rpc_to_nanoreth] keeps the transactions and the receipts of the
    response one for one and in order. Each transaction is filed under a
    single variant with the fields of that variant and a signature of 32,
    32 and 8 bytes; each receipt is labelled Legacy, Eip2930 or Eip1559, is
    a success exactly for the status ["0x1"], and keeps the number of its
    logs. Receipts that are empty or false give no receipt at all. *)
Theorem rpc_to_nanoreth_keeps_bodies (block_json receipts_json : json)
  (out : pyval) :
  rpc_to_nanoreth block_json receipts_json = Ok out ->
  exists b entry txs rcpts,
    block_json = JObj b
    /\ out = VList [entry]
    /\ vpath entry ["block"; "Reth115"; "body"; "transactions"]
       = Some (VList txs)
    /\ vpath entry ["receipts"] = Some (VList rcpts)
    /\ (forall transactions,
          get_or b "transactions" (JArr []) = JArr transactions ->
          Forall2 filed_tx transactions txs)
    /\ (forall receipts,
          receipts_json = JArr receipts ->
          Forall2 filed_receipt receipts rcpts)
    /\ (truthy receipts_json = false -> rcpts = []).
Proof.
  intros Hout.
  apply rpc_to_nanoreth_inv in Hout
    as (b & s & bnum & header & transactions & txs & receipts & rcpts & hash
        & -> & _ & _ & _ & Htransactions & Htxs & Hreceipts & Hrcpts & _ & ->).
  eexists b, _, txs, rcpts.
  split; [done|]. split; [reflexivity|]. split; [reflexivity|].
  split; [reflexivity|]. split; [|split].
  - intros transactions' Heq. rewrite Heq in Htransactions.
    injection Htransactions as <-.
    eapply Forall2_impl; [exact Htxs|]. apply convert_tx_filed.
  - intros receipts' ->. unfold receipts_or_none in Hreceipts.
    assert (receipts = receipts') as <-.
    { destruct receipts' as [|r0 rest]; cbn [truthy iterate] in Hreceipts;
        by injection Hreceipts. }
    eapply Forall2_impl; [exact Hrcpts|]. apply convert_receipt_filed.
  - intros Hfalse. unfold receipts_or_none in Hreceipts.
    rewrite Hfalse in Hreceipts. injection Hreceipts as <-.
    by inversion Hrcpts.
Qed.

End Bodies.

Section Encoded.
Import Json FetchBlocksRpc.

Lemma hex_to_raw_of_hex_bytes (bs : Py.bytes) :
  hex_to_raw_of (hex_bytes bs) = Ok (VBytes bs).
Proof.
  unfold hex_to_raw_of, hex_bytes.
  assert (hex_to_raw ("0x" +:+ hexlify bs) = Ok bs) as ->; [|done].
  destruct bs as [|b bs]; [done|].
  rewrite hex_to_raw_prefixed by done.
  by rewrite hexlify_length, odd_double, fromhex_hexlify.
Qed.

Lemma hex_nonempty (n : Z) :
  String.eqb (Py.hex n) "" = false /\ String.eqb (Py.hex n) "0x" = false.
Proof.
  unfold Py.hex.
  set (u := N.to_hex_uint (Z.abs_N n)).
  assert (exists c r, HexadecimalString.NilZero.string_of_uint u = String c r)
    as (c & r & ->) by (destruct u; by eexists _, _).
  by destruct (n <? 0).
Qed.

Lemma hex_to_bytes_of_quantity (n : Z) :
  fits_u64 n -> hex_to_bytes_of (hex_quantity n) 8 = Ok (quantity8 n).
Proof.
  intros Hn. unfold hex_to_bytes_of, hex_quantity, hex_to_bytes, hex_value.
  destruct (hex_nonempty n) as [-> ->]. cbn [negb andb].
  rewrite int16_hex. cbn [Py.bind]. unfold Py.to_bytes_big, fits_u64 in *.
  destruct (Z.ltb_spec 8 0); [lia|].
  destruct (Z.ltb_spec n 0); [lia|].
  destruct (Z.leb_spec (256 ^ 8) n) as [Hbig|_];
    [change (256 ^ 8) with (2 ^ 64) in Hbig; lia|].
  done.
Qed.

(** On a response that carries the required header fields the way a
    node renders them, and nothing else, [rpc_to_nanoreth] returns: the
    header holds the very bytes and the 8-byte forms of the quantities,
    every field the response leaves out is zero ([b""] for the extra
    data), there are no transactions and no receipts, and the precompile
    address is that of the block's height. *)
Theorem rpc_to_nanoreth_decodes_encoded_header (h : header_data)
  (receipts_json : json) :
  fits_u64 (h_number h) -> fits_u64 (h_gasLimit h) ->
  fits_u64 (h_gasUsed h) -> fits_u64 (h_timestamp h) ->
  truthy receipts_json = false ->
  rpc_to_nanoreth (JObj (encode_header h)) receipts_json
  = Ok (converted_block (VBytes (h_hash h)) (decoded_header h) [] []
          (h_number h)).
Proof.
  intros Hnumber Hlimit Hused Htime Hreceipts.
  apply rpc_to_nanoreth_inv.
  exists (encode_header h), (Py.hex (h_number h)), (h_number h),
    (decoded_header h), [], [], [], [], (VBytes (h_hash h)).
  split; [done|]. split; [done|]. split; [apply int16_hex|].
  split; [|split; [done|]; split; [constructor|]; split;
           [unfold receipts_or_none; by rewrite Hreceipts|];
           split; [constructor|]; split; [|done]].
  - apply dict_of_Forall2. eexists. split; [reflexivity|].
    unfold header_entries, raw_at, raw_or, bytes_at, bytes_or, item, get_or,
      encode_header.
    cbn [has_key get String.eqb Ascii.eqb Bool.eqb orb Py.bind].
    repeat (constructor; [cbn [fst snd]; split; [reflexivity|];
      first [ apply hex_to_raw_of_hex_bytes
            | by apply hex_to_bytes_of_quantity
            | reflexivity ] |]).
    constructor.
  - unfold raw_at, item, encode_header.
    cbn [has_key get String.eqb Ascii.eqb Bool.eqb orb Py.bind].
    apply hex_to_raw_of_hex_bytes.
Qed.

End Encoded.

Lemma rpc_to_nanoreth_number_and_precompile_witness :
  exists out entry raw,
    FetchBlocksRpc.rpc_to_nanoreth sample_block (Json.JArr [sample_receipt])
    = Ok out
    /\ out = FetchBlocksRpc.VList [entry]
    /\ vpath entry (header_path ++ ["number"]) = Some (FetchBlocksRpc.VBytes raw)
    /\ Py.be_value raw = 45000000
    /\ vpath entry ["highest_precompile_address"]
       = Some (FetchBlocksRpc.VBytes (FetchBlocksRpc.address x08 x13)).
Proof.
  destruct (FetchBlocksRpc.rpc_to_nanoreth sample_block
              (Json.JArr [sample_receipt])) as [out|e] eqn:Hout;
    [|by vm_compute in Hout].
  destruct (rpc_to_nanoreth_number_and_precompile _ _ _ Hout)
    as (b & s & bnum & entry & raw & Hb & Hs & Hint & _ & -> & Hraw & _ & Hval
        & Haddr & _).
  injection Hb as <-.
  assert (bnum = 45000000) as ->.
  { vm_compute in Hs. injection Hs as <-. vm_compute in Hint. congruence. }
  by exists (FetchBlocksRpc.VList [entry]), entry, raw.
Defined.

Lemma rpc_to_nanoreth_requires_header_fields_witness :
  exists out entry,
    FetchBlocksRpc.rpc_to_nanoreth sample_block (Json.JArr [sample_receipt])
    = Ok out
    /\ out = FetchBlocksRpc.VList [entry]
    /\ bytes_of_width 32 (vpath entry (header_path ++ ["difficulty"]))
    /\ bytes_of_width 8 (vpath entry (header_path ++ ["gasUsed"])).
Proof.
  destruct (FetchBlocksRpc.rpc_to_nanoreth sample_block
              (Json.JArr [sample_receipt])) as [out|e] eqn:Hout;
    [|by vm_compute in Hout].
  destruct (rpc_to_nanoreth_requires_header_fields _ _ _ Hout)
    as (b & entry & _ & -> & _ & Hwidths).
  exists (FetchBlocksRpc.VList [entry]), entry. split; [done|]. split; [done|].
  unfold header_widths in Hwidths.
  apply Forall_cons in Hwidths as [Hdifficulty Hwidths].
  do 2 apply Forall_cons in Hwidths as [_ Hwidths].
  apply Forall_cons in Hwidths as [Hused _].
  by split.
Defined.

Lemma rpc_to_nanoreth_keeps_bodies_witness :
  exists out entry txs rcpts,
    FetchBlocksRpc.rpc_to_nanoreth sample_block (Json.JArr [sample_receipt])
    = Ok out
    /\ out = FetchBlocksRpc.VList [entry]
    /\ vpath entry ["block"; "Reth115"; "body"; "transactions"]
       = Some (FetchBlocksRpc.VList txs)
    /\ vpath entry ["receipts"] = Some (FetchBlocksRpc.VList rcpts)
    /\ Forall2 filed_tx [sample_tx] txs
    /\ Forall2 filed_receipt [sample_receipt] rcpts.
Proof.
  destruct (FetchBlocksRpc.rpc_to_nanoreth sample_block
              (Json.JArr [sample_receipt])) as [out|e] eqn:Hout;
    [|by vm_compute in Hout].
  destruct (rpc_to_nanoreth_keeps_bodies _ _ _ Hout)
    as (b & entry & txs & rcpts & Hb & -> & Htxs & Hrcpts & Hfiled & Hrfiled
        & _).
  injection Hb as <-.
  exists (FetchBlocksRpc.VList [entry]), entry, txs, rcpts.
  split; [done|]. split; [done|]. split; [done|]. split; [done|].
  split; [by apply Hfiled|by apply Hrfiled].
Defined.

Lemma rpc_to_nanoreth_decodes_encoded_header_witness :
  FetchBlocksRpc.rpc_to_nanoreth (Json.JObj (encode_header sample_header))
    (Json.JArr [])
  = Ok (converted_block (FetchBlocksRpc.VBytes (repeat xab 32)) (decoded_header sample_header)
          [] [] 45000000).
Proof.
  apply (rpc_to_nanoreth_decodes_encoded_header sample_header (Json.JArr []));
    unfold fits_u64; cbn [sample_header h_number h_gasLimit h_gasUsed
                           h_timestamp]; first [lia | reflexivity].
Defined.

(** ** The report of incomplete chunks *)

Section ChunkReport.
Import Archive CheckBlockCompleteness.

Variable files : gmap rel_path Py.bytes.
Variable latest : Z.

Local Abbreviation report_inv := (fun st : scan_state =>
  Forall (chunk_report_ok files latest) (incomplete_chunks st)
  /\ reported_missing (incomplete_chunks st) = total_missing st
  /\ forall bn, bn ∈ all_missing st ->
       expected_dir bn ∈ reported_dirs (incomplete_chunks st)).

Lemma reported_missing_app (cs1 cs2 : list (Z * Z * Z * Z)) :
  reported_missing (cs1 ++ cs2) = reported_missing cs1 + reported_missing cs2.
Proof.
  unfold reported_missing. induction cs1 as [|c cs1 IH]; [done|].
  cbn [app fold_right]. rewrite IH. lia.
Qed.

Lemma scan_chunk_report (M T : Z) (st : scan_state) :
  report_inv st -> report_inv (scan_chunk files latest M st T).
Proof.
  intros (Hok & Hsum & Hlisted). unfold scan_chunk.
  destruct (blocks_in_chunk T M latest) as [|bn expected] eqn:Hexp; [done|].
  destruct (check_chunk files T (bn :: expected)) as [|m missing] eqn:Hmiss;
    cbn [incomplete_chunks total_missing all_missing]; [done|].
  assert (chunk_missing files latest M T = m :: missing) as Hchunk
    by (unfold chunk_missing; by rewrite Hexp).
  split; [|split].
  - apply Forall_app. split; [done|]. constructor; [|done].
    unfold chunk_report_ok. rewrite Hchunk, Hexp.
    split; [done|]. split; [done|].
    pose proof (f_equal (@List.length Z) Hmiss) as Hlen.
    rewrite check_chunk_filter in Hlen.
    pose proof (filter_length_le
                  (fun bn0 => negb (exists_ files (cache_path bn0)))
                  (bn :: expected)) as Hle.
    assert (List.length (blocks_in_chunk T M latest) <= 1000)%nat as Hbound.
    { rewrite blocks_in_chunk_filter. etransitivity; [apply filter_length_le|].
      rewrite range_length. lia. }
    rewrite Hexp in Hbound. cbn [List.length] in *. lia.
  - rewrite reported_missing_app, Hsum. unfold reported_missing.
    cbn [fold_right fst snd]. lia.
  - intros h Hh. unfold reported_dirs. rewrite map_app.
    apply elem_of_app in Hh as [Hh|Hh].
    + apply elem_of_app. left. by apply Hlisted.
    + apply elem_of_app. right. cbn [map fst]. apply list_elem_of_singleton.
      rewrite <- Hmiss, check_chunk_filter in Hh.
      apply list_elem_of_In, filter_In in Hh as [Hh _].
      apply list_elem_of_In in Hh. rewrite <- Hexp in Hh.
      by apply blocks_in_chunk_elem in Hh as (_ & _ & ->).
Qed.


Lemma scan_chunks_report (M : Z) (Ts : list Z) (st : scan_state) :
  report_inv st -> report_inv (fold_left (scan_chunk files latest M) Ts st).
Proof.
  revert st. induction Ts as [|T Ts IH]; intros st Hst; [done|].
  cbn [fold_left]. apply IH. by apply scan_chunk_report.
Qed.

Lemma scan_millions_report (start : Z) (Ms : list Z) (st : scan_state) :
  report_inv st ->
  report_inv (fold_left (scan_million files start latest) Ms st).
Proof.
  revert st. induction Ms as [|M Ms IH]; intros st Hst; [done|].
  cbn [fold_left]. apply IH. by apply scan_chunks_report.
Qed.

(** The report of incomplete chunks is truthful and complete: every
    entry gives the numbers of missing and expected heights of its
    directory pair, with at least one missing and at most 1000 expected;
    the missing counts add up to [total_missing]; and the directory pair of
    every missing height is listed. *)
Theorem scan_reports_incomplete_chunks (start : Z) :
  let st := scan files start latest in
  Forall (chunk_report_ok files latest) (incomplete_chunks st)
  /\ reported_missing (incomplete_chunks st) = total_missing st
  /\ forall bn, bn ∈ all_missing st ->
       expected_dir bn ∈ reported_dirs (incomplete_chunks st).
Proof.
  cbv zeta. unfold scan. apply scan_millions_report.
  split; [constructor|]. split; [done|]. intros bn Hbn.
  by apply elem_of_nil in Hbn.
Qed.

End ChunkReport.

(** ** Malformed responses *)

Section Index.
Import Archive Json FetchBlocksRpc.

Variable server : nat -> list request -> attempt_outcome.
Variable transcode : json -> json -> result Py.bytes.
Variable write_fails : rel_path -> bool.

Lemma index_from_last_wins (results : list json)
  (acc by_id : gmap dict_key (list (string * json))) :
  index_from results acc = Ok by_id ->
  by_id = list_to_map (rev (response_entries results)) ∪ acc.
Proof.
  revert acc by_id. induction results as [|r rest IH]; intros acc by_id.
  - cbn. intros [= <-]. by rewrite (left_id ∅ (∪)).
  - cbn [index_from]. destruct (id_key r) as [[k fields]|e] eqn:Hr; [|done].
    intros Hrest. apply IH in Hrest as ->.
    assert (response_entries (r :: rest)
            = (k, fields) :: response_entries rest) as ->.
    { unfold response_entries. cbn [omap list_omap].
      unfold response_entry at 1. by rewrite Hr. }
    cbn [rev]. rewrite list_to_map_app.
    cbn [list_to_map foldr fst snd uncurry].
    rewrite <- (assoc_L (∪)). f_equal.
    rewrite insert_empty. by rewrite insert_union_singleton_l.
Qed.

Lemma index_from_raises (results : list json)
  (acc : gmap dict_key (list (string * json))) (e : Py.exn) :
  index_from results acc = Raise e -> e = Py.KeyError \/ e = Py.TypeError.
Proof.
  revert acc. induction results as [|r rest IH]; intros acc; [done|].
  cbn [index_from]. destruct (id_key r) as [[k fields]|e'] eqn:Hr.
  - apply IH.
  - intros [= <-]. unfold id_key in Hr.
    destruct r as [| | | | |fields]; try (injection Hr as <-; by right).
    destruct (has_key fields "id"); [|injection Hr as <-; by left].
    destruct (get fields "id"); try done; injection Hr as <-; by right.
Qed.

(** Responses are filed one after the other, so of several responses
    with one id the last one is kept; the ids [1] and [true] are the same
    key, and of two such responses only the second is kept. *)
Theorem index_by_id_last_wins (results : list json)
  (by_id : gmap dict_key (list (string * json))) :
  index_by_id results = Ok by_id ->
  by_id = list_to_map (rev (response_entries results))
  /\ (forall k fields rest,
        response_entries results = (rest ++ [(k, fields)])%list ->
        by_id !! k = Some fields)
  /\ (forall first second,
        get first "id" = JNum 1 -> get second "id" = JBool true ->
        index_by_id [JObj first; JObj second] = Ok {[ KInt 1 := second ]}).
Proof.
  intros Hidx. apply index_from_last_wins in Hidx.
  rewrite (right_id ∅ (∪)) in Hidx. split; [done|]. split.
  - intros k fields rest Hlast. rewrite Hidx, Hlast, rev_app_distr.
    cbn [rev app list_to_map foldr fst snd uncurry]. apply lookup_insert_eq.
  - intros first second Hfirst Hsecond. unfold index_by_id.
    cbn [index_from id_key].
    rewrite (get_has_key first "id"), Hfirst by by rewrite Hfirst.
    rewrite (get_has_key second "id"), Hsecond by by rewrite Hsecond.
    by rewrite insert_insert_eq, insert_empty.
Qed.

(** A response without an id breaks the isolation of heights: the
    [KeyError] (or [TypeError]) of the indexing leaves
    [fetch_and_write_batch] before any height is handled, and it is not a
    [RequestException], so the batch loop does not catch it and [main] ends
    with it after the first POST, nothing written. *)
Theorem unkeyed_response_aborts_run (a : args) (w : world)
  (results : list json) (e : Py.exn) :
  let missing := determine_missing a (files w) in
  let batch := Py.slice missing 0 (0 + batch_size a) in
  dry_run a = false ->
  0 < batch_size a ->
  missing <> [] ->
  attempt_result (server (posts w) (build_batch batch)) = Ok results ->
  index_by_id results = Raise e ->
  (e = Py.KeyError \/ e = Py.TypeError)
  /\ main server transcode write_fails a w
     = (Raise e,
        {| posts := S (posts w);
           log := (log w ++ [EvBatch batch; EvPost (build_batch batch)])%list;
           files := files w |}).
Proof.
  intros missing batch Hdry Hbs Hmissing Hresults Hidx.
  assert (e = Py.KeyError \/ e = Py.TypeError) as He
    by by eapply index_from_raises.
  split; [done|].
  unfold main. rewrite Hdry. fold missing.
  destruct missing as [|h0 rest] eqn:Hm; [done|].
  unfold mbind at 1, batch_loop, mbind at 1, lift, Py.range_step.
  destruct (Z.eqb_spec (batch_size a) 0) as [|_]; [lia|].
  destruct (Z.ltb_spec (batch_size a) 0) as [|_]; [lia|].
  set (n := Z.to_nat _).
  assert (exists m, n = S m) as [m ->].
  { exists (Nat.pred n). unfold n. cbn [List.length].
    assert (1 <= (Z.of_nat (S (List.length rest)) + batch_size a - 1)
                 / batch_size a)
      by (apply Z.div_le_lower_bound; lia). lia. }
  cbn [seq map for_each]. change (Z.of_nat 0 * batch_size a) with 0.
  unfold mbind at 1, loop_body. fold batch.
  unfold mbind at 1, mbind at 1, emit at 1.
  unfold fetch_and_write_batch, mbind at 1, rpc_call.
  change (seq 0 MAX_RETRIES) with (0%nat :: seq 1 4).
  rewrite rpc_attempts_return with (results := results) by done.
  unfold process_results, mbind, lift. rewrite Hidx.
  unfold after_post. cbn [posts log files].
  rewrite <- app_assoc. by destruct He as [-> | ->].
Qed.

End Index.

Lemma unkeyed_response_aborts_run_witness :
  FetchBlocksRpc.main unkeyed_server sample_transcode never_fails fast_run_1_2
    empty_world
  = (Raise Py.KeyError,
     {| FetchBlocksRpc.posts := 1;
        FetchBlocksRpc.log :=
          [FetchBlocksRpc.EvBatch [1; 2];
           FetchBlocksRpc.EvPost (FetchBlocksRpc.build_batch [1; 2])];
        FetchBlocksRpc.files := ∅ |}).
Proof.
  destruct (unkeyed_response_aborts_run unkeyed_server sample_transcode
              never_fails fast_run_1_2 empty_world
              [Json.JObj [("jsonrpc", Json.JStr "2.0");
                          ("result", Json.JNull)]]
              Py.KeyError)
    as [_ Hrun]; [reflexivity|reflexivity|by vm_compute|reflexivity
                 |reflexivity|].
  exact Hrun.
Defined.

Lemma path_scheme_agrees_off_zero_witness :
  CheckBlockCompleteness.cache_path 45000000
  = FetchBlocksRpc.block_path 45000000
  /\ DownloadBoundaryBlocks.s3_key 45000000
     = "44000000/44999000/45000000.rmp.lz4".
Proof.
  destruct (path_scheme_agrees_off_zero 45000000 ltac:(lia))
    as (Hcheck & Hfetch & Hkey & _).
  split; [by rewrite Hcheck|]. by rewrite Hkey.
Defined.

Lemma index_by_id_last_wins_witness :
  exists by_id,
    FetchBlocksRpc.index_by_id
      [ok_response 0 (Json.JStr "a"); ok_response 0 (Json.JStr "b")]
    = Ok by_id
    /\ by_id !! Json.KInt 0
       = Some [("jsonrpc", Json.JStr "2.0"); ("id", Json.JNum 0);
               ("result", Json.JStr "b")].
Proof.
  destruct (FetchBlocksRpc.index_by_id
              [ok_response 0 (Json.JStr "a"); ok_response 0 (Json.JStr "b")])
    as [by_id|e] eqn:Hidx; [|by vm_compute in Hidx].
  exists by_id. split; [done|].
  destruct (index_by_id_last_wins _ _ Hidx) as (_ & Hlast & _).
  by apply (Hlast _ _ [(Json.KInt 0,
                        [("jsonrpc", Json.JStr "2.0"); ("id", Json.JNum 0);
                         ("result", Json.JStr "a")])]).
Defined.
